(** * FinanceAdvisorSystem (App.py): fallback synthesizer, preprocessors,
      session handling and the [analyze_finances] facade.

    Conventions of the embedding.
    - Python numbers are exact rationals ([Q]); equalities between computed
      amounts are stated with [==] ([Qeq]).  Floating-point rounding is not
      modelled; where a sum of doubles overflows the two arithmetics part,
      and [Binary64] has the percentages of the fallback budget on
      doubles.  An integer too large for a double, whose product with a
      float raises OverflowError, is outside the model.
    - A Python [dict] keeps insertion order: it is an association list with
      unique keys ([dict]).  The session store and a session's state are
      keyed maps whose order is never observed: they are [gmap]s.
    - Code that can raise returns a [result]; code that also mutates the
      session service runs in the state-and-error monad [M]. *)

From Stdlib Require Import QArith Qfield Qround Lqa Ascii.
From Stdlib Require OrderedTypeEx.
From Stdlib Require Floats.PrimFloat.
From stdpp Require Import base option list sorting strings gmap.

Local Open Scope string_scope.

(** ** Python dictionaries (insertion ordered) *)

Definition dict (V : Type) : Type := list (string * V).

Fixpoint dict_get {V} (k : string) (d : dict V) : option V :=
  match d with
  | [] => None
  | (k', v) :: d' => if String.eqb k k' then Some v else dict_get k d'
  end.

(** [d[k] = v]: overwrite in place when the key exists, append otherwise. *)
Fixpoint dict_set {V} (k : string) (v : V) (d : dict V) : dict V :=
  match d with
  | [] => [(k, v)]
  | (k', v') :: d' =>
      if String.eqb k k' then (k', v) :: d' else (k', v') :: dict_set k v d'
  end.

Definition dict_keys {V} (d : dict V) : list string := map fst d.
Definition dict_values {V} (d : dict V) : list V := map snd d.

(** Python's [sum(xs)]: a left fold that starts from the integer [0]. *)
Definition sum (xs : list Q) : Q := fold_left Qplus xs 0%Q.

Definition Qlt_bool (x y : Q) : bool := negb (Qle_bool y x).

(** ** Values *)

(** JSON-like Python objects: [None], booleans, numbers, text, lists and
    dictionaries with text keys. *)
#[warnings="-register-all"]
Inductive json : Type :=
| JNull
| JBool (b : bool)
| JNum (q : Q)
| JStr (s : string)
| JList (l : list json)
| JDict (d : list (string * json)).

(** One row of the transaction table.  A field is [None] when the row has
    no such key. *)
Record transaction : Type := {
  Date : option string;
  Category : option string;
  Amount : option Q
}.

(** One debt entry; only [amount] is read by the code. *)
Record debt : Type := {
  name : option string;
  amount : option Q;
  interest_rate : option Q;
  min_payment : option Q
}.

(** A key of [financial_data]: missing, bound to [None], or bound to a
    value.  The caller in [main] binds the inactive expense source to
    [None]. *)
Inductive entry (A : Type) : Type :=
| Absent
| Null
| Given (a : A).
Arguments Absent {A}.
Arguments Null {A}.
Arguments Given {A} a.

(** [d.get(key, default)]: the default replaces a missing key only. *)
Definition get_or {A} (e : entry A) (default : A) : option A :=
  match e with
  | Absent => Some default
  | Null => None
  | Given a => Some a
  end.

(** [d.get(key)]. *)
Definition get {A} (e : entry A) : option A :=
  match e with
  | Given a => Some a
  | _ => None
  end.

Record FinancialInput : Type := {
  monthly_income : entry Q;
  dependants : entry Z;
  transactions : entry (list transaction);
  manual_expenses : entry (dict Q);
  debts : entry (list debt)
}.

(** What a session state can hold under a key. *)
Inductive value : Type :=
| VJson (j : json)
| VTransactions (txs : list transaction)
| VAmounts (d : dict Q).

(** ** Exceptions *)

Inductive exn : Type :=
| AttributeError
| TypeError
| ValueError
| DuplicateSessionError
| NotFoundError
| KeyError
| JSONDecodeError
| RecursionError
| RuntimeError (msg : string).

Inductive result (A : Type) : Type :=
| Ok (a : A)
| Raise (e : exn).
Arguments Ok {A} a.
Arguments Raise {A} e.

Definition rbind {A B} (r : result A) (k : A -> result B) : result B :=
  match r with
  | Ok a => k a
  | Raise e => Raise e
  end.

(** ** Truthiness *)

Definition nonempty {A} (l : list A) : bool :=
  match l with [] => false | _ => true end.

Definition json_truthy (j : json) : bool :=
  match j with
  | JNull => false
  | JBool b => b
  | JNum q => negb (Qeq_bool q 0)
  | JStr s => negb (String.eqb s "")
  | JList l => nonempty l
  | JDict d => nonempty d
  end.

Definition truthy (v : value) : bool :=
  match v with
  | VJson j => json_truthy j
  | VTransactions txs => nonempty txs
  | VAmounts d => nonempty d
  end.

(** Truthiness of [d.get(key)] for a list- or dict-valued key. *)
Definition entry_truthy {A} (e : entry (list A)) : bool :=
  match e with
  | Given l => nonempty l
  | _ => false
  end.

(** ** Fallback synthesizer: [_create_default_results] *)

Module Fallback.

(** The loop over [financial_data["transactions"]]:
    [expenses[category] = expenses.get(category, 0) + amount]. *)
Definition add_transaction (expenses : dict Q) (t : transaction) : dict Q :=
  let category := default "Uncategorized" (Category t) in
  let amount := default 0%Q (Amount t) in
  dict_set category (default 0%Q (dict_get category expenses) + amount)%Q expenses.

Definition aggregate (txs : list transaction) : dict Q :=
  fold_left add_transaction txs [].

(** The value of [expenses] when [total_expenses] is computed.  [None] is
    Python's [None]: [sum(expenses.values())] then raises. *)
Definition resolve_expenses (fd : FinancialInput) : option (dict Q) :=
  let expenses := get_or (manual_expenses fd) [] in
  if negb (from_option nonempty false expenses) && entry_truthy (transactions fd)
  then Some (aggregate (default [] (get (transactions fd))))
  else expenses.

Definition spending_category (total_expenses : Q) (item : string * Q) : json :=
  let '(cat, amt) := item in
  JDict [("category", JStr cat);
         ("amount", JNum amt);
         ("percentage",
          JNum (if Qlt_bool 0 total_expenses
                then amt / total_expenses * 100 else 0)%Q)].

Definition debt_to_json (d : debt) : json :=
  JDict (omap (fun '(k, v) => (fun j => (k, j)) <$> v)
           [("name", JStr <$> name d);
            ("amount", JNum <$> amount d);
            ("interest_rate", JNum <$> interest_rate d);
            ("min_payment", JNum <$> min_payment d)]).

(** [sum(debt.get("amount", 0) for debt in debts)]. *)
Definition debt_total (ds : list debt) : Q :=
  sum (map (fun d => default 0%Q (amount d)) ds).

Definition payoff_plan (total_debt rate : Q) : json :=
  JDict [("total_interest", JNum (total_debt * rate)%Q);
         ("months_to_payoff", JNum 24%Q);
         ("monthly_payment", JNum (total_debt / 24)%Q)].

Definition budget_analysis (income : Q) (expenses : dict Q) : json :=
  let total_expenses := sum (dict_values expenses) in
  JDict [("total_expenses", JNum total_expenses);
         ("monthly_income", JNum income);
         ("spending_categories",
          JList (map (spending_category total_expenses) expenses));
         ("recommendations",
          JList [JDict [("category", JStr "General");
                        ("recommendation",
                         JStr "Consider reviewing your expenses carefully");
                        ("potential_savings",
                         JNum (total_expenses * 0.1)%Q)]])].

Definition savings_strategy (income total_expenses : Q) : json :=
  JDict [("emergency_fund",
          JDict [("recommended_amount", JNum (total_expenses * 6)%Q);
                 ("current_amount", JNum 0%Q);
                 ("current_status", JStr "Not started")]);
         ("recommendations",
          JList [JDict [("category", JStr "Emergency Fund");
                        ("amount", JNum (total_expenses * 0.1)%Q);
                        ("rationale", JStr "Build emergency fund first")];
                 JDict [("category", JStr "Retirement");
                        ("amount", JNum (income * 0.15)%Q);
                        ("rationale", JStr "Long-term savings")]]);
         ("automation_techniques",
          JList [JDict [("name", JStr "Automatic Transfer");
                        ("description",
                         JStr "Set up automatic transfers on payday")]])].

Definition debt_reduction (ds : list debt) : json :=
  let total_debt := debt_total ds in
  JDict [("total_debt", JNum total_debt);
         ("debts", JList (map debt_to_json ds));
         ("payoff_plans",
          JDict [("avalanche", payoff_plan total_debt 0.2);
                 ("snowball", payoff_plan total_debt 0.25)]);
         ("recommendations",
          JList [JDict [("title", JStr "Increase Payments");
                        ("description", JStr "Increase your monthly payments");
                        ("impact", JStr "Reduces total interest paid")]])].

(** [_create_default_results(financial_data)].  The dictionary literal is
    evaluated in source order, so the first failing sub-expression decides
    the exception: [None.values()], then [None * 0.15], then iterating
    [None]. *)
Definition _create_default_results (fd : FinancialInput) : result (dict value) :=
  let monthly_income := get_or (monthly_income fd) 0%Q in
  match resolve_expenses fd with
  | None => Raise AttributeError
  | Some expenses =>
      let total_expenses := sum (dict_values expenses) in
      match monthly_income with
      | None => Raise TypeError
      | Some income =>
          match get_or (debts fd) [] with
          | None => Raise TypeError
          | Some ds =>
              Ok [("budget_analysis",
                   VJson (budget_analysis income expenses));
                  ("savings_strategy",
                   VJson (savings_strategy income total_expenses));
                  ("debt_reduction", VJson (debt_reduction ds))]
          end
      end
  end.

End Fallback.

(** ** The percentages of the fallback budget on doubles *)

(** The lines of [_create_default_results] that compute [total_expenses]
    and the percentages, on the binary64 numbers that Python's [float]
    is.  [sum] adds from the left, starting from 0; the compensation term
    that newer interpreters carry along is dropped by them when the sum
    is infinite. *)
Module Binary64.
Import PrimFloat.

Definition total_expenses (expenses : dict float) : float :=
  fold_left add (dict_values expenses) 0%float.








End Binary64.

(** ** The part of pandas used by [_preprocess_transactions] *)

(** pandas is a library, not part of App.py.  A frame is the list of its
    rows; a cell is missing when the row has no such key.  Grouping and
    sums follow the defaults of pandas: rows without a group key are left
    out of every group, group keys come out in ascending order, and sums
    skip missing cells. *)
Module Frame.

(** [col in df.columns]: a column exists as soon as one row has the key. *)
Definition has_column {A} (col : transaction -> option A)
    (df : list transaction) : bool :=
  existsb (fun t => bool_decide (is_Some (col t))) df.

Section Dates.
(** [pd.to_datetime(s).strftime('%Y-%m-%d')] on one cell; [None] when
    pandas cannot parse the text. *)
Variable to_datetime : string -> option string.

Definition normalize_row (t : transaction) : result transaction :=
  match Date t with
  | None => Ok t
  | Some d =>
      match to_datetime d with
      | Some d' =>
          Ok {| Date := Some d'; Category := Category t; Amount := Amount t |}
      | None => Raise ValueError
      end
  end.

(** [df['Date'] = pd.to_datetime(df['Date']).dt.strftime('%Y-%m-%d')]. *)
Fixpoint normalize_dates (df : list transaction) : result (list transaction) :=
  match df with
  | [] => Ok []
  | t :: df' =>
      rbind (normalize_row t) (fun t' =>
      rbind (normalize_dates df') (fun df'' => Ok (t' :: df'')))
  end.
End Dates.

Fixpoint insert_key (c : string) (keys : list string) : list string :=
  match keys with
  | [] => [c]
  | c' :: keys' =>
      match String.compare c c' with
      | Lt => c :: keys
      | Eq => keys
      | Gt => c' :: insert_key c keys'
      end
  end.

(** The group keys of [df.groupby('Category')]: the categories that occur,
    once each, in ascending order.  Rows without a category belong to no
    group. *)
Definition group_keys (df : list transaction) : list string :=
  fold_right insert_key [] (omap Category df).

Definition in_group (c : string) (t : transaction) : bool :=
  match Category t with
  | Some c' => String.eqb c c'
  | None => false
  end.

(** Modelled from the spec: the grand sum, [df['Amount'].sum()]; it skips
    missing cells. *)
Definition amount_sum (df : list transaction) : Q :=
  sum (map (fun t => default 0%Q (Amount t)) df).

(** Modelled from the spec: group by category and sum the amount per
    category, [df.groupby('Category')['Amount'].sum().to_dict()]. *)
Definition groupby_sum (df : list transaction) : dict Q :=
  map (fun c => (c, amount_sum (filter (fun t => in_group c t = true) df)))
      (group_keys df).

End Frame.

(** ** Session state and its preprocessors *)

Abbreviation state := (gmap string value).

Section Preprocessor.
Variable to_datetime : string -> option string.

(** [_preprocess_transactions(session)], as a function of the state of
    the session.  The frame [df] is local: the normalised dates live in
    it and are dropped when the function returns. *)
Definition _preprocess_transactions (st : state) : result state :=
  match st !! "transactions" with
  | Some (VTransactions transactions) =>
      if negb (nonempty transactions) then Ok st
      else
        let df := transactions in
        rbind (if Frame.has_column Date df
               then Frame.normalize_dates to_datetime df else Ok df)
          (fun df =>
             if Frame.has_column Category df && Frame.has_column Amount df
             then
               let category_spending := Frame.groupby_sum df in
               Ok (<["total_spending" := VJson (JNum (Frame.amount_sum df))]>
                     (<["category_spending" := VAmounts category_spending]> st))
             else Ok st)
  | _ => Ok st
  end.

(** [_preprocess_manual_expenses(session)]. *)
Definition _preprocess_manual_expenses (st : state) : state :=
  match st !! "manual_expenses" with
  | Some (VAmounts manual_expenses) =>
      if negb (nonempty manual_expenses) then st
      else
        <["manual_category_spending" := VAmounts manual_expenses]>
          (<["total_manual_spending" :=
               VJson (JNum (sum (dict_values manual_expenses)))]> st)
  | _ => st
  end.
End Preprocessor.

(** ** Session service *)

(** The calls received by the session service, with their arguments. *)
Inductive call : Type :=
| CreateSession (session_id : string) (st : state)
| GetSession (session_id : string)
| DeleteSession (session_id : string).

(** The session service: its sessions, and the calls it has received,
    oldest first. *)
Record service : Type := {
  sessions : gmap string state;
  calls : list call
}.

(** Code that uses the session service returns or raises, and leaves the
    service in a new condition either way. *)
Definition M (A : Type) : Type := service -> result A * service.

Definition ret {A} (a : A) : M A := fun s => (Ok a, s).

Definition bind {A B} (m : M A) (k : A -> M B) : M B :=
  fun s =>
    match m s with
    | (Ok a, s') => k a s'
    | (Raise e, s') => (Raise e, s')
    end.

Definition lift {A} (r : result A) : M A := fun s => (r, s).

(** [try: body finally: cleanup].  The cleanup runs on both exits; when it
    raises, its exception replaces the outcome of the body. *)
Definition try_finally {A} (body : M A) (cleanup : M unit) : M A :=
  fun s =>
    let '(r, s1) := body s in
    match cleanup s1 with
    | (Ok _, s2) => (r, s2)
    | (Raise e, s2) => (Raise e, s2)
    end.

Notation "'let*' x ':=' m 'in' k" := (bind m (fun x => k))
  (at level 10, x pattern, m at level 100, k at level 200, only parsing).
Notation "m ';;' k" := (bind m (fun _ => k))
  (at level 100, k at level 200, right associativity, only parsing).

Module SessionStore.

Definition record (c : call) (s : service) : service :=
  {| sessions := sessions s; calls := calls s ++ [c] |}.

(** Modelled from the spec: the session store is the session service of
    the agent framework, which is not part of App.py.  [create] fails with
    DuplicateSessionError if the id exists. *)
Definition create_session (session_id : string) (st : state) : M unit :=
  fun s =>
    let s := record (CreateSession session_id st) s in
    match sessions s !! session_id with
    | Some _ => (Raise DuplicateSessionError, s)
    | None =>
        (Ok (), {| sessions := <[session_id := st]> (sessions s);
                   calls := calls s |})
    end.

(** Modelled from the spec: [get] fails with NotFoundError if the id is
    absent. *)
Definition get_session (session_id : string) : M state :=
  fun s =>
    let s := record (GetSession session_id) s in
    match sessions s !! session_id with
    | Some st => (Ok st, s)
    | None => (Raise NotFoundError, s)
    end.

(** Modelled from the spec: [delete] is idempotent, with no error if the
    id is already absent. *)
Definition delete_session (session_id : string) : M unit :=
  fun s =>
    let s := record (DeleteSession session_id) s in
    (Ok (), {| sessions := delete session_id (sessions s); calls := calls s |}).

(** Modelled from the spec: a write through the handle returned by
    [create_session] is visible within that session id and no other.  [f]
    returns the new state, or raises and leaves the state as it was. *)
Definition update_state (session_id : string) (f : state -> result state) : M unit :=
  fun s =>
    match sessions s !! session_id with
    | None => (Raise NotFoundError, s)
    | Some st =>
        match f st with
        | Ok st' =>
            (Ok (), {| sessions := <[session_id := st']> (sessions s);
                       calls := calls s |})
        | Raise e => (Raise e, s)
        end
    end.

(** Modelled from the spec: reading [session.state] through the handle. *)
Definition read_state (session_id : string) : M state :=
  fun s =>
    match sessions s !! session_id with
    | None => (Raise NotFoundError, s)
    | Some st => (Ok st, s)
    end.

End SessionStore.

(** ** Session ids *)

(** The reading of [datetime.now()]. *)
Record datetime : Type := {
  year : nat;
  month : nat;
  day : nat;
  hour : nat;
  minute : nat;
  second : nat;
  microsecond : nat
}.

Definition valid_datetime (t : datetime) : Prop :=
  (year t < 100 * 100 /\ month t < 100 /\ day t < 100 /\
   hour t < 100 /\ minute t < 100 /\ second t < 100)%nat.

Definition digit (n : nat) : ascii := ascii_of_nat (48 + n mod 10).

(** [%m], [%d], [%H], [%M], [%S]: two decimal digits. *)
Definition pad2 (n : nat) : string :=
  String (digit (n / 10)) (String (digit n) "").

(** [%Y]: four decimal digits. *)
Definition pad4 (n : nat) : string :=
  String (digit (n / 1000)) (String (digit (n / 100)) (pad2 n)).

(** [now.strftime('%Y%m%d_%H%M%S')]: the fields of the reading, zero
    padded, without the microseconds. *)
Definition strftime (t : datetime) : string :=
  pad4 (year t) ++ pad2 (month t) ++ pad2 (day t) ++ "_" ++
  pad2 (hour t) ++ pad2 (minute t) ++ pad2 (second t).

(** [f"finance_session_{datetime.now().strftime('%Y%m%d_%H%M%S')}"]. *)
Definition make_session_id (now : datetime) : string :=
  "finance_session_" ++ strftime now.

(** Two clock readings that fall in the same second. *)
Definition same_second (t1 t2 : datetime) : Prop :=
  year t1 = year t2 /\ month t1 = month t2 /\ day t1 = day t2 /\
  hour t1 = hour t2 /\ minute t1 = minute t2 /\ second t1 = second t2.

(** ** Schema layer: the output models of the three stages *)

Module Schema.

Definition is_num (j : json) : bool :=
  match j with JNum _ => true | _ => false end.

Definition is_str (j : json) : bool :=
  match j with JStr _ => true | _ => false end.

(** [int] fields take numbers without a fractional part. *)
Definition is_int (j : json) : bool :=
  match j with
  | JNum q => Pos.eqb (Qden (Qred q)) 1
  | _ => false
  end.

Definition is_object (fields : dict json -> bool) (j : json) : bool :=
  match j with JDict d => fields d | _ => false end.

Definition is_list_of (item : json -> bool) (j : json) : bool :=
  match j with JList l => forallb item l | _ => false end.

(** [Field(...)]: the key must be there. *)
Definition required (d : dict json) (k : string) (ty : json -> bool) : bool :=
  match dict_get k d with
  | Some v => ty v
  | None => false
  end.

(** [Optional[...] = Field(None)]: the key may be missing or [None]. *)
Definition optional (d : dict json) (k : string) (ty : json -> bool) : bool :=
  match dict_get k d with
  | Some JNull | None => true
  | Some v => ty v
  end.

Definition SpendingCategory (d : dict json) : bool :=
  required d "category" is_str && required d "amount" is_num &&
  optional d "percentage" is_num.

Definition SpendingRecommendation (d : dict json) : bool :=
  required d "category" is_str && required d "recommendation" is_str &&
  optional d "potential_savings" is_num.

Definition BudgetAnalysis (d : dict json) : bool :=
  required d "total_expenses" is_num &&
  optional d "monthly_income" is_num &&
  required d "spending_categories" (is_list_of (is_object SpendingCategory)) &&
  required d "recommendations" (is_list_of (is_object SpendingRecommendation)).

Definition EmergencyFund (d : dict json) : bool :=
  required d "recommended_amount" is_num &&
  optional d "current_amount" is_num &&
  required d "current_status" is_str.

Definition SavingsRecommendation (d : dict json) : bool :=
  required d "category" is_str && required d "amount" is_num &&
  optional d "rationale" is_str.

Definition AutomationTechnique (d : dict json) : bool :=
  required d "name" is_str && required d "description" is_str.

Definition SavingsStrategy (d : dict json) : bool :=
  required d "emergency_fund" (is_object EmergencyFund) &&
  required d "recommendations" (is_list_of (is_object SavingsRecommendation)) &&
  optional d "automation_techniques" (is_list_of (is_object AutomationTechnique)).

Definition Debt (d : dict json) : bool :=
  required d "name" is_str && required d "amount" is_num &&
  required d "interest_rate" is_num && optional d "min_payment" is_num.

Definition PayoffPlan (d : dict json) : bool :=
  required d "total_interest" is_num &&
  required d "months_to_payoff" is_int &&
  optional d "monthly_payment" is_num.

Definition PayoffPlans (d : dict json) : bool :=
  required d "avalanche" (is_object PayoffPlan) &&
  required d "snowball" (is_object PayoffPlan).

Definition DebtRecommendation (d : dict json) : bool :=
  required d "title" is_str && required d "description" is_str &&
  optional d "impact" is_str.

Definition DebtReduction (d : dict json) : bool :=
  required d "total_debt" is_num &&
  required d "debts" (is_list_of (is_object Debt)) &&
  required d "payoff_plans" (is_object PayoffPlans) &&
  optional d "recommendations" (is_list_of (is_object DebtRecommendation)).

End Schema.

(** ** Coordinator *)

Inductive stage : Type := Budget | Savings | DebtStage.

#[global] Instance stage_eq_dec : EqDecision stage.
Proof. solve_decision. Defined.

(** [output_key] of the three agents. *)
Definition output_key (s : stage) : string :=
  match s with
  | Budget => "budget_analysis"
  | Savings => "savings_strategy"
  | DebtStage => "debt_reduction"
  end.

(** [output_schema] of the three agents. *)
Definition output_schema (s : stage) : json -> bool :=
  match s with
  | Budget => Schema.is_object Schema.BudgetAnalysis
  | Savings => Schema.is_object Schema.SavingsStrategy
  | DebtStage => Schema.is_object Schema.DebtReduction
  end.

(** [sub_agents] of the coordinator, in order. *)
Definition sub_agents : list stage := [Budget; Savings; DebtStage].

Module Coordinator.

(** Modelled from the spec: the keys a stage needs before it starts.  The
    sequential agent of the framework is not part of App.py. *)
Definition required_keys (s : stage) : list string :=
  match s with
  | Budget => []
  | Savings => ["budget_analysis"]
  | DebtStage => ["budget_analysis"; "savings_strategy"]
  end.

Section Pipeline.
(** The Reasoner: an artifact for a stage and a state snapshot, or a
    failure. *)
Variable reasoner : stage -> state -> option json.

(** Modelled from the spec: one stage of the pipeline.  It starts only
    with its predecessor keys present, asks the Reasoner once, validates
    the answer against the schema of the stage and writes it under the
    output key; anything else is a stage failure. *)
Definition run_stage (s : stage) (st : state) : option state :=
  if forallb (fun k => bool_decide (is_Some (st !! k))) (required_keys s)
  then
    match reasoner s st with
    | Some artifact =>
        if output_schema s artifact
        then Some (<[output_key s := VJson artifact]> st)
        else None
    | None => None
    end
  else None.

(** Modelled from the spec: the stages run in order; the first failure
    ends the run and the remaining stages are skipped. *)
Fixpoint run_stages (stages : list stage) (st : state) : state :=
  match stages with
  | [] => st
  | s :: rest =>
      match run_stage s st with
      | Some st' => run_stages rest st'
      | None => st
      end
  end.

(** Modelled from the spec: a stage failure ends the run without an
    exception. *)
Definition run (message : FinancialInput) (st : state) : result unit * state :=
  (Ok (), run_stages sub_agents st).
End Pipeline.

End Coordinator.

(** ** Facade *)

(** [parse_json_safely(data, default_value)].  [json_loads] is [json.loads]
    of the standard library: it decodes the text or raises, a
    JSONDecodeError for text that is not JSON and other exceptions besides
    (a ValueError for a numeral of more digits than the interpreter
    converts, a RecursionError for nesting too deep).  The [except] clause
    names JSONDecodeError only; ValueError is its base class, which the
    clause does not catch. *)
Definition parse_json_safely (json_loads : string -> result json)
    (data default_value : value) : result value :=
  match data with
  | VJson (JStr s) =>
      match json_loads s with
      | Ok j => Ok (VJson j)
      | Raise JSONDecodeError => Ok default_value
      | Raise e => Raise e
      end
  | _ => Ok data
  end.

(** [d[k]]. *)
Definition getitem {V} (d : dict V) (k : string) : result V :=
  match dict_get k d with
  | Some v => Ok v
  | None => Raise KeyError
  end.

Definition output_keys : list string :=
  ["budget_analysis"; "savings_strategy"; "debt_reduction"].

Definition entry_value {A} (inj : A -> value) (o : option A) : value :=
  from_option inj (VJson JNull) o.

(** [initial_state] of [analyze_finances]. *)
Definition initial_state (financial_data : FinancialInput) : state :=
  <["debts" :=
      entry_value (fun ds => VJson (JList (map Fallback.debt_to_json ds)))
        (get_or (debts financial_data) [])]>
  (<["manual_expenses" :=
      entry_value VAmounts (get_or (manual_expenses financial_data) [])]>
  (<["transactions" :=
      entry_value VTransactions (get_or (transactions financial_data) [])]>
  (<["dependants" :=
      entry_value (fun n => VJson (JNum (inject_Z n)))
        (get_or (dependants financial_data) 0%Z)]>
  (<["monthly_income" :=
      entry_value (fun q => VJson (JNum q))
        (get_or (monthly_income financial_data) 0%Q)]> ∅)))).

Section Facade.
Variable to_datetime : string -> option string.
Variable json_loads : string -> result json.
(** The runner of the coordinator agent, seen from App.py: given the
    message and the state of the session, it ends normally or raises, and
    leaves a new state. *)
Variable runner : FinancialInput -> state -> result unit * state.

(** Modelled from the spec: [runner.run_async] works on the state of the
    session it is given; a missing session is a SessionError. *)
Definition run_async (session_id : string) (new_message : FinancialInput) : M unit :=
  fun s =>
    match sessions s !! session_id with
    | None => (Raise NotFoundError, s)
    | Some st =>
        let '(r, st') := runner new_message st in
        (r, {| sessions := <[session_id := st']> (sessions s);
               calls := calls s |})
    end.

(** [parse_json_safely(value, fallback) if value else fallback], for
    [value = updated_session.state.get(key)]. *)
Definition merged_value (updated : state) (key : string) (fallback : value)
    : result value :=
  match updated !! key with
  | Some value =>
      if truthy value
      then parse_json_safely json_loads value fallback
      else Ok fallback
  | None => Ok fallback
  end.

(** The loop over the three output keys. *)
Definition collect_key (updated : state) (default_results : dict value)
    (results : dict value) (key : string) : result (dict value) :=
  rbind (getitem default_results key) (fun fallback =>
  rbind (merged_value updated key fallback) (fun merged =>
  Ok (dict_set key merged results))).

Definition collect_results (updated : state) (default_results : dict value)
    : result (dict value) :=
  fold_left (fun acc key =>
               rbind acc (fun results =>
                 collect_key updated default_results results key))
    output_keys (Ok []).

(** [analyze_finances(financial_data)], with the reading of the clock as
    an argument.  The [except] clause logs and re-raises, so only the
    [finally] clause shows in the model. *)
Definition analyze_finances (now : datetime) (financial_data : FinancialInput)
    : M (dict value) :=
  let session_id := make_session_id now in
  try_finally
    (SessionStore.create_session session_id (initial_state financial_data);;
     let* st := SessionStore.read_state session_id in
     (if from_option truthy false (st !! "transactions")
      then SessionStore.update_state session_id
             (_preprocess_transactions to_datetime)
      else ret ());;
     let* st := SessionStore.read_state session_id in
     (if from_option truthy false (st !! "manual_expenses")
      then SessionStore.update_state session_id
             (fun st => Ok (_preprocess_manual_expenses st))
      else ret ());;
     let* default_results :=
       lift (Fallback._create_default_results financial_data) in
     run_async session_id financial_data;;
     let* updated_session := SessionStore.get_session session_id in
     lift (collect_results updated_session default_results))
    (SessionStore.delete_session session_id).
End Facade.

(** ** The facade in closed form *)

(** The service with [st] as the state of one session. *)
Definition with_state (s : service) (session_id : string) (st : state) : service :=
  {| sessions := <[session_id := st]> (sessions s); calls := calls s |}.

Section Outcome.
Variable to_datetime : string -> option string.
Variable json_loads : string -> result json.
Variable runner : FinancialInput -> state -> result unit * state.

(** The state of the session when the runner starts: the initial state
    after the two preprocessors. *)
Definition prepare (financial_data : FinancialInput) : result state :=
  let st := initial_state financial_data in
  rbind (if from_option truthy false (st !! "transactions")
         then _preprocess_transactions to_datetime st else Ok st)
    (fun st =>
       Ok (if from_option truthy false (st !! "manual_expenses")
           then _preprocess_manual_expenses st else st)).

(** What [analyze_finances] returns or raises once its session is
    created. *)
Definition facade_outcome (financial_data : FinancialInput)
    : result (dict value) :=
  rbind (prepare financial_data) (fun st =>
  rbind (Fallback._create_default_results financial_data) (fun default_results =>
  let '(r, updated) := runner financial_data st in
  rbind r (fun _ => collect_results json_loads updated default_results))).
End Outcome.

(** The schema of the stage that writes [key]. *)
Definition key_schema (key : string) (j : json) : bool :=
  existsb (fun s => String.eqb key (output_key s) && output_schema s j)
          sub_agents.

(** The validated artifact held under [key], if there is one. *)
Definition validated_artifact (key : string) (st : state) : option json :=
  match st !! key with
  | Some (VJson a) => if key_schema key a then Some a else None
  | _ => None
  end.

(** Every output key of the state is missing or holds an artifact that
    passes the schema of its stage. *)
Definition artifacts_validated (st : state) : Prop :=
  forall s : stage,
    st !! output_key s = None \/
    exists a, st !! output_key s = Some (VJson a) /\ output_schema s a = true.

(** ** Reading artifacts *)

Definition field (k : string) (j : json) : option json :=
  match j with
  | JDict d => dict_get k d
  | _ => None
  end.

Fixpoint at_path (path : list string) (j : json) : option json :=
  match path with
  | [] => Some j
  | k :: path' => field k j ≫= at_path path'
  end.

Definition number (j : json) : option Q :=
  match j with
  | JNum q => Some q
  | _ => None
  end.

Definition num_at (path : list string) (j : json) : option Q :=
  at_path path j ≫= number.

(** The [amount] and [percentage] columns of [spending_categories]. *)
Definition column (k : string) (budget : json) : list Q :=
  match field "spending_categories" budget with
  | Some (JList cats) => omap (num_at [k]) cats
  | _ => []
  end.

(** The amounts of the transactions that the aggregation loop of the
    synthesizer files under category [c], in order. *)
Definition category_of (t : transaction) : string :=
  default "Uncategorized" (Category t).

Definition amounts_in (c : string) (txs : list transaction) : list Q :=
  map (fun t => default 0%Q (Amount t))
      (filter (fun t => category_of t = c) txs).

(** Two frames with the same Category and Amount cells, row by row. *)
Definition same_cells (df df' : list transaction) : Prop :=
  Forall2 (fun t t' => Category t' = Category t /\ Amount t' = Amount t) df df'.

(** No date of the frame is refused by the parser. *)
Definition dates_parse (to_datetime : string -> option string)
    (txs : list transaction) : Prop :=
  Forall (fun t => forall d, Date t = Some d -> is_Some (to_datetime d)) txs.

(** Following the words of the specification: an input is malformed when
    its monthly income or its number of dependants is negative. *)
Definition malformed (fd : FinancialInput) : bool :=
  from_option (fun q => Qlt_bool q 0) false (get (monthly_income fd)) ||
  from_option (fun n => Z.ltb n 0) false (get (dependants fd)).

(** Every date stored in the state is in normal form: the parser maps it
    to itself. *)
Definition dates_normalized (to_datetime : string -> option string)
    (st : state) : Prop :=
  forall txs, st !! "transactions" = Some (VTransactions txs) ->
    Forall (fun t => forall d, Date t = Some d -> to_datetime d = Some d) txs.

(** The order of text, as [<] compares [str] values. *)
Definition string_lt (a b : string) : Prop := String.compare a b = Lt.

(** The [category] column of [spending_categories]. *)
Definition category_names (budget : json) : list string :=
  match field "spending_categories" budget with
  | Some (JList cats) =>
      omap (fun c => match field "category" c with
                     | Some (JStr name) => Some name
                     | _ => None
                     end) cats
  | _ => []
  end.

(** A debt that passes the Debt model: it has a name, an amount and an
    interest rate. *)
Definition debt_complete (d : debt) : bool :=
  bool_decide (is_Some (name d)) && bool_decide (is_Some (amount d)) &&
  bool_decide (is_Some (interest_rate d)).

(** The rows of a frame that have a category. *)
Definition categorized (df : list transaction) : list transaction :=
  filter (fun t => is_Some (Category t)) df.

(** ** Goals, lessons and the learning path *)

Module Goals.

(** A goal of the goals tracker: [{'name', 'target', 'current',
    'deadline'}]. *)
Record goal : Type := {
  name : string;
  target : Q;
  current : Q;
  deadline : string
}.

(** The Delete button:
    [[g for g in goals if g['name'] != row['name']]]. *)
Definition delete_goal (row_name : string) (goals : list goal) : list goal :=
  filter (fun g => name g <> row_name) goals.

(** The Add Savings button: the loop adds the amount to the first goal of
    that name and breaks. *)
Fixpoint add_savings (row_name : string) (add_amt : Q) (goals : list goal)
    : list goal :=
  match goals with
  | [] => []
  | g :: goals' =>
      if String.eqb (name g) row_name
      then {| name := name g; target := target g;
              current := current g + add_amt; deadline := deadline g |}
           :: goals'
      else g :: add_savings row_name add_amt goals'
  end.

(** [sum(g['current'] for g in goals)]. *)
Definition total_saved (goals : list goal) : Q := sum (map current goals).

(** [sum(g['target'] for g in goals)]. *)
Definition total_target (goals : list goal) : Q := sum (map target goals).

End Goals.

Module Lessons.

Record question : Type := {
  q : string;
  a : list string;
  correct : nat
}.

Record Lesson : Type := {
  title : string;
  content : string;
  quiz : list question
}.

Definition lessons : list Lesson :=
  [{| title := "Budgeting Basics";
      content := "Learn how to create and stick to a budget. Key steps: Track income/expenses, set spending limits, review monthly.";
      quiz :=
        [{| q := "What is the first step in budgeting?";
            a := ["Track your income and expenses"; "Invest in stocks";
                  "Apply for a loan"];
            correct := 0 |};
         {| q := "What percentage of income is typically recommended for housing?";
            a := ["10%"; "30%"; "50%"];
            correct := 1 |}] |};
   {| title := "Understanding Credit Scores";
      content := "Your credit score affects loan rates. Pay bills on time, keep credit usage low, check your report annually.";
      quiz :=
        [{| q := "Which action improves your credit score?";
            a := ["Missing payments"; "Paying bills on time";
                  "Maxing out credit cards"];
            correct := 1 |}] |};
   {| title := "Investing 101";
      content := "Investing helps grow your wealth. Start early, diversify, and understand your risk tolerance.";
      quiz :=
        [{| q := "What does diversification mean?";
            a := ["Investing in one stock";
                  "Spreading investments across assets"; "Keeping cash only"];
            correct := 1 |}] |}].

End Lessons.

(** [suggest_learning_path(financial_data, goals)]. *)
Definition suggest_learning_path (financial_data : FinancialInput)
    (goals : list Goals.goal) : list string :=
  let path : list string := [] in
  let path :=
    if entry_truthy (debts financial_data)
       && Qlt_bool 0 (Fallback.debt_total
                        (default [] (get (debts financial_data))))
    then (path ++ ["Understanding Credit Scores"])%list else path in
  let path :=
    if entry_truthy (manual_expenses financial_data)
       || entry_truthy (transactions financial_data)
    then (path ++ ["Budgeting Basics"])%list else path in
  let path :=
    if nonempty goals
       && existsb (fun g => Qlt_bool 1000 (Goals.target g)) goals
    then (path ++ ["Investing 101"])%list else path in
  if nonempty path then path else map Lessons.title Lessons.lessons.

(** ** Calendar dates and rounding *)

(** [datetime.date]. *)
Record date : Type := {
  date_year : nat;
  date_month : nat;
  date_day : nat
}.

Definition is_leap (y : nat) : bool :=
  (y mod 4 =? 0)%nat && (negb (y mod 100 =? 0)%nat || (y mod 400 =? 0)%nat).

Definition days_in_month (y m : nat) : nat :=
  match m with
  | 2 => if is_leap y then 29 else 28
  | 4 | 6 | 9 | 11 => 30
  | _ => 31
  end.

(** The dates that [datetime.date] can hold: years 1 to 9999. *)
Definition valid_date (d : date) : bool :=
  (1 <=? date_year d)%nat && (date_year d <? 100 * 100)%nat &&
  (1 <=? date_month d)%nat && (date_month d <=? 12)%nat &&
  (1 <=? date_day d)%nat &&
  (date_day d <=? days_in_month (date_year d) (date_month d))%nat.

(** [d.replace(year=y, month=m, day=dd)]: ValueError when there is no
    such day. *)
Definition replace (y m dd : nat) : result date :=
  let d := {| date_year := y; date_month := m; date_day := dd |} in
  if valid_date d then Ok d else Raise ValueError.

(** [str(d)]. *)
Definition isoformat (d : date) : string :=
  pad4 (date_year d) ++ "-" ++ pad2 (date_month d) ++ "-" ++ pad2 (date_day d).

(** Rounding to the nearest integer, ties to the even one. *)
Definition round_half_even (x : Q) : Z :=
  let f := Qfloor x in
  match (x - inject_Z f ?= 1 # 2)%Q with
  | Lt => f
  | Gt => (f + 1)%Z
  | Eq => if Z.even f then f else (f + 1)%Z
  end.

(** [round(x, -2)]. *)
Definition round_hundreds (x : Q) : Q :=
  (inject_Z (round_half_even (x / 100)) * 100)%Q.

(** ** Smart goals *)

(** The [expenses] of [suggest_smart_goals]: the manual expenses if there
    are any, else the transactions, else 0. *)
Definition known_expenses (user_data : FinancialInput) : Q :=
  if entry_truthy (manual_expenses user_data)
  then sum (dict_values (default [] (get (manual_expenses user_data))))
  else if entry_truthy (transactions user_data)
  then sum (map (fun t => default 0%Q (Amount t))
                (default [] (get (transactions user_data))))
  else 0%Q.

(** [suggest_smart_goals(user_data)], with the day read from the clock as
    an argument. *)
Definition suggest_smart_goals (today : date) (user_data : FinancialInput)
    : result (list Goals.goal) :=
  let expenses := known_expenses user_data in
  rbind
    (if Qlt_bool 0 expenses
     then
       let ef_target := round_hundreds (expenses * 3) in
       rbind (replace (date_year today + 1) (date_month today) (date_day today))
         (fun day =>
            Ok [{| Goals.name := "Emergency Fund"; Goals.target := ef_target;
                   Goals.current := 0; Goals.deadline := isoformat day |}])
     else Ok [])
    (fun goals =>
  match get_or (monthly_income user_data) 0%Q with
  | None => Raise TypeError
  | Some income =>
  rbind
    (if Qlt_bool expenses income && Qlt_bool 0 income
     then
       let vac_target :=
         (if Qlt_bool 0 expenses then 0.5 * expenses else 1000)%Q in
       rbind (replace (date_year today) 12 31)
         (fun day =>
            Ok (goals ++
                [{| Goals.name := "Vacation";
                    Goals.target := round_hundreds vac_target;
                    Goals.current := 0;
                    Goals.deadline := isoformat day |}])%list)
     else Ok goals)
    (fun goals =>
  if entry_truthy (debts user_data)
  then
    let total_debt :=
      Fallback.debt_total (default [] (get (debts user_data))) in
    if Qlt_bool 0 total_debt
    then
      rbind (replace (date_year today + 2) (date_month today) (date_day today))
        (fun day =>
           Ok (goals ++
               [{| Goals.name := "Debt Payoff"; Goals.target := total_debt;
                   Goals.current := 0;
                   Goals.deadline := isoformat day |}])%list)
    else Ok goals
  else Ok goals)
  end).

(** ** What-if simulation *)

(** [max(0, x)]. *)
Definition max0 (x : Q) : Q := if Qlt_bool 0 x then x else 0%Q.

(** The variables of the projection loop. *)
Record projection : Type := {
  savings : Q;
  debt_left : Q;
  proj_savings : list Q;
  proj_debt : list Q
}.

(** One turn of [for m in range(sim_months)]. *)
Definition simulation_step (sim_income sim_expenses sim_debt_payment
    sim_savings : Q) (p : projection) : projection :=
  let savings :=
    (savings p +
     (sim_savings +
      max0 (sim_income - sim_expenses - sim_debt_payment - sim_savings)))%Q in
  let debt := max0 (debt_left p - sim_debt_payment) in
  {| savings := savings; debt_left := debt;
     proj_savings := (proj_savings p ++ [savings])%list;
     proj_debt := (proj_debt p ++ [debt])%list |}.

(** The loop behind the Run Simulation button. *)
Definition run_simulation (sim_income sim_expenses sim_debt sim_debt_payment
    sim_savings : Q) (sim_months : nat) : projection :=
  Nat.iter sim_months
    (simulation_step sim_income sim_expenses sim_debt_payment sim_savings)
    {| savings := 0; debt_left := sim_debt;
       proj_savings := []; proj_debt := [] |}.

(** ** The input built by [main] *)

(** The categories of the manual entry form. *)
Definition expense_categories : list string :=
  ["Housing"; "Utilities"; "Food"; "Transportation"; "Healthcare";
   "Entertainment"; "Personal"; "Savings"; "Other"].

(** The two options of the expense radio. *)
Definition expense_options : list string :=
  ["📤 Upload CSV Transactions"; "✍️ Enter Manually"].

(** The [financial_data] that [main] passes to [analyze_finances] when the
    Analyze button is pressed; [None] when [main] returns before.
    [expense_option] is the choice of the expense radio, [uploaded] the
    rows of the uploaded file if there is a valid one, [entered] the
    amounts of the manual form.  The test that guards the early return
    compares the choice with the text without the pictogram. *)
Definition main_financial_data (monthly_income : Q) (dependants : Z)
    (expense_option : string) (uploaded : option (list transaction))
    (entered : string -> Q) (debts : list debt) : option FinancialInput :=
  let upload := String.eqb expense_option "📤 Upload CSV Transactions" in
  let manual_expenses :=
    if upload then []
    else map (fun cat => (cat, entered cat)) expense_categories in
  let use_manual_expenses := negb upload in
  let transactions_df := if upload then uploaded else None in
  if String.eqb expense_option "Upload CSV Transactions"
     && bool_decide (transactions_df = None)
  then None
  else
    Some {| monthly_income := Given monthly_income;
            dependants := Given dependants;
            transactions := from_option Given Null transactions_df;
            manual_expenses :=
              if use_manual_expenses then Given manual_expenses else Null;
            debts := Given debts |}.

(** The three goals that [suggest_smart_goals] can suggest, by deadline. *)
Definition emergency_fund (expenses : Q) (deadline : string) : Goals.goal :=
  {| Goals.name := "Emergency Fund";
     Goals.target := round_hundreds (expenses * 3);
     Goals.current := 0; Goals.deadline := deadline |}.

Definition vacation (expenses : Q) (deadline : string) : Goals.goal :=
  {| Goals.name := "Vacation";
     Goals.target :=
       round_hundreds (if Qlt_bool 0 expenses then 0.5 * expenses else 1000)%Q;
     Goals.current := 0; Goals.deadline := deadline |}.

Definition debt_payoff (total_debt : Q) (deadline : string) : Goals.goal :=
  {| Goals.name := "Debt Payoff"; Goals.target := total_debt;
     Goals.current := 0; Goals.deadline := deadline |}.

(** The conditions under which each goal is suggested. *)
Definition wants_vacation (user_data : FinancialInput) (income : Q) : bool :=
  Qlt_bool (known_expenses user_data) income && Qlt_bool 0 income.

Definition owes (user_data : FinancialInput) : bool :=
  entry_truthy (debts user_data)
  && Qlt_bool 0 (Fallback.debt_total (default [] (get (debts user_data)))).

(** ** Sample inputs *)

(** The scenario of the specification: manual expenses and one debt. *)
Definition scenario : FinancialInput :=
  {| monthly_income := Given 3000%Q;
     dependants := Given 0%Z;
     transactions := Null;
     manual_expenses := Given [("Housing", 1200%Q); ("Food", 300%Q)];
     debts := Given [{| name := Some "Card"; amount := Some 2000%Q;
                        interest_rate := Some 20%Q;
                        min_payment := Some 50%Q |}] |}.

(** What [main] builds for an upload without rows: the manual source is
    bound to [None] and the transaction list is empty. *)
Definition empty_upload : FinancialInput :=
  {| monthly_income := Given 3000%Q;
     dependants := Given 0%Z;
     transactions := Given [];
     manual_expenses := Null;
     debts := Given [] |}.

(** Inputs whose expense sources are both bound to [None]. *)
Definition no_source : FinancialInput :=
  {| monthly_income := Given 3000%Q;
     dependants := Given 0%Z;
     transactions := Null;
     manual_expenses := Null;
     debts := Given [] |}.

(** Two readings of the clock, 750 microseconds apart. *)
Definition noon : datetime :=
  {| year := 2025; month := 6; day := 1;
     hour := 12; minute := 0; second := 0; microsecond := 120 |}.

Definition noon_later : datetime :=
  {| year := 2025; month := 6; day := 1;
     hour := 12; minute := 0; second := 0; microsecond := 870 |}.

(** A stand-in for [pd.to_datetime(...).strftime('%Y-%m-%d')] on two
    layouts, YYYY-MM-DD and YYYY/MM/DD; any other text is refused. *)
Definition is_digit (c : ascii) : bool :=
  (48 <=? nat_of_ascii c)%nat && (nat_of_ascii c <=? 57)%nat.

Definition is_separator (c : ascii) : bool :=
  Ascii.eqb c "-" || Ascii.eqb c "/".

Definition iso_date (s : string) : option string :=
  match String.list_ascii_of_string s with
  | [y1; y2; y3; y4; s1; m1; m2; s2; d1; d2] =>
      if forallb is_digit [y1; y2; y3; y4; m1; m2; d1; d2]
         && is_separator s1 && is_separator s2
      then Some (String.string_of_list_ascii
                   [y1; y2; y3; y4; "-"; m1; m2; "-"; d1; d2]%char)
      else None
  | _ => None
  end.

(** A purchase dated with slashes. *)
Definition groceries : transaction :=
  {| Date := Some "2024/01/05"; Category := Some "Food"; Amount := Some 10%Q |}.

(** A row without a category. *)
Definition unfiled : transaction :=
  {| Date := Some "2024-01-06"; Category := None; Amount := Some 4%Q |}.

(** Session states that hold only transactions. *)
Definition state_of (txs : list transaction) : state :=
  {[ "transactions" := VTransactions txs ]}.

(** A negative income: malformed by the data model of the
    specification. *)
Definition overdrawn : FinancialInput :=
  {| monthly_income := Given (-500)%Q;
     dependants := Given 0%Z;
     transactions := Null;
     manual_expenses := Given [("Housing", 1200%Q)];
     debts := Given [] |}.

Definition no_sessions : service := {| sessions := ∅; calls := [] |}.

(** A Reasoner that is unavailable. *)
Definition unavailable : stage -> state -> option json :=
  fun _ _ => None.

(** A budget artifact with one category. *)
Definition small_budget : json :=
  JDict [("total_expenses", JNum 1500%Q);
         ("spending_categories",
          JList [JDict [("category", JStr "Housing");
                        ("amount", JNum 1500%Q)]]);
         ("recommendations", JList [])].

(** A Reasoner that answers the Budget stage only. *)
Definition budget_only : stage -> state -> option json :=
  fun s _ => match s with Budget => Some small_budget | _ => None end.

(** A text of [n] digits 9. *)
Fixpoint nines (n : nat) : string :=
  match n with
  | O => EmptyString
  | S n' => String "9" (nines n')
  end.

Fixpoint all_nines (s : string) : bool :=
  match s with
  | EmptyString => true
  | String c rest => Ascii.eqb c "9" && all_nines rest
  end.

(** A decoder that knows one text; like the interpreter it refuses with
    ValueError a numeral of more than 4300 digits, and it takes every
    other text for malformed. *)
Definition loads_42 (s : string) : result json :=
  if String.eqb s "42" then Ok (JNum 42%Q)
  else if all_nines s && (4300 <? String.length s)%nat then Raise ValueError
  else Raise JSONDecodeError.

(** A numeral of 4301 digits. *)
Definition long_numeral : string := nines 4301.

(** A runner that leaves that numeral as budget analysis. *)
Definition writes_long_numeral (message : FinancialInput) (st : state)
    : result unit * state :=
  (Ok (), <["budget_analysis" := VJson (JStr long_numeral)]> st).

(** A runner that leaves the text "42" as budget analysis. *)
Definition writes_42 (message : FinancialInput) (st : state)
    : result unit * state :=
  (Ok (), <["budget_analysis" := VJson (JStr "42")]> st).

(** A runner that fails. *)
Definition crashes (message : FinancialInput) (st : state)
    : result unit * state :=
  (Raise (RuntimeError "model unavailable"), st).

(** An upload of three rows, one of them without a category. *)
Definition upload : FinancialInput :=
  {| monthly_income := Given 3000%Q;
     dependants := Given 2%Z;
     transactions := Given [groceries; unfiled; groceries];
     manual_expenses := Null;
     debts := Given [{| name := None; amount := Some 700%Q;
                        interest_rate := Some 9%Q; min_payment := None |}] |}.

(** A row whose date the parser refuses, and an upload that has it. *)
Definition misdated_row : transaction :=
  {| Date := Some "yesterday"; Category := Some "Food"; Amount := Some 3%Q |}.

Definition misdated : FinancialInput :=
  {| monthly_income := Given 3000%Q;
     dependants := Given 0%Z;
     transactions := Given [groceries; misdated_row];
     manual_expenses := Null;
     debts := Given [] |}.

(** A runner that leaves a text that does not decode as budget analysis. *)
Definition writes_broken (message : FinancialInput) (st : state)
    : result unit * state :=
  (Ok (), <["budget_analysis" := VJson (JStr "{")]> st).

(** A service where another run holds the session of [noon]. *)
Definition busy : service :=
  {| sessions := {[ make_session_id noon := initial_state scenario ]};
     calls := [] |}.

(** A leap day and an ordinary day. *)
Definition leap_day : date :=
  {| date_year := 2024; date_month := 2; date_day := 29 |}.

Definition june_first : date :=
  {| date_year := 2025; date_month := 6; date_day := 1 |}.

(** Expenses of 12 a month. *)
Definition frugal : FinancialInput :=
  {| monthly_income := Given 10%Q;
     dependants := Given 0%Z;
     transactions := Null;
     manual_expenses := Given [("Food", 12%Q)];
     debts := Given [] |}.

(** Two goals of one name, and a third. *)
Definition car : Goals.goal :=
  {| Goals.name := "Car"; Goals.target := 5000; Goals.current := 100;
     Goals.deadline := "2026-01-01" |}.

Definition car_again : Goals.goal :=
  {| Goals.name := "Car"; Goals.target := 9000; Goals.current := 0;
     Goals.deadline := "2027-01-01" |}.

Definition trip : Goals.goal :=
  {| Goals.name := "Trip"; Goals.target := 1200; Goals.current := 300;
     Goals.deadline := "2025-12-31" |}.

(** * Properties *)

(** ** Sums of rationals *)

Lemma fold_Qplus_from (l : list Q) (a : Q) :
  (fold_left Qplus l a == a + fold_left Qplus l 0)%Q.
Proof.
  revert a. induction l as [|x l IH]; intros a; simpl.
  - ring.
  - rewrite (IH (a + x)%Q), (IH (0 + x)%Q). ring.
Qed.

Lemma sum_cons (x : Q) (l : list Q) : (sum (x :: l) == x + sum l)%Q.
Proof.
  unfold sum; simpl. rewrite fold_Qplus_from. ring.
Qed.

Lemma sum_nil : sum [] = 0%Q.
Proof. reflexivity. Qed.


Lemma Qlt_bool_iff (x y : Q) : Qlt_bool x y = true <-> (x < y)%Q.
Proof.
  unfold Qlt_bool. rewrite negb_true_iff. split.
  - intros H. apply Qnot_le_lt. intros Hle.
    apply Qle_bool_iff in Hle. congruence.
  - intros H. destruct (Qle_bool y x) eqn:E; [|reflexivity].
    apply Qle_bool_iff in E. exfalso. exact (Qlt_not_le _ _ H E).
Qed.

(** ** Fallback synthesizer *)

Module FallbackFacts.
Import Fallback.

Lemma column_amount (income : Q) (expenses : dict Q) :
  column "amount" (budget_analysis income expenses) = dict_values expenses.
Proof.
  unfold column, budget_analysis; simpl.
  generalize (sum (dict_values expenses)) as total.
  intros total. induction expenses as [|[c a] l IH]; simpl; [reflexivity|].
  f_equal; exact IH.
Qed.

Lemma column_percentage (income : Q) (expenses : dict Q) :
  column "percentage" (budget_analysis income expenses) =
  map (fun amt => if Qlt_bool 0 (sum (dict_values expenses))
                  then amt / sum (dict_values expenses) * 100 else 0)%Q
      (dict_values expenses).
Proof.
  unfold column, budget_analysis; simpl.
  generalize (sum (dict_values expenses)) as total.
  intros total. induction expenses as [|[c a] l IH]; simpl; [reflexivity|].
  f_equal; exact IH.
Qed.

(** What a successful run of the synthesizer returns. *)
Lemma _create_default_results_ok (fd : FinancialInput) (results : dict value) :
  _create_default_results fd = Ok results ->
  exists expenses income ds,
    resolve_expenses fd = Some expenses /\
    get_or (monthly_income fd) 0%Q = Some income /\
    get_or (debts fd) [] = Some ds /\
    results =
      [("budget_analysis", VJson (budget_analysis income expenses));
       ("savings_strategy",
        VJson (savings_strategy income (sum (dict_values expenses))));
       ("debt_reduction", VJson (debt_reduction ds))].
Proof.
  unfold _create_default_results.
  destruct (resolve_expenses fd) as [expenses|]; [|discriminate].
  destruct (get_or (monthly_income fd) 0%Q) as [income|]; [|discriminate].
  destruct (get_or (debts fd) []) as [ds|]; [|discriminate].
  intros [= <-]. now exists expenses, income, ds.
Qed.

(** The synthesizer returns exactly when no key it computes with is bound
    to [None]: the expense source it settles on, the income, the debts. *)
Lemma _create_default_results_returns (fd : FinancialInput) :
  (exists results, _create_default_results fd = Ok results) <->
  (manual_expenses fd <> Null \/ entry_truthy (transactions fd) = true) /\
  monthly_income fd <> Null /\ debts fd <> Null.
Proof.
  unfold _create_default_results, resolve_expenses. split.
  - intros [results H].
    destruct (manual_expenses fd) as [| |d], (monthly_income fd),
      (debts fd), (entry_truthy (transactions fd));
      simpl in H; try discriminate; try destruct (nonempty d);
      simpl in H; try discriminate; repeat split; auto; try discriminate;
      left; discriminate.
  - intros ([Hm|Ht] & Hi & Hd);
      destruct (manual_expenses fd) as [| |d], (monthly_income fd),
        (debts fd), (entry_truthy (transactions fd));
      try congruence; simpl; try destruct (nonempty d); simpl; eauto.
Qed.

End FallbackFacts.

Section FallbackClaims.
Import Fallback FallbackFacts.

Lemma category_names_budget (income : Q) (expenses : dict Q) :
  category_names (budget_analysis income expenses) = dict_keys expenses.
Proof.
  unfold category_names, budget_analysis; simpl.
  generalize (sum (dict_values expenses)) as total. intros total.
  induction expenses as [|[c a] l IH]; simpl; [reflexivity|].
  f_equal; exact IH.
Qed.

(** C6: whenever the fallback synthesizer returns, its debt_reduction has
    total_debt equal to the sum of the amounts of the input debts (a debt
    without amount counts 0), total_interest of 20% of it in the avalanche
    plan and 25% of it in the snowball plan, months_to_payoff 24 and
    monthly_payment total_debt / 24 in both plans, which is 0 when there
    are no debts. *)
Theorem fallback_debt_reduction (fd : FinancialInput) (results : dict value) :
  _create_default_results fd = Ok results ->
  exists plan ds total,
    dict_get "debt_reduction" results = Some (VJson plan) /\
    get_or (debts fd) [] = Some ds /\
    total = sum (map (fun d => default 0%Q (amount d)) ds) /\
    num_at ["total_debt"] plan = Some total /\
    (exists i, num_at ["payoff_plans"; "avalanche"; "total_interest"] plan = Some i /\
               (i == (20 # 100) * total)%Q) /\
    (exists i, num_at ["payoff_plans"; "snowball"; "total_interest"] plan = Some i /\
               (i == (25 # 100) * total)%Q) /\
    num_at ["payoff_plans"; "avalanche"; "months_to_payoff"] plan = Some 24%Q /\
    num_at ["payoff_plans"; "snowball"; "months_to_payoff"] plan = Some 24%Q /\
    num_at ["payoff_plans"; "avalanche"; "monthly_payment"] plan = Some (total / 24)%Q /\
    num_at ["payoff_plans"; "snowball"; "monthly_payment"] plan = Some (total / 24)%Q /\
    (ds = [] -> (total / 24 == 0)%Q).
Proof.
  intros H.
  destruct (_create_default_results_ok _ _ H)
    as (expenses & income & ds & _ & _ & Hds & ->).
  exists (debt_reduction ds), ds, (debt_total ds).
  repeat split; try reflexivity; try assumption.
  - eexists. split; [reflexivity|]. simpl. ring.
  - eexists. split; [reflexivity|]. simpl. ring.
  - intros ->. reflexivity.
Qed.

(** C6, at the scenario of the specification: one debt of 2000. *)
Lemma fallback_debt_reduction_scenario :
  exists results,
    _create_default_results scenario = Ok results /\
    exists plan ds total,
      dict_get "debt_reduction" results = Some (VJson plan) /\
      get_or (debts scenario) [] = Some ds /\
      total = sum (map (fun d => default 0%Q (amount d)) ds) /\
      num_at ["total_debt"] plan = Some total /\
      (exists i, num_at ["payoff_plans"; "avalanche"; "total_interest"] plan = Some i /\
                 (i == (20 # 100) * total)%Q) /\
      (exists i, num_at ["payoff_plans"; "snowball"; "total_interest"] plan = Some i /\
                 (i == (25 # 100) * total)%Q) /\
      num_at ["payoff_plans"; "avalanche"; "months_to_payoff"] plan = Some 24%Q /\
      num_at ["payoff_plans"; "snowball"; "months_to_payoff"] plan = Some 24%Q /\
      num_at ["payoff_plans"; "avalanche"; "monthly_payment"] plan = Some (total / 24)%Q /\
      num_at ["payoff_plans"; "snowball"; "monthly_payment"] plan = Some (total / 24)%Q /\
      (ds = [] -> (total / 24 == 0)%Q).
Proof.
  eexists. split; [reflexivity|].
  apply (fallback_debt_reduction scenario). reflexivity.
Defined.

End FallbackClaims.

(** ** Expense source of the fallback synthesizer *)

Section ExpenseSource.
Import Fallback FallbackFacts.

Lemma dict_get_set {V} (k k' : string) (v : V) (d : dict V) :
  dict_get k (dict_set k' v d) =
  if String.eqb k k' then Some v else dict_get k d.
Proof.
  induction d as [|[k0 v0] d IH]; simpl.
  - reflexivity.
  - destruct (String.eqb_spec k' k0) as [->|Hne]; simpl.
    + destruct (String.eqb k k0); reflexivity.
    + rewrite IH. destruct (String.eqb_spec k k') as [->|]; [|reflexivity].
      apply String.eqb_neq in Hne. now rewrite Hne.
Qed.

Lemma elem_of_dict_keys_set {V} (x k : string) (v : V) (d : dict V) :
  x ∈ dict_keys (dict_set k v d) <-> x = k \/ x ∈ dict_keys d.
Proof.
  unfold dict_keys. induction d as [|[k0 v0] d IH]; simpl.
  - rewrite elem_of_cons. tauto.
  - destruct (String.eqb_spec k k0) as [->|Hne]; simpl.
    + rewrite elem_of_cons. tauto.
    + rewrite !elem_of_cons, IH. tauto.
Qed.

(** An assignment keeps the keys of a dictionary distinct. *)
Lemma dict_set_NoDup {V} (k : string) (v : V) (d : dict V) :
  NoDup (dict_keys d) -> NoDup (dict_keys (dict_set k v d)).
Proof.
  induction d as [|[k0 v0] d IH]; simpl.
  - intros _. apply NoDup_singleton.
  - intros Hd. apply NoDup_cons in Hd as [Hk0 Hd].
    destruct (String.eqb_spec k k0) as [->|Hne]; simpl.
    + now apply NoDup_cons.
    + apply NoDup_cons. split; [|now apply IH].
      fold (dict_keys (dict_set k v d)). rewrite elem_of_dict_keys_set.
      intros [->|Hin]; [now apply Hne|now apply Hk0].
Qed.

Lemma aggregate_NoDup (txs : list transaction) :
  NoDup (dict_keys (aggregate txs)).
Proof.
  unfold aggregate.
  assert (NoDup (dict_keys ([] : dict Q))) as H by constructor.
  revert H. generalize ([] : dict Q) as acc.
  induction txs as [|t txs IH]; intros acc Hacc; simpl; [exact Hacc|].
  apply IH, dict_set_NoDup, Hacc.
Qed.

Lemma fold_add_transaction (c : string) (txs : list transaction) (acc : dict Q) :
  dict_get c (fold_left add_transaction txs acc) =
  match amounts_in c txs with
  | [] => dict_get c acc
  | amts => Some (fold_left Qplus amts (default 0%Q (dict_get c acc)))
  end.
Proof.
  revert acc. induction txs as [|t txs IH]; intros acc; [reflexivity|].
  simpl fold_left. rewrite IH. unfold amounts_in. rewrite filter_cons.
  assert (dict_get c (add_transaction acc t) =
          if String.eqb c (category_of t)
          then Some (default 0 (dict_get (category_of t) acc)
                     + default 0 (Amount t))%Q
          else dict_get c acc) as ->.
  { unfold add_transaction. fold (category_of t). apply dict_get_set. }
  destruct (decide (category_of t = c)) as [->|Hne].
  - rewrite String.eqb_refl. simpl.
    now destruct (map _ (filter _ txs)).
  - apply not_eq_sym, String.eqb_neq in Hne. now rewrite Hne.
Qed.

(** The aggregation loop sums the amounts per category, in the order of
    the transactions. *)
Lemma aggregate_get (c : string) (txs : list transaction) :
  dict_get c (aggregate txs) =
  match amounts_in c txs with
  | [] => None
  | amts => Some (sum amts)
  end.
Proof.
  unfold aggregate. rewrite fold_add_transaction. reflexivity.
Qed.

(** The order of the sources where the synthesizer returns: non-empty
    manual expenses first, then non-empty transactions, then nothing. *)
Lemma resolve_expenses_order (fd : FinancialInput) :
  (forall d, manual_expenses fd = Given d -> d <> [] ->
     resolve_expenses fd = Some d) /\
  (forall txs, from_option nonempty false (get (manual_expenses fd)) = false ->
     transactions fd = Given txs -> txs <> [] ->
     resolve_expenses fd = Some (aggregate txs)) /\
  (manual_expenses fd <> Null -> 
   from_option nonempty false (get (manual_expenses fd)) = false ->
   entry_truthy (transactions fd) = false ->
     resolve_expenses fd = Some [] /\ sum (dict_values []) = 0%Q).
Proof.
  unfold resolve_expenses. split; [|split].
  - intros d -> Hd. simpl. destruct d; [done|reflexivity].
  - intros txs Hm -> Ht.
    destruct (manual_expenses fd) as [| |d]; simpl in *;
      try rewrite Hm; destruct txs; done.
  - intros Hnull Hm Ht. split; [|reflexivity].
    destruct (manual_expenses fd) as [| |[|]]; simpl in *; try done;
      now rewrite Ht.
Qed.




(** C7: with the manual expenses bound to [None] and no transaction to
    aggregate, the synthesizer does not settle on a total of 0: it raises
    AttributeError, both for an upload without rows and when both sources
    are [None]. *)
Theorem fallback_without_source_raises :
  _create_default_results empty_upload = Raise AttributeError /\
  _create_default_results no_source = Raise AttributeError.
Proof. split; reflexivity. Qed.

Lemma fallback_null_manual_raises (fd : FinancialInput) :
  manual_expenses fd = Null ->
  entry_truthy (transactions fd) = false ->
  _create_default_results fd = Raise AttributeError.
Proof.
  intros Hm Ht. unfold _create_default_results, resolve_expenses.
  now rewrite Hm, Ht.
Qed.

End ExpenseSource.

(** ** Session ids *)

Section SessionIds.

Lemma digit_inj (a b : nat) : digit a = digit b -> a mod 10 = b mod 10.
Proof.
  unfold digit. intros H. apply (f_equal nat_of_ascii) in H.
  pose proof (Nat.mod_upper_bound a 10) as Ha.
  pose proof (Nat.mod_upper_bound b 10) as Hb.
  rewrite !nat_ascii_embedding in H by lia. lia.
Qed.

Lemma two_digits (a b : nat) :
  a < 100 -> b < 100 ->
  (a / 10) mod 10 = (b / 10) mod 10 -> a mod 10 = b mod 10 -> a = b.
Proof.
  intros Ha Hb H1 H0.
  rewrite (Nat.div_mod_eq a 10), (Nat.div_mod_eq b 10).
  rewrite (Nat.mod_small (a / 10) 10) in H1
    by (apply Nat.Div0.div_lt_upper_bound; lia).
  rewrite (Nat.mod_small (b / 10) 10) in H1
    by (apply Nat.Div0.div_lt_upper_bound; lia).
  congruence.
Qed.

Lemma four_digits (a b : nat) :
  a < 100 * 100 -> b < 100 * 100 ->
  (a / 1000) mod 10 = (b / 1000) mod 10 ->
  (a / 100) mod 10 = (b / 100) mod 10 ->
  (a / 10) mod 10 = (b / 10) mod 10 -> a mod 10 = b mod 10 -> a = b.
Proof.
  intros Ha Hb H3 H2 H1 H0.
  rewrite (Nat.div_mod_eq a 10), (Nat.div_mod_eq b 10). f_equal; [|exact H0].
  f_equal.
  rewrite (Nat.div_mod_eq (a / 10) 10), (Nat.div_mod_eq (b / 10) 10).
  f_equal; [|exact H1]. f_equal.
  rewrite !Nat.Div0.div_div. change (10 * 10) with 100.
  apply two_digits; try (apply Nat.Div0.div_lt_upper_bound; lia).
  - rewrite !Nat.Div0.div_div. exact H3.
  - exact H2.
Qed.

Lemma make_session_id_same_second (t1 t2 : datetime) :
  same_second t1 t2 -> make_session_id t1 = make_session_id t2.
Proof.
  unfold same_second, make_session_id, strftime.
  intros (-> & -> & -> & -> & -> & ->). reflexivity.
Qed.

Lemma make_session_id_inj (t1 t2 : datetime) :
  valid_datetime t1 -> valid_datetime t2 ->
  make_session_id t1 = make_session_id t2 -> same_second t1 t2.
Proof.
  unfold valid_datetime, same_second, make_session_id, strftime, pad4, pad2.
  intros (Hy1 & Hm1 & Hd1 & Hh1 & Hi1 & Hs1) (Hy2 & Hm2 & Hd2 & Hh2 & Hi2 & Hs2) H.
  cbn [String.append] in H.
  injection H as Y3 Y2 Y1 Y0 M1 M0 D1 D0 H1 H0 I1 I0 S1 S0.
  apply digit_inj in Y3, Y2, Y1, Y0, M1, M0, D1, D0, H1, H0, I1, I0, S1, S0.
  repeat split.
  - apply four_digits;
      [exact Hy1 | exact Hy2 | exact Y3 | exact Y2 | exact Y1 | exact Y0].
  - apply two_digits; [exact Hm1 | exact Hm2 | exact M1 | exact M0].
  - apply two_digits; [exact Hd1 | exact Hd2 | exact D1 | exact D0].
  - apply two_digits; [exact Hh1 | exact Hh2 | exact H1 | exact H0].
  - apply two_digits; [exact Hi1 | exact Hi2 | exact I1 | exact I0].
  - apply two_digits; [exact Hs1 | exact Hs2 | exact S1 | exact S0].
Qed.

(** C9, as the code has it: the session id is the reading of the clock cut
    to the second.  Two invocations get the same id exactly when their
    readings fall in the same second. *)
Theorem session_id_per_second (t1 t2 : datetime) :
  valid_datetime t1 -> valid_datetime t2 ->
  make_session_id t1 = make_session_id t2 <-> same_second t1 t2.
Proof.
  intros H1 H2. split.
  - now apply make_session_id_inj.
  - apply make_session_id_same_second.
Qed.

Lemma valid_noon : valid_datetime noon /\ valid_datetime noon_later.
Proof. unfold valid_datetime; simpl; lia. Qed.

Lemma session_id_per_second_noon :
  valid_datetime noon /\ valid_datetime noon_later /\
  (make_session_id noon = make_session_id noon_later <->
   same_second noon noon_later).
Proof.
  split; [unfold valid_datetime; simpl; lia|].
  split; [unfold valid_datetime; simpl; lia|].
  apply (session_id_per_second noon noon_later);
    unfold valid_datetime; simpl; lia.
Defined.

(** C9, as stated, fails: two invocations that read the clock at distinct
    instants of one second obtain the same session id. *)
Lemma session_id_not_unique :
  ~ (forall t1 t2 : datetime,
       valid_datetime t1 -> valid_datetime t2 ->
       t1 <> t2 -> make_session_id t1 <> make_session_id t2).
Proof.
  intros H.
  apply (H noon noon_later); [apply valid_noon ..|discriminate|reflexivity].
Qed.

End SessionIds.

(** ** Transaction preprocessor *)

Module FrameFacts.
Import Frame.

Lemma normalize_dates_cells (f : string -> option string)
    (df df' : list transaction) :
  normalize_dates f df = Ok df' -> same_cells df df'.
Proof.
  revert df'. induction df as [|t df IH]; intros df' H; simpl in H.
  - injection H as <-. constructor.
  - unfold normalize_row in H.
    destruct (Date t) as [d|]; [destruct (f d); [|discriminate]|];
      simpl in H; destruct (normalize_dates f df); try discriminate;
      injection H as <-; constructor; auto; now apply IH.
Qed.

Lemma normalize_dates_returns (f : string -> option string)
    (df : list transaction) :
  Forall (fun t => forall d, Date t = Some d -> is_Some (f d)) df ->
  exists df', normalize_dates f df = Ok df'.
Proof.
  induction 1 as [|t df Ht _ [df' IH]]; simpl; [eauto|].
  unfold normalize_row. destruct (Date t) as [d|]; simpl.
  - destruct (Ht d eq_refl) as [d' ->]. simpl. rewrite IH. eauto.
  - rewrite IH. eauto.
Qed.

Lemma same_cells_categories (df df' : list transaction) :
  same_cells df df' -> omap Category df' = omap Category df.
Proof.
  induction 1 as [|t t' df df' [Hc _] _ IH]; [reflexivity|].
  change (omap Category (t' :: df')) with
    (match Category t' with Some c => c :: omap Category df'
     | None => omap Category df' end).
  rewrite Hc, IH. reflexivity.
Qed.

Lemma same_cells_amounts (df df' : list transaction) :
  same_cells df df' -> amount_sum df' = amount_sum df.
Proof.
  unfold amount_sum. intros H. f_equal.
  induction H as [|t t' df df' [_ Ha] _ IH]; [reflexivity|].
  simpl. now rewrite Ha, IH.
Qed.

Lemma same_cells_group (c : string) (df df' : list transaction) :
  same_cells df df' ->
  same_cells (filter (fun t => in_group c t = true) df)
             (filter (fun t => in_group c t = true) df').
Proof.
  induction 1 as [|t t' df df' [Hc Ha] _ IH]; [constructor|].
  assert (in_group c t' = in_group c t) as Hg
    by (unfold in_group; now rewrite Hc).
  rewrite !filter_cons, Hg.
  destruct (decide (in_group c t = true)); [constructor; auto|exact IH].
Qed.

Lemma same_cells_column {A} (col : transaction -> option A)
    (df df' : list transaction) :
  Forall2 (fun t t' => col t' = col t) df df' ->
  has_column col df' = has_column col df.
Proof.
  induction 1 as [|t t' df df' Hc _ IH]; [reflexivity|].
  simpl. now rewrite Hc, IH.
Qed.

Lemma same_cells_groupby (df df' : list transaction) :
  same_cells df df' -> groupby_sum df' = groupby_sum df.
Proof.
  intros H. unfold groupby_sum, group_keys.
  rewrite (same_cells_categories _ _ H).
  apply map_ext. intros c. f_equal.
  apply same_cells_amounts, same_cells_group, H.
Qed.

Lemma elem_of_insert_key (x c : string) (keys : list string) :
  x ∈ insert_key c keys <-> x = c \/ x ∈ keys.
Proof.
  induction keys as [|c' keys IH]; simpl.
  - rewrite elem_of_cons. tauto.
  - destruct (String.compare c c') eqn:E.
    + apply String.compare_eq_iff in E as ->. rewrite elem_of_cons. tauto.
    + rewrite elem_of_cons. tauto.
    + rewrite !elem_of_cons, IH. tauto.
Qed.

Lemma elem_of_group_keys (c : string) (df : list transaction) :
  c ∈ group_keys df <-> c ∈ omap Category df.
Proof.
  unfold group_keys. induction (omap Category df) as [|c' l IH]; simpl.
  - reflexivity.
  - rewrite elem_of_insert_key, elem_of_cons, IH. reflexivity.
Qed.

Lemma dict_get_tabulate {V} (f : string -> V) (c : string) (keys : list string) :
  dict_get c (map (fun k => (k, f k)) keys) =
  if bool_decide (c ∈ keys) then Some (f c) else None.
Proof.
  induction keys as [|k keys IH]; simpl; [reflexivity|].
  destruct (String.eqb_spec c k) as [->|Hne].
  - rewrite bool_decide_eq_true_2; [reflexivity|left].
  - rewrite IH. apply (f_equal (fun b : bool => if b then _ else _)).
    apply bool_decide_ext. rewrite elem_of_cons. tauto.
Qed.

Lemma string_lt_trans (a b c : string) :
  string_lt a b -> string_lt b c -> string_lt a c.
Proof.
  unfold string_lt. intros Hab Hbc.
  apply OrderedTypeEx.String_as_OT.cmp_lt in Hab, Hbc.
  apply OrderedTypeEx.String_as_OT.cmp_lt.
  eapply OrderedTypeEx.String_as_OT.lt_trans; eassumption.
Qed.

Lemma string_lt_irrefl (a : string) : ~ string_lt a a.
Proof.
  unfold string_lt. intros H.
  apply OrderedTypeEx.String_as_OT.cmp_lt in H.
  exact (OrderedTypeEx.String_as_OT.lt_not_eq _ _ H eq_refl).
Qed.

Lemma insert_key_sorted (c : string) (keys : list string) :
  StronglySorted string_lt keys -> StronglySorted string_lt (insert_key c keys).
Proof.
  induction 1 as [|c' keys Hs IH Hall]; simpl.
  - repeat constructor.
  - destruct (String.compare c c') eqn:E.
    + now constructor.
    + constructor; [now constructor|]. constructor; [exact E|].
      eapply Forall_impl; [exact Hall|]. intros x Hx.
      eapply string_lt_trans; [exact E|exact Hx].
    + constructor; [exact IH|].
      apply Forall_forall. intros x Hx.
      apply elem_of_insert_key in Hx as [->|Hx].
      * unfold string_lt. rewrite String.compare_antisym, E. reflexivity.
      * rewrite Forall_forall in Hall. now apply Hall.
Qed.

(** The group keys come out in ascending order, once each. *)
Lemma group_keys_sorted (df : list transaction) :
  StronglySorted string_lt (group_keys df) /\ NoDup (group_keys df).
Proof.
  assert (StronglySorted string_lt (group_keys df)) as Hs.
  { unfold group_keys. induction (omap Category df) as [|c l IH]; simpl.
    - constructor.
    - now apply insert_key_sorted. }
  split; [exact Hs|].
  induction Hs as [|c keys _ IH Hall]; constructor; [|exact IH].
  intros Hin. rewrite Forall_forall in Hall.
  exact (string_lt_irrefl c (Hall c Hin)).
Qed.

(** The per-category sums: one entry for every category that occurs, with
    the sum of the amounts of its rows. *)
Lemma groupby_sum_get (c : string) (df : list transaction) :
  dict_get c (groupby_sum df) =
  if bool_decide (c ∈ omap Category df)
  then Some (amount_sum (filter (fun t => in_group c t = true) df))
  else None.
Proof.
  unfold groupby_sum.
  rewrite (dict_get_tabulate
             (fun c => amount_sum (filter (fun t => in_group c t = true) df))).
  apply (f_equal (fun b : bool => if b then _ else _)).
  apply bool_decide_ext, elem_of_group_keys.
Qed.

End FrameFacts.

Section PreprocessorClaims.
Import Frame FrameFacts.

Variable to_datetime : string -> option string.
Local Abbreviation dates_parse := (dates_parse to_datetime).

(** The preprocessor in closed form, when no date is refused. *)
Lemma _preprocess_transactions_eq (st : state) (txs : list transaction) :
  st !! "transactions" = Some (VTransactions txs) ->
  txs <> [] -> dates_parse txs ->
  _preprocess_transactions to_datetime st =
  Ok (if has_column Category txs && has_column Amount txs
      then <["total_spending" := VJson (JNum (amount_sum txs))]>
             (<["category_spending" := VAmounts (groupby_sum txs)]> st)
      else st).
Proof.
  intros Hst Hne Hdates. unfold _preprocess_transactions. rewrite Hst.
  destruct txs as [|t txs]; [done|]. cbn [nonempty negb].
  set (df := t :: txs) in *.
  assert (exists df', (if has_column Date df
                       then normalize_dates to_datetime df else Ok df) = Ok df'
                      /\ same_cells df df') as (df' & -> & Hcells).
  { destruct (has_column Date df).
    - destruct (normalize_dates_returns _ _ Hdates) as [df' Hdf'].
      exists df'. split; [exact Hdf'|]. eapply normalize_dates_cells, Hdf'.
    - exists df. split; [reflexivity|].
      apply Forall2_same_length_lookup_2; [reflexivity|].
      intros i x y Hx Hy. rewrite Hx in Hy. now injection Hy as ->. }
  cbn [rbind].
  rewrite (same_cells_column Category df df')
    by (eapply Forall2_impl; [exact Hcells|]; now intros ? ? [? _]).
  rewrite (same_cells_column Amount df df')
    by (eapply Forall2_impl; [exact Hcells|]; now intros ? ? [_ ?]).
  rewrite (same_cells_groupby df df' Hcells), (same_cells_amounts df df' Hcells).
  now destruct (has_column Category df && has_column Amount df).
Qed.

(** The preprocessor touches no key but its two. *)
Lemma _preprocess_transactions_other (st st' : state) (k : string) :
  _preprocess_transactions to_datetime st = Ok st' ->
  k <> "total_spending" -> k <> "category_spending" ->
  st' !! k = st !! k.
Proof.
  unfold _preprocess_transactions. intros H Hk1 Hk2.
  destruct (st !! "transactions") as [[j|txs|d]|];
    try (injection H as <-; reflexivity).
  destruct (negb (nonempty txs)); [injection H as <-; reflexivity|].
  destruct (if has_column Date txs then _ else _) as [df|];
    [|discriminate].
  cbn [rbind] in H.
  destruct (has_column Category df && has_column Amount df);
    injection H as <-; [|reflexivity].
  now rewrite !lookup_insert_ne by done.
Qed.

Lemma _preprocess_transactions_keeps (st st' : state) (k : string) :
  _preprocess_transactions to_datetime st = Ok st' ->
  is_Some (st !! k) -> is_Some (st' !! k).
Proof.
  unfold _preprocess_transactions. intros H Hk.
  assert (forall a b, is_Some
            ((<["total_spending" := a]> (<["category_spending" := b]> st)) !! k))
    as Hins.
  { intros a b. rewrite !lookup_insert. repeat case_decide; eauto. }
  destruct (st !! "transactions") as [[j|txs|d]|];
    try (injection H as <-; exact Hk).
  destruct (negb (nonempty txs)); [injection H as <-; exact Hk|].
  destruct (if has_column Date txs then _ else _) as [df|]; [|discriminate].
  cbn [rbind] in H.
  destruct (has_column Category df && has_column Amount df);
    injection H as <-; [apply Hins|exact Hk].
Qed.

(** C8, as the code has it: with a non-empty transactions sequence whose
    dates all parse and whose rows carry a Category and an Amount column,
    the preprocessor writes under category_spending one entry for every
    category that occurs, holding the sum of the amounts of its rows, and
    under total_spending the sum of all amounts; without one of the two
    columns it writes nothing; with an empty sequence it does nothing; and
    it never deletes a key of the state. *)
Theorem preprocess_transactions_aggregates (st : state) (txs : list transaction) :
  st !! "transactions" = Some (VTransactions txs) ->
  (txs = [] -> _preprocess_transactions to_datetime st = Ok st) /\
  (txs <> [] -> dates_parse txs ->
   has_column Category txs = true -> has_column Amount txs = true ->
   exists st' cs,
     _preprocess_transactions to_datetime st = Ok st' /\
     st' !! "category_spending" = Some (VAmounts cs) /\
     (forall c, dict_get c cs =
        if bool_decide (c ∈ omap Category txs)
        then Some (amount_sum (filter (fun t => in_group c t = true) txs))
        else None) /\
     st' !! "total_spending" = Some (VJson (JNum (amount_sum txs)))) /\
  (txs <> [] -> dates_parse txs ->
   has_column Category txs && has_column Amount txs = false ->
   _preprocess_transactions to_datetime st = Ok st) /\
  (forall st' k,
     _preprocess_transactions to_datetime st = Ok st' ->
     is_Some (st !! k) -> is_Some (st' !! k)).
Proof.
  intros Hst. repeat split.
  - intros ->. unfold _preprocess_transactions. now rewrite Hst.
  - intros Hne Hdates Hc Ha.
    rewrite (_preprocess_transactions_eq st txs Hst Hne Hdates), Hc, Ha.
    cbn [andb]. eexists _, _. split; [reflexivity|]. split; [|split].
    + rewrite lookup_insert_ne by done. apply lookup_insert_eq.
    + intros c. apply groupby_sum_get.
    + apply lookup_insert_eq.
  - intros Hne Hdates Hcols.
    now rewrite (_preprocess_transactions_eq st txs Hst Hne Hdates), Hcols.
  - intros st' k. apply _preprocess_transactions_keeps.
Qed.

End PreprocessorClaims.

(** C8, on two purchases of food and a row without category, dated with
    slashes and dashes. *)
Lemma preprocess_transactions_aggregates_sample :
  let txs := [groceries; unfiled; groceries] in
  state_of txs !! "transactions" = Some (VTransactions txs) /\
  txs <> [] /\ dates_parse iso_date txs /\
  Frame.has_column Category txs = true /\ Frame.has_column Amount txs = true /\
  exists st' cs,
    _preprocess_transactions iso_date (state_of txs) = Ok st' /\
    st' !! "category_spending" = Some (VAmounts cs) /\
    (forall c, dict_get c cs =
       if bool_decide (c ∈ omap Category txs)
       then Some (Frame.amount_sum
                    (filter (fun t => Frame.in_group c t = true) txs))
       else None) /\
    st' !! "total_spending" = Some (VJson (JNum (Frame.amount_sum txs))).
Proof.
  intros txs.
  assert (dates_parse iso_date txs) as Hdates.
  { repeat constructor; intros d [= <-]; vm_compute; eauto. }
  repeat split; try done.
  apply (preprocess_transactions_aggregates iso_date (state_of txs) txs);
    done.
Defined.

(** C8, as stated, fails, in two ways.  A non-empty sequence whose rows
    have no Category makes the preprocessor write neither key.  And the
    dates of the stored transactions are left as they came, here with
    slashes, although their normal form has dashes. *)
Lemma preprocess_transactions_not_always :
  ~ (forall (st : state) (txs : list transaction),
       st !! "transactions" = Some (VTransactions txs) -> txs <> [] ->
       exists st',
         _preprocess_transactions iso_date st = Ok st' /\
         is_Some (st' !! "category_spending") /\
         is_Some (st' !! "total_spending")) /\
  ~ (forall (st : state) (txs : list transaction),
       st !! "transactions" = Some (VTransactions txs) -> txs <> [] ->
       exists st',
         _preprocess_transactions iso_date st = Ok st' /\
         dates_normalized iso_date st').
Proof.
  split; intros H.
  - destruct (H (state_of [unfiled]) [unfiled]) as (st' & Hst' & [v Hv] & _);
      [reflexivity|discriminate|].
    vm_compute in Hst'. injection Hst' as <-. discriminate.
  - destruct (H (state_of [groceries]) [groceries]) as (st' & Hst' & Hdates);
      [reflexivity|discriminate|].
    assert (st' !! "transactions" = Some (VTransactions [groceries])) as Htx.
    { rewrite (_preprocess_transactions_other iso_date _ _ _ Hst') by done.
      reflexivity. }
    specialize (Hdates _ Htx). apply Forall_cons in Hdates as [Hd _].
    specialize (Hd "2024/01/05" eq_refl). discriminate.
Qed.

(** ** Session service *)

Module SessionFacts.
Import SessionStore.

Lemma with_state_again (s : service) (sid : string) (st st' : state) :
  with_state (with_state s sid st) sid st' = with_state s sid st'.
Proof.
  unfold with_state; simpl. f_equal. apply insert_insert_eq.
Qed.

Lemma create_session_fresh (s : service) (sid : string) (st : state) :
  sessions s !! sid = None ->
  create_session sid st s =
  (Ok (), with_state (record (CreateSession sid st) s) sid st).
Proof.
  intros H. unfold create_session; simpl. now rewrite H.
Qed.

Lemma create_session_duplicate (s : service) (sid : string) (st : state) :
  is_Some (sessions s !! sid) ->
  create_session sid st s =
  (Raise DuplicateSessionError, record (CreateSession sid st) s).
Proof.
  intros [st' H]. unfold create_session; simpl. now rewrite H.
Qed.

Lemma read_state_with (s : service) (sid : string) (st : state) :
  read_state sid (with_state s sid st) = (Ok st, with_state s sid st).
Proof.
  unfold read_state; simpl. now rewrite lookup_insert_eq.
Qed.

Lemma update_state_with (s : service) (sid : string) (st : state)
    (f : state -> result state) :
  update_state sid f (with_state s sid st) =
  match f st with
  | Ok st' => (Ok (), with_state s sid st')
  | Raise e => (Raise e, with_state s sid st)
  end.
Proof.
  unfold update_state; simpl. rewrite lookup_insert_eq.
  destruct (f st); [|reflexivity].
  f_equal. apply (with_state_again s sid st).
Qed.

Lemma get_session_with (s : service) (sid : string) (st : state) :
  get_session sid (with_state s sid st) =
  (Ok st, with_state (record (GetSession sid) s) sid st).
Proof.
  unfold get_session; simpl. now rewrite lookup_insert_eq.
Qed.

Lemma delete_session_with (s : service) (sid : string) (st : state) :
  delete_session sid (with_state s sid st) =
  (Ok (), {| sessions := delete sid (sessions s);
             calls := calls s ++ [DeleteSession sid] |}).
Proof.
  unfold delete_session; simpl. now rewrite delete_insert_eq.
Qed.

(** After a delete, a get on the same id fails with NotFoundError. *)
Lemma get_after_delete (s : service) (sid : string) :
  fst (get_session sid (snd (delete_session sid s))) = Raise NotFoundError.
Proof.
  unfold get_session, delete_session; simpl. now rewrite lookup_delete_eq.
Qed.

(** A body guarded by [finally: delete_session(id)] ends without the
    session, whatever the body did and whether it returned or raised. *)
Lemma try_finally_delete {A} (body : M A) (sid : string) (s : service) :
  let s' := snd (try_finally body (delete_session sid) s) in
  fst (try_finally body (delete_session sid) s) = fst (body s) /\
  sessions s' = delete sid (sessions (snd (body s))) /\
  calls s' = (calls (snd (body s)) ++ [DeleteSession sid])%list.
Proof.
  unfold try_finally, delete_session. destruct (body s) as [r s1]; simpl.
  auto.
Qed.

End SessionFacts.

(** ** Facade *)

Section FacadeFacts.
Import SessionStore SessionFacts.

Variable to_datetime : string -> option string.
Variable json_loads : string -> result json.
Variable runner : FinancialInput -> state -> result unit * state.

Local Abbreviation analyze := (analyze_finances to_datetime json_loads runner).
Local Abbreviation outcome := (facade_outcome to_datetime json_loads runner).

Lemma run_async_with (s : service) (sid : string) (msg : FinancialInput)
    (st : state) :
  run_async runner sid msg (with_state s sid st) =
  (fst (runner msg st), with_state s sid (snd (runner msg st))).
Proof.
  unfold run_async; simpl. rewrite lookup_insert_eq.
  destruct (runner msg st) as [r st']; simpl.
  f_equal. apply (with_state_again s sid st).
Qed.

(** The guarded body of [analyze_finances] on a service without the
    session: it ends with [facade_outcome], with the session still there,
    after a create and at most one get. *)
Lemma analyze_body_fresh (now : datetime) (fd : FinancialInput) (s : service) :
  let sid := make_session_id now in
  sessions s !! sid = None ->
  exists st mid,
    (mid = [] \/ mid = [GetSession sid]) /\
    (create_session sid (initial_state fd);;
     let* st := read_state sid in
     (if from_option truthy false (st !! "transactions")
      then update_state sid (_preprocess_transactions to_datetime)
      else ret ());;
     let* st := read_state sid in
     (if from_option truthy false (st !! "manual_expenses")
      then update_state sid (fun st => Ok (_preprocess_manual_expenses st))
      else ret ());;
     let* default_results := lift (Fallback._create_default_results fd) in
     run_async runner sid fd;;
     let* updated_session := get_session sid in
     lift (collect_results json_loads updated_session default_results)) s =
    (outcome fd,
     with_state {| sessions := sessions s;
                   calls := calls s ++
                            CreateSession sid (initial_state fd) :: mid |}
       sid st).
Proof.
  intros sid Hfresh. unfold bind at 1.
  rewrite (create_session_fresh _ _ _ Hfresh).
  set (s1 := record (CreateSession sid (initial_state fd)) s).
  assert (forall st mid,
            with_state {| sessions := sessions s1; calls := calls s1 ++ mid |} sid st =
            with_state {| sessions := sessions s;
                          calls := calls s ++
                                   CreateSession sid (initial_state fd) :: mid |}
              sid st)
    as Hs1.
  { intros st mid. unfold with_state, s1, record; simpl.
    now rewrite <- app_assoc. }
  assert (s1 = {| sessions := sessions s1; calls := calls s1 ++ [] |}) as Hnil.
  { destruct s1; simpl. now rewrite app_nil_r. }
  unfold outcome, facade_outcome, prepare.
  set (st0 := initial_state fd).
  unfold bind at 1. rewrite read_state_with. unfold bind at 1.
  set (pre := if from_option truthy false (st0 !! "transactions")
             then _preprocess_transactions to_datetime st0 else Ok st0).
  assert (exists st1 : state,
            (if from_option truthy false (st0 !! "transactions")
             then update_state sid (_preprocess_transactions to_datetime)
             else ret ()) (with_state s1 sid st0) =
            (match pre with Ok _ => Ok () | Raise e => Raise e end,
             with_state s1 sid st1) /\
            match pre with Ok st => st1 = st | Raise _ => st1 = st0 end)
    as (st1 & Hstep & Hst1).
  { unfold pre. destruct (from_option truthy false (st0 !! "transactions")).
    - rewrite update_state_with.
      destruct (_preprocess_transactions to_datetime st0) as [st1|e];
        eexists; split; reflexivity.
    - exists st0. split; reflexivity. }
  rewrite Hstep. clear Hstep.
  destruct pre as [st1'|e]; cbn [rbind]; subst st1.
  2: { exists st0, []. split; [now left|]. rewrite <- Hs1, <- Hnil. reflexivity. }
  unfold bind at 1. rewrite read_state_with. unfold bind at 1.
  set (st2 := if from_option truthy false (st1' !! "manual_expenses")
              then _preprocess_manual_expenses st1' else st1').
  assert ((if from_option truthy false (st1' !! "manual_expenses")
           then update_state sid (fun st => Ok (_preprocess_manual_expenses st))
           else ret ()) (with_state s1 sid st1') =
          (Ok (), with_state s1 sid st2)) as ->.
  { unfold st2. destruct (from_option truthy false (st1' !! "manual_expenses")).
    - now rewrite update_state_with.
    - reflexivity. }
  unfold bind at 1, lift at 1.
  destruct (Fallback._create_default_results fd) as [dflt|e]; cbn [rbind].
  2: { exists st2, []. split; [now left|]. rewrite <- Hs1, <- Hnil. reflexivity. }
  unfold bind at 1. rewrite run_async_with.
  destruct (runner fd st2) as [[[]|e] st3]; cbn [fst snd rbind].
  2: { exists st3, []. split; [now left|]. rewrite <- Hs1, <- Hnil. reflexivity. }
  unfold bind at 1. rewrite get_session_with. unfold lift.
  exists st3, [GetSession sid]. split; [now right|].
  rewrite <- Hs1. reflexivity.
Qed.

End FacadeFacts.

Section FacadeRuns.
Import SessionStore SessionFacts.

Variable to_datetime : string -> option string.
Variable json_loads : string -> result json.
Variable runner : FinancialInput -> state -> result unit * state.

Local Abbreviation analyze := (analyze_finances to_datetime json_loads runner).
Local Abbreviation outcome := (facade_outcome to_datetime json_loads runner).

(** A run on a service without the session. *)
Lemma analyze_finances_fresh (now : datetime) (fd : FinancialInput) (s : service) :
  let sid := make_session_id now in
  sessions s !! sid = None ->
  fst (analyze now fd s) = outcome fd /\
  sessions (snd (analyze now fd s)) = sessions s /\
  exists mid,
    (mid = [] \/ mid = [GetSession sid]) /\
    calls (snd (analyze now fd s)) =
    (calls s ++ CreateSession sid (initial_state fd) :: mid
             ++ [DeleteSession sid])%list.
Proof.
  intros sid Hfresh. unfold analyze_finances. fold sid.
  destruct (analyze_body_fresh to_datetime json_loads runner now fd s Hfresh)
    as (st & mid & Hmid & Hbody). fold sid in Hbody.
  match goal with
  | |- context [try_finally ?b _ _] =>
      destruct (try_finally_delete b sid s) as (Hr & Hs & Hc)
  end.
  rewrite Hr, Hs, Hc, Hbody. simpl. repeat split.
  - rewrite delete_insert_eq. now apply delete_id.
  - exists mid. split; [exact Hmid|]. now rewrite <- app_assoc.
Qed.

(** A run on a service that already holds a session with the same id. *)
Lemma analyze_finances_duplicate (now : datetime) (fd : FinancialInput)
    (s : service) :
  let sid := make_session_id now in
  is_Some (sessions s !! sid) ->
  fst (analyze now fd s) = Raise DuplicateSessionError /\
  sessions (snd (analyze now fd s)) = delete sid (sessions s) /\
  calls (snd (analyze now fd s)) =
  (calls s ++ [CreateSession sid (initial_state fd); DeleteSession sid])%list.
Proof.
  intros sid Hdup. unfold analyze_finances. fold sid.
  match goal with
  | |- context [try_finally ?b _ _] =>
      destruct (try_finally_delete b sid s) as (Hr & Hs & Hc);
      assert (b s = (Raise DuplicateSessionError,
                     record (CreateSession sid (initial_state fd)) s))
        as Hbody
  end.
  { unfold bind at 1. now rewrite (create_session_duplicate _ _ _ Hdup). }
  rewrite Hr, Hs, Hc, Hbody. simpl. repeat split.
  now rewrite <- app_assoc.
Qed.

(** Two runs within one second: the second finds the session of the first,
    raises DuplicateSessionError, and its cleanup deletes that session. *)
Lemma analyze_finances_same_second (t1 t2 : datetime) (fd : FinancialInput)
    (s : service) :
  same_second t1 t2 ->
  is_Some (sessions s !! make_session_id t1) ->
  fst (analyze t2 fd s) = Raise DuplicateSessionError /\
  sessions (snd (analyze t2 fd s)) !! make_session_id t1 = None.
Proof.
  intros Hsame Hsome.
  rewrite (make_session_id_same_second t1 t2 Hsame) in *.
  destruct (analyze_finances_duplicate t2 fd s Hsome) as (-> & -> & _).
  split; [reflexivity|apply lookup_delete_eq].
Qed.

(** C2: whatever the input, the clock, the runner and the service, and
    whether the run returns or raises, the session id of the run is absent
    when [analyze_finances] is left: the last call to the session service
    is the delete of that id, and a get on it fails with NotFoundError. *)
Theorem analyze_finances_deletes_session (now : datetime)
    (fd : FinancialInput) (s : service) :
  let sid := make_session_id now in
  let s' := snd (analyze now fd s) in
  sessions s' !! sid = None /\
  last (calls s') = Some (DeleteSession sid) /\
  fst (get_session sid s') = Raise NotFoundError.
Proof.
  intros sid s'. subst s'. unfold analyze_finances. fold sid.
  match goal with
  | |- context [try_finally ?b _ _] => set (body := b)
  end.
  destruct (try_finally_delete body sid s) as (_ & Hs & Hc).
  split; [|split].
  - rewrite Hs. apply lookup_delete_eq.
  - rewrite Hc. apply last_snoc.
  - unfold get_session; simpl. now rewrite Hs, lookup_delete_eq.
Qed.

(** C3, as the code has it: [analyze_finances] checks nothing about its
    input.  For every input, malformed or not, the first thing it does is
    to ask the session service to create the session, seeded with the
    fields of the input. *)
Theorem analyze_finances_creates_first (now : datetime)
    (fd : FinancialInput) (s : service) :
  exists rest,
    calls (snd (analyze now fd s)) =
    (calls s ++
     CreateSession (make_session_id now) (initial_state fd) :: rest)%list.
Proof.
  destruct (sessions s !! make_session_id now) as [st|] eqn:E.
  - destruct (analyze_finances_duplicate now fd s) as (_ & _ & ->); [eauto|].
    eexists. reflexivity.
  - destruct (analyze_finances_fresh now fd s E) as (_ & _ & mid & _ & ->).
    eexists. reflexivity.
Qed.

End FacadeRuns.

(** ** Merging stage outputs with fallback values *)

Section Merge.
Variable json_loads : string -> result json.

Lemma collect_results_three (updated : state) (b s d : value) :
  collect_results json_loads updated
    [("budget_analysis", b); ("savings_strategy", s); ("debt_reduction", d)] =
  rbind (merged_value json_loads updated "budget_analysis" b) (fun mb =>
  rbind (merged_value json_loads updated "savings_strategy" s) (fun ms =>
  rbind (merged_value json_loads updated "debt_reduction" d) (fun md =>
  Ok [("budget_analysis", mb); ("savings_strategy", ms);
      ("debt_reduction", md)]))).
Proof.
  unfold collect_results, collect_key; simpl.
  destruct (merged_value json_loads updated "budget_analysis" b); simpl;
    [|reflexivity].
  destruct (merged_value json_loads updated "savings_strategy" s); simpl;
    [|reflexivity].
  destruct (merged_value json_loads updated "debt_reduction" d); reflexivity.
Qed.

(** A value that passes a stage schema is a non-empty dictionary. *)
Lemma output_schema_object (s : stage) (a : json) :
  output_schema s a = true -> exists d, a = JDict d /\ nonempty d = true.
Proof.
  destruct s, a as [| | | | |[|kv d]]; simpl; try discriminate; eauto.
Qed.

Lemma key_schema_output (s : stage) (a : json) :
  key_schema (output_key s) a = output_schema s a.
Proof.
  unfold key_schema. destruct s; simpl;
    destruct (Schema.is_object _ a); reflexivity.
Qed.

Lemma merged_value_validated (st : state) (s : stage) (fallback : value) :
  artifacts_validated st ->
  merged_value json_loads st (output_key s) fallback =
  Ok match validated_artifact (output_key s) st with
     | Some a => VJson a
     | None => fallback
     end.
Proof.
  intros Hst. unfold merged_value, validated_artifact.
  destruct (Hst s) as [->|(a & -> & Ha)]; [reflexivity|].
  rewrite key_schema_output, Ha.
  destruct (output_schema_object s a Ha) as (d & -> & Hd).
  simpl. now rewrite Hd.
Qed.

(** The three cases of the merge of one key. *)
Lemma merged_value_cases (st : state) (key : string) (fallback : value) :
  (st !! key = None -> merged_value json_loads st key fallback = Ok fallback) /\
  (forall v, st !! key = Some v -> truthy v = false ->
     merged_value json_loads st key fallback = Ok fallback) /\
  (forall v, st !! key = Some v -> truthy v = true ->
     merged_value json_loads st key fallback =
     parse_json_safely json_loads v fallback).
Proof.
  unfold merged_value. repeat split.
  - now intros ->.
  - now intros v -> ->.
  - now intros v -> ->.
Qed.

(** The merge of a key that holds a non-empty text. *)
Lemma merged_value_text (st : state) (key text : string) (fallback : value) :
  st !! key = Some (VJson (JStr text)) -> text <> "" ->
  merged_value json_loads st key fallback =
  parse_json_safely json_loads (VJson (JStr text)) fallback.
Proof.
  intros Hkey Htext. unfold merged_value. rewrite Hkey. simpl.
  apply String.eqb_neq in Htext. now rewrite Htext.
Qed.

(** The merge of a key returns when the decoder raises nothing but
    JSONDecodeError on the text under it. *)
Lemma merged_value_returns (st : state) (key : string) (fallback : value) :
  (forall text e, st !! key = Some (VJson (JStr text)) ->
     json_loads text = Raise e -> e = JSONDecodeError) ->
  exists v, merged_value json_loads st key fallback = Ok v.
Proof.
  intros H. unfold merged_value.
  destruct (st !! key) as [v|]; [|eauto].
  destruct (truthy v); [|eauto].
  destruct v as [[| | |text| |]| |]; simpl; eauto.
  destruct (json_loads text) as [j|e] eqn:E; [eauto|].
  rewrite (H text e eq_refl E). eauto.
Qed.

End Merge.

(** ** Coordinator *)

Section CoordinatorFacts.
Import Coordinator.
Variable reasoner : stage -> state -> option json.

Lemma output_key_inj (s s' : stage) : output_key s = output_key s' -> s = s'.
Proof. destruct s, s'; simpl; intros H; try reflexivity; discriminate. Qed.

Lemma run_stage_validated (s : stage) (st st' : state) :
  artifacts_validated st -> run_stage reasoner s st = Some st' ->
  artifacts_validated st'.
Proof.
  unfold run_stage. intros Hst H.
  destruct (forallb _ _); [|discriminate].
  destruct (reasoner s st) as [a|]; [|discriminate].
  destruct (output_schema s a) eqn:Ha; [|discriminate].
  injection H as <-. intros s'.
  destruct (decide (s = s')) as [<-|Hne].
  - right. exists a. now rewrite lookup_insert_eq.
  - rewrite lookup_insert_ne by (intros E; now apply output_key_inj in E).
    apply Hst.
Qed.

Lemma run_stages_validated (stages : list stage) (st : state) :
  artifacts_validated st -> artifacts_validated (run_stages reasoner stages st).
Proof.
  revert st. induction stages as [|s stages IH]; intros st Hst; simpl.
  - exact Hst.
  - destruct (run_stage reasoner s st) as [st'|] eqn:E; [|exact Hst].
    eapply IH, run_stage_validated; eassumption.
Qed.

End CoordinatorFacts.

(** ** The state handed to the runner *)

Section Prepared.
Variable to_datetime : string -> option string.

Lemma _preprocess_manual_expenses_other (st : state) (k : string) :
  k <> "total_manual_spending" -> k <> "manual_category_spending" ->
  _preprocess_manual_expenses st !! k = st !! k.
Proof.
  unfold _preprocess_manual_expenses. intros Hk1 Hk2.
  destruct (st !! "manual_expenses") as [[j|txs|d]|]; try reflexivity.
  destruct (negb (nonempty d)); [reflexivity|].
  now rewrite !lookup_insert_ne by done.
Qed.

(** No output key is set before the runner starts. *)
Lemma prepare_no_outputs (fd : FinancialInput) (st : state) (s : stage) :
  prepare to_datetime fd = Ok st -> st !! output_key s = None.
Proof.
  unfold prepare. intros H.
  assert (initial_state fd !! output_key s = None) as H0.
  { unfold initial_state. destruct s; simpl;
      now rewrite !lookup_insert_ne, lookup_empty by done. }
  destruct (if from_option truthy false (initial_state fd !! "transactions")
            then _ else _) as [st1|] eqn:E; [|discriminate].
  cbn [rbind] in H. injection H as <-.
  assert (st1 !! output_key s = None) as H1.
  { destruct (from_option truthy false (initial_state fd !! "transactions")).
    - rewrite (_preprocess_transactions_other to_datetime _ _ _ E);
        [exact H0|..];
        destruct s; done.
    - now injection E as <-. }
  destruct (from_option truthy false (st1 !! "manual_expenses"));
    [|exact H1].
  rewrite _preprocess_manual_expenses_other; [exact H1|..]; destruct s; done.
Qed.

Lemma prepare_validated (fd : FinancialInput) (st : state) :
  prepare to_datetime fd = Ok st -> artifacts_validated st.
Proof.
  intros H s. left. eapply prepare_no_outputs, H.
Qed.

End Prepared.

(** ** The facade over the coordinator *)

Section Analysis.
Import Fallback FallbackFacts Coordinator.

Variable to_datetime : string -> option string.
Variable json_loads : string -> result json.

Lemma elem_of_output_keys (key : string) :
  key ∈ output_keys -> exists s : stage, key = output_key s.
Proof.
  unfold output_keys. rewrite !elem_of_cons, elem_of_nil.
  intros [->|[->|[->|[]]]];
    [exists Budget | exists Savings | exists DebtStage]; reflexivity.
Qed.

(** C1: over the coordinator, [analyze_finances] either raises or returns
    a result with exactly the keys budget_analysis, savings_strategy and
    debt_reduction, where each key holds the validated artifact of the
    final session state when there is one and the value of the fallback
    synthesizer for that key otherwise; and it does return whenever the
    session id is free, no date is refused and the fallback synthesizer
    returns. *)
Theorem analyze_finances_complete (reasoner : stage -> state -> option json)
    (now : datetime) (fd : FinancialInput) (s : service) :
  let outcome := analyze_finances to_datetime json_loads (run reasoner) now fd s in
  (forall results, fst outcome = Ok results ->
     dict_keys results = output_keys /\
     exists st default_results,
       prepare to_datetime fd = Ok st /\
       _create_default_results fd = Ok default_results /\
       forall key, key ∈ output_keys ->
         is_Some (dict_get key results) /\
         dict_get key results =
         match validated_artifact key (run_stages reasoner sub_agents st) with
         | Some artifact => Some (VJson artifact)
         | None => dict_get key default_results
         end) /\
  (sessions s !! make_session_id now = None ->
   forall st default_results,
     prepare to_datetime fd = Ok st ->
     _create_default_results fd = Ok default_results ->
     exists results, fst outcome = Ok results).
Proof.
  intros outcome. subst outcome.
  destruct (sessions s !! make_session_id now) as [other|] eqn:E.
  { destruct (analyze_finances_duplicate to_datetime json_loads
                (run reasoner) now fd s) as (-> & _); [eauto|].
    split; [discriminate|]. intros H; discriminate. }
  destruct (analyze_finances_fresh to_datetime json_loads
              (run reasoner) now fd s E) as (-> & _).
  unfold facade_outcome, run.
  destruct (prepare to_datetime fd) as [st|] eqn:Hst; cbn [rbind];
    [|split; [discriminate|intros _ ? ? [=]]].
  destruct (_create_default_results fd) as [dflt|] eqn:Hd; cbn [rbind];
    [|split; [discriminate|intros _ ? ? _ [=]]].
  destruct (_create_default_results_ok _ _ Hd)
    as (expenses & income & ds & _ & _ & _ & ->).
  assert (artifacts_validated (run_stages reasoner sub_agents st)) as Hv
    by (eapply run_stages_validated, prepare_validated, Hst).
  rewrite collect_results_three.
  pose proof (fun f => merged_value_validated json_loads _ Budget f Hv) as Hb.
  pose proof (fun f => merged_value_validated json_loads _ Savings f Hv) as Hs.
  pose proof (fun f => merged_value_validated json_loads _ DebtStage f Hv) as Hdr.
  cbn [output_key] in Hb, Hs, Hdr. rewrite Hb, Hs, Hdr. cbn [rbind].
  split; [|intros _ ? ? _ _; eauto].
  intros results [= <-]. split; [reflexivity|].
  eexists _, _. split; [reflexivity|]. split; [reflexivity|].
  intros key Hkey.
  destruct (elem_of_output_keys key Hkey) as [stg ->].
  destruct stg; cbn [output_key dict_get String.eqb Ascii.eqb Bool.eqb];
    (split; [eauto|]);
    destruct (validated_artifact "budget_analysis" _),
      (validated_artifact "savings_strategy" _),
      (validated_artifact "debt_reduction" _); reflexivity.
Qed.

End Analysis.

(** C1, on the scenario of the specification with a Reasoner that answers
    the Budget stage only. *)
Lemma analyze_finances_complete_scenario :
  sessions no_sessions !! make_session_id noon = None /\
  (exists st, prepare iso_date scenario = Ok st) /\
  (exists d, Fallback._create_default_results scenario = Ok d) /\
  exists results,
    fst (analyze_finances iso_date loads_42 (Coordinator.run budget_only)
           noon scenario no_sessions) = Ok results /\
    dict_keys results = output_keys /\
    dict_get "budget_analysis" results = Some (VJson small_budget).
Proof.
  destruct (analyze_finances_complete iso_date loads_42 budget_only
              noon scenario no_sessions) as [Hall Hret].
  split; [reflexivity|].
  split; [eexists; reflexivity|].
  split; [eexists; reflexivity|].
  edestruct Hret as [results Hr]; [reflexivity ..|].
  exists results. split; [exact Hr|].
  destruct (Hall results Hr) as (Hkeys & st & d & Hst & Hd & Hmerge).
  split; [exact Hkeys|].
  destruct (Hmerge "budget_analysis") as [_ ->]; [left|].
  injection Hst as <-. reflexivity.
Defined.

Section Degradation.
Import Fallback FallbackFacts Coordinator.

Variable to_datetime : string -> option string.
Variable json_loads : string -> result json.
Variable reasoner : stage -> state -> option json.

(** C4: when the Budget stage succeeds and the Savings stage fails, by a
    failure of the Reasoner or by an answer that does not pass the schema,
    [analyze_finances] returns the artifact of the Budget stage under
    budget_analysis and the fallback values under savings_strategy and
    debt_reduction, whatever the Reasoner would have answered to the Debt
    stage. *)
Theorem savings_failure_degrades (now : datetime) (fd : FinancialInput)
    (s : service) (st : state) (default_results : dict value) (budget : json) :
  sessions s !! make_session_id now = None ->
  prepare to_datetime fd = Ok st ->
  _create_default_results fd = Ok default_results ->
  reasoner Budget st = Some budget ->
  output_schema Budget budget = true ->
  match reasoner Savings (<["budget_analysis" := VJson budget]> st) with
  | Some answer => output_schema Savings answer = false
  | None => True
  end ->
  exists savings debt,
    dict_get "savings_strategy" default_results = Some savings /\
    dict_get "debt_reduction" default_results = Some debt /\
    run_stages reasoner sub_agents st = <["budget_analysis" := VJson budget]> st /\
    fst (analyze_finances to_datetime json_loads (run reasoner) now fd s) =
    Ok [("budget_analysis", VJson budget);
        ("savings_strategy", savings);
        ("debt_reduction", debt)].
Proof.
  intros Hfresh Hst Hd Hb Hschema Hfail.
  destruct (analyze_finances_fresh to_datetime json_loads
              (run reasoner) now fd s Hfresh) as (-> & _).
  unfold facade_outcome, run. rewrite Hst, Hd. cbn [rbind].
  destruct (_create_default_results_ok _ _ Hd)
    as (expenses & income & ds & _ & _ & _ & ->).
  set (st1 := <["budget_analysis" := VJson budget]> st) in *.
  assert (run_stages reasoner sub_agents st = st1) as Hrun.
  { cbn [run_stages sub_agents]. unfold run_stage at 1.
    cbn [required_keys forallb]. rewrite Hb, Hschema.
    cbn [output_key]. fold st1. unfold run_stage at 1.
    cbn [required_keys forallb].
    destruct (reasoner Savings st1) as [answer|];
      [rewrite Hfail|]; now destruct (bool_decide _). }
  rewrite Hrun, collect_results_three.
  assert (forall f, merged_value json_loads st1 "budget_analysis" f =
                    Ok (VJson budget)) as ->.
  { intros f. unfold merged_value, st1. rewrite lookup_insert_eq.
    destruct (output_schema_object Budget budget Hschema) as (d & -> & Hne).
    simpl. now rewrite Hne. }
  pose proof (prepare_no_outputs to_datetime fd st Savings Hst) as Hs.
  pose proof (prepare_no_outputs to_datetime fd st DebtStage Hst) as Hdebt.
  cbn [output_key] in Hs, Hdebt.
  assert (forall f, merged_value json_loads st1 "savings_strategy" f = Ok f)
    as ->.
  { intros f. unfold merged_value, st1.
    rewrite lookup_insert_ne by done. now rewrite Hs. }
  assert (forall f, merged_value json_loads st1 "debt_reduction" f = Ok f)
    as ->.
  { intros f. unfold merged_value, st1.
    rewrite lookup_insert_ne by done. now rewrite Hdebt. }
  cbn [rbind].
  eexists _, _. split; [reflexivity|]. split; [reflexivity|].
  split; reflexivity.
Qed.

End Degradation.

(** C4, on the scenario of the specification with a Reasoner that answers
    the Budget stage only. *)
Lemma savings_failure_degrades_scenario :
  exists st default_results,
    prepare iso_date scenario = Ok st /\
    Fallback._create_default_results scenario = Ok default_results /\
    exists savings debt,
      dict_get "savings_strategy" default_results = Some savings /\
      dict_get "debt_reduction" default_results = Some debt /\
      Coordinator.run_stages budget_only sub_agents st =
        <["budget_analysis" := VJson small_budget]> st /\
      fst (analyze_finances iso_date loads_42 (Coordinator.run budget_only)
             noon scenario no_sessions) =
      Ok [("budget_analysis", VJson small_budget);
          ("savings_strategy", savings);
          ("debt_reduction", debt)].
Proof.
  eexists _, _. split; [reflexivity|]. split; [reflexivity|].
  apply (savings_failure_degrades iso_date loads_42 budget_only
           noon scenario no_sessions); first [reflexivity | exact I].
Defined.

Section Decoding.
Import Fallback FallbackFacts.

Variable json_loads : string -> result json.

(** C10: on a string [parse_json_safely] gives the decoded JSON value, or
    the default when the decoder raises JSONDecodeError; on anything else
    it gives its argument back.  It is not total: any other exception of
    the decoder escapes it.  So when the runner leaves under an output
    key a non-empty text, [analyze_finances] returns under that key what
    the text decodes to, also when that is outside the schema of the
    stage; it raises, instead of falling back, when the decoder raises
    anything but JSONDecodeError on the text; and it returns when the
    decoder raises nothing else on the texts of the output keys. *)
Theorem parse_json_safely_cases :
  (forall text j default_value, json_loads text = Ok j ->
     parse_json_safely json_loads (VJson (JStr text)) default_value
     = Ok (VJson j)) /\
  (forall text default_value, json_loads text = Raise JSONDecodeError ->
     parse_json_safely json_loads (VJson (JStr text)) default_value
     = Ok default_value) /\
  (forall text e default_value,
     json_loads text = Raise e -> e <> JSONDecodeError ->
     parse_json_safely json_loads (VJson (JStr text)) default_value
     = Raise e) /\
  (forall data default_value, (forall text, data <> VJson (JStr text)) ->
     parse_json_safely json_loads data default_value = Ok data) /\
  (forall to_datetime runner now fd s st default_results updated stg text,
     sessions s !! make_session_id now = None ->
     prepare to_datetime fd = Ok st ->
     _create_default_results fd = Ok default_results ->
     runner fd st = (Ok (), updated) ->
     updated !! output_key stg = Some (VJson (JStr text)) ->
     text <> "" ->
     let outcome :=
       fst (analyze_finances to_datetime json_loads runner now fd s) in
     (forall j results,
        json_loads text = Ok j -> output_schema stg j = false ->
        outcome = Ok results ->
        dict_get (output_key stg) results = Some (VJson j)) /\
     (forall e, json_loads text = Raise e -> e <> JSONDecodeError ->
        exists e', outcome = Raise e' /\ (stg = Budget -> e' = e)) /\
     ((forall stg' text' e,
         updated !! output_key stg' = Some (VJson (JStr text')) ->
         json_loads text' = Raise e -> e = JSONDecodeError) ->
      exists results, outcome = Ok results)).
Proof.
  split; [|split; [|split; [|split]]].
  - intros text j d H. simpl. now rewrite H.
  - intros text d H. simpl. now rewrite H.
  - intros text e d H He. simpl. rewrite H. now destruct e.
  - intros data d H. destruct data as [[| | |text| |]| |]; try reflexivity.
    now destruct (H text).
  - intros to_datetime runner now fd s st dflt updated stg text
      Hfresh Hst Hd Hrun Hkey Htext outcome. subst outcome.
    destruct (analyze_finances_fresh to_datetime json_loads
                runner now fd s Hfresh) as (-> & _).
    unfold facade_outcome. rewrite Hst, Hd. cbn [rbind]. rewrite Hrun.
    cbn [rbind].
    destruct (_create_default_results_ok _ _ Hd)
      as (expenses & income & ds & _ & _ & _ & ->).
    rewrite collect_results_three.
    pose proof (fun f => merged_value_text json_loads updated _ text f
                           Hkey Htext) as Hm.
    split; [|split].
    + intros j results Hj _.
      assert (forall f, merged_value json_loads updated (output_key stg) f
                        = Ok (VJson j)) as Hmj.
      { intros f. rewrite Hm. simpl. now rewrite Hj. }
      destruct stg; cbn [output_key] in Hmj;
        destruct (merged_value json_loads updated "budget_analysis" _)
          as [mb|] eqn:Eb; try discriminate;
        destruct (merged_value json_loads updated "savings_strategy" _)
          as [ms|] eqn:Es; try discriminate;
        destruct (merged_value json_loads updated "debt_reduction" _)
          as [md|] eqn:Ed; try discriminate;
        cbn [rbind]; intros [= <-];
        rewrite Hmj in *;
        cbn [output_key dict_get String.eqb Ascii.eqb Bool.eqb];
        congruence.
    + intros e He Hne.
      assert (forall f, merged_value json_loads updated (output_key stg) f
                        = Raise e) as Hme.
      { intros f. rewrite Hm. simpl. rewrite He. now destruct e. }
      destruct stg; cbn [output_key] in Hme.
      * rewrite Hme. cbn [rbind]. eauto.
      * destruct (merged_value json_loads updated "budget_analysis" _);
          cbn [rbind]; [rewrite Hme; cbn [rbind]|];
          eexists; (split; [reflexivity|discriminate]).
      * destruct (merged_value json_loads updated "budget_analysis" _);
          cbn [rbind];
          [destruct (merged_value json_loads updated "savings_strategy" _);
           cbn [rbind]; [rewrite Hme; cbn [rbind]|]|];
          eexists; (split; [reflexivity|discriminate]).
    + intros Hall.
      destruct (merged_value_returns json_loads updated "budget_analysis"
                  (VJson (budget_analysis income expenses))) as [mb ->].
      { intros t e. apply (Hall Budget). }
      destruct (merged_value_returns json_loads updated "savings_strategy"
                  (VJson (savings_strategy income (sum (dict_values expenses)))))
        as [ms ->].
      { intros t e. apply (Hall Savings). }
      destruct (merged_value_returns json_loads updated "debt_reduction"
                  (VJson (debt_reduction ds))) as [md ->].
      { intros t e. apply (Hall DebtStage). }
      cbn [rbind]. eauto.
Qed.

End Decoding.

(** C10, with the text "42" and with a numeral of 4301 digits left as
    budget analysis. *)
Lemma parse_json_safely_cases_sample :
  parse_json_safely loads_42 (VJson (JStr "42")) (VJson JNull)
    = Ok (VJson (JNum 42%Q)) /\
  parse_json_safely loads_42 (VJson (JStr "{")) (VJson JNull)
    = Ok (VJson JNull) /\
  parse_json_safely loads_42 (VJson (JStr long_numeral)) (VJson JNull)
    = Raise ValueError /\
  parse_json_safely loads_42 (VAmounts []) (VJson JNull) = Ok (VAmounts []) /\
  output_schema Budget (JNum 42%Q) = false /\
  (exists results,
     fst (analyze_finances iso_date loads_42 writes_42 noon scenario no_sessions)
     = Ok results /\
     dict_get "budget_analysis" results = Some (VJson (JNum 42%Q))) /\
  fst (analyze_finances iso_date loads_42 writes_long_numeral noon scenario
         no_sessions) = Raise ValueError.
Proof.
  destruct (parse_json_safely_cases loads_42)
    as (Hdec & Hfail & Hescape & Hother & Hmerge).
  split; [apply Hdec; reflexivity|].
  split; [apply Hfail; reflexivity|].
  split; [apply Hescape; [vm_compute; reflexivity|discriminate]|].
  split; [apply Hother; discriminate|].
  split; [reflexivity|].
  split.
  - destruct (Hmerge iso_date writes_42 noon scenario no_sessions _ _ _
                Budget "42" eq_refl eq_refl eq_refl eq_refl eq_refl
                ltac:(discriminate)) as (Hvalue & _ & Hreturns).
    destruct Hreturns as [results Hr].
    { intros stg' text' e Hk He. destruct stg'; try discriminate.
      injection Hk as <-. discriminate. }
    exists results. split; [exact Hr|].
    apply (Hvalue (JNum 42%Q) results); [reflexivity|reflexivity|exact Hr].
  - destruct (Hmerge iso_date writes_long_numeral noon scenario no_sessions
                _ _ _ Budget long_numeral eq_refl eq_refl eq_refl eq_refl
                eq_refl ltac:(discriminate)) as (_ & Hraises & _).
    destruct (Hraises ValueError) as (e' & -> & He');
      [vm_compute; reflexivity|discriminate|].
    now rewrite He'.
Defined.

(** A run on a negative income, with the Reasoner unavailable. *)
Lemma analyze_finances_overdrawn :
  exists results s',
    analyze_finances iso_date loads_42 (Coordinator.run unavailable)
      noon overdrawn no_sessions = (Ok results, s') /\
    dict_keys results = output_keys /\
    calls s' = [CreateSession (make_session_id noon) (initial_state overdrawn);
                GetSession (make_session_id noon);
                DeleteSession (make_session_id noon)] /\
    initial_state overdrawn !! "monthly_income" = Some (VJson (JNum (-500)%Q)).
Proof.
  eexists _, _. split; [vm_compute; reflexivity|]. repeat split.
Qed.

(** C3, as stated, fails: a malformed input is not rejected before a
    session is created.  On a negative income the session is created with
    that income in its state, and the three artifacts are returned. *)
Lemma analyze_finances_accepts_malformed :
  ~ (forall (fd : FinancialInput) (now : datetime) (s : service),
       malformed fd = true ->
       let run := analyze_finances iso_date loads_42
                    (Coordinator.run unavailable) now fd s in
       (exists e, fst run = Raise e) /\
       forall st, CreateSession (make_session_id now) st ∉ calls (snd run)).
Proof.
  intros H.
  destruct (H overdrawn noon no_sessions eq_refl) as [[e He] _].
  destruct analyze_finances_overdrawn as (results & s' & Hrun & _).
  rewrite Hrun in He. discriminate.
Qed.

(** C2, on a runner that raises: the error reaches the caller and the
    session is gone. *)
Lemma analyze_finances_cleans_up_after_crash :
  let run := analyze_finances iso_date loads_42 crashes noon scenario no_sessions in
  fst run = Raise (RuntimeError "model unavailable") /\
  sessions (snd run) !! make_session_id noon = None /\
  calls (snd run) = [CreateSession (make_session_id noon) (initial_state scenario);
                     DeleteSession (make_session_id noon)].
Proof. vm_compute. repeat split. Qed.

(** * Further properties of the fallback synthesizer *)

Section FallbackMore.
Import Fallback FallbackFacts.

(** X1: [_create_default_results] raises AttributeError exactly when the
    manual expenses are [None] and there is no transaction to aggregate,
    whatever the income and the debts are; and it returns no result when
    the income or the debts are [None]. *)
Theorem fallback_failure_modes (fd : FinancialInput) :
  let unresolved :=
    manual_expenses fd = Null /\ entry_truthy (transactions fd) = false in
  (_create_default_results fd = Raise AttributeError <-> unresolved) /\
  (monthly_income fd = Null \/ debts fd = Null ->
   forall results, _create_default_results fd <> Ok results).
Proof.
  unfold _create_default_results, resolve_expenses.
  destruct (manual_expenses fd) as [| |d], (monthly_income fd) as [| |i],
    (debts fd) as [| |ds], (entry_truthy (transactions fd));
    simpl; try destruct (nonempty d); simpl;
    split; try (intros [?|?] results; congruence);
    intuition congruence.
Qed.

(** X1, on an upload without rows and on an input whose income is
    [None]. *)
Lemma fallback_failure_modes_none :
  _create_default_results empty_upload = Raise AttributeError /\
  forall results,
    _create_default_results
      {| monthly_income := Null; dependants := Given 0%Z;
         transactions := Null;
         manual_expenses := Given [("Food", 300%Q)];
         debts := Given [] |} <> Ok results.
Proof.
  split.
  - apply (fallback_failure_modes empty_upload). split; reflexivity.
  - apply (fallback_failure_modes
             {| monthly_income := Null; dependants := Given 0%Z;
                transactions := Null;
                manual_expenses := Given [("Food", 300%Q)];
                debts := Given [] |}).
    left. reflexivity.
Defined.

Lemma sum_dict_set (k : string) (a : Q) (d : dict Q) :
  (sum (dict_values (dict_set k (default 0 (dict_get k d) + a) d))
   == sum (dict_values d) + a)%Q.
Proof.
  induction d as [|[k0 v0] d IH]; cbn [dict_get dict_set].
  - unfold dict_values; cbn [map snd default from_option].
    rewrite sum_cons, sum_nil. ring.
  - destruct (String.eqb k k0); unfold dict_values in *;
      cbn [map snd default from_option id]; rewrite !sum_cons.
    + ring.
    + rewrite IH. ring.
Qed.

(** The aggregation loop keeps the grand total. *)
Lemma aggregate_total (txs : list transaction) :
  (sum (dict_values (aggregate txs))
   == sum (map (fun t => default 0 (Amount t)) txs))%Q.
Proof.
  unfold aggregate.
  assert (forall acc,
            (sum (dict_values (fold_left add_transaction txs acc))
             == sum (dict_values acc)
                + sum (map (fun t => default 0 (Amount t)) txs))%Q) as H.
  { induction txs as [|t txs IH]; intros acc; simpl.
    - rewrite sum_nil. ring.
    - rewrite IH, sum_cons. unfold add_transaction at 1.
      rewrite sum_dict_set. ring. }
  rewrite H. change (dict_values []) with (@nil Q). rewrite sum_nil. ring.
Qed.

Lemma elem_of_aggregate_keys (c : string) (txs : list transaction) :
  c ∈ dict_keys (aggregate txs) <-> exists t, t ∈ txs /\ category_of t = c.
Proof.
  unfold aggregate.
  assert (forall acc,
            c ∈ dict_keys (fold_left add_transaction txs acc) <->
            c ∈ dict_keys acc \/ exists t, t ∈ txs /\ category_of t = c) as H.
  { induction txs as [|t txs IH]; intros acc; simpl.
    - split; [tauto|]. intros [H|(t & Ht & _)]; [exact H|].
      now apply elem_of_nil in Ht.
    - rewrite IH. unfold add_transaction at 1. fold (category_of t).
      rewrite elem_of_dict_keys_set. split.
      + intros [[->|H]|(t' & Ht' & Hc)]; eauto.
        * right. exists t. split; [left|reflexivity].
        * right. exists t'. split; [now right|exact Hc].
      + intros [H|(t' & Ht' & Hc)]; [tauto|].
        apply elem_of_cons in Ht' as [->|Ht']; [left; left; now symmetry|].
        right. eauto. }
  rewrite H. split; [|tauto]. intros [Hin|Hex]; [|exact Hex].
  now apply elem_of_nil in Hin.
Qed.

(** X2: when the synthesizer works from the transactions, the total
    expenses of its budget are the sum of the amounts of all rows (a row
    without Amount counts 0), every category that occurs is listed once,
    and a row without Category is filed under "Uncategorized". *)
Theorem fallback_from_transactions (fd : FinancialInput)
    (txs : list transaction) (results : dict value) :
  from_option nonempty false (get (manual_expenses fd)) = false ->
  transactions fd = Given txs -> txs <> [] ->
  _create_default_results fd = Ok results ->
  exists budget total,
    dict_get "budget_analysis" results = Some (VJson budget) /\
    num_at ["total_expenses"] budget = Some total /\
    (total == sum (map (fun t => default 0 (Amount t)) txs))%Q /\
    NoDup (category_names budget) /\
    (forall c, c ∈ category_names budget <->
       exists t, t ∈ txs /\ default "Uncategorized" (Category t) = c).
Proof.
  intros Hm Ht Hne H.
  destruct (_create_default_results_ok _ _ H)
    as (expenses & income & ds & Hres & _ & _ & ->).
  destruct (resolve_expenses_order fd) as (_ & Horder & _).
  rewrite (Horder txs Hm Ht Hne) in Hres. injection Hres as <-.
  exists (budget_analysis income (aggregate txs)),
    (sum (dict_values (aggregate txs))).
  rewrite category_names_budget.
  split; [reflexivity|]. split; [reflexivity|].
  split; [apply aggregate_total|].
  split; [apply aggregate_NoDup|].
  intros c. apply elem_of_aggregate_keys.
Qed.

(** X2, on an upload of three rows. *)
Lemma fallback_from_transactions_upload :
  exists results,
    _create_default_results upload = Ok results /\
    exists budget total,
      dict_get "budget_analysis" results = Some (VJson budget) /\
      num_at ["total_expenses"] budget = Some total /\
      (total == sum (map (fun t => default 0 (Amount t))
                       [groceries; unfiled; groceries]))%Q /\
      NoDup (category_names budget) /\
      (forall c, c ∈ category_names budget <->
         exists t, t ∈ [groceries; unfiled; groceries] /\
                   default "Uncategorized" (Category t) = c).
Proof.
  eexists. split; [reflexivity|].
  apply (fallback_from_transactions upload [groceries; unfiled; groceries]);
    first [reflexivity | discriminate].
Defined.

End FallbackMore.

Section FallbackSchema.
Import Fallback FallbackFacts.

Lemma spending_categories_schema (total : Q) (expenses : dict Q) :
  forallb (Schema.is_object Schema.SpendingCategory)
          (map (spending_category total) expenses) = true.
Proof.
  induction expenses as [|[c a] l IH]; [reflexivity|].
  cbn [map forallb]. rewrite IH. reflexivity.
Qed.

Lemma debt_to_json_schema (d : debt) :
  Schema.is_object Schema.Debt (debt_to_json d) = debt_complete d.
Proof.
  destruct d as [[n|] [a|] [r|] [m|]]; reflexivity.
Qed.

Lemma debts_schema (ds : list debt) :
  forallb (Schema.is_object Schema.Debt) (map debt_to_json ds) =
  forallb debt_complete ds.
Proof.
  induction ds as [|d ds IH]; [reflexivity|].
  cbn [map forallb]. now rewrite debt_to_json_schema, IH.
Qed.

(** X3: the fallback budget analysis and savings strategy always pass the
    output schema of their stage; the fallback debt reduction passes its
    schema exactly when every input debt has a name, an amount and an
    interest rate, because the debts are passed through as given. *)
Theorem fallback_schemas (fd : FinancialInput) (results : dict value) :
  _create_default_results fd = Ok results ->
  exists budget savings plan ds,
    results = [("budget_analysis", VJson budget);
               ("savings_strategy", VJson savings);
               ("debt_reduction", VJson plan)] /\
    get_or (debts fd) [] = Some ds /\
    output_schema Budget budget = true /\
    output_schema Savings savings = true /\
    output_schema DebtStage plan = forallb debt_complete ds.
Proof.
  intros H.
  destruct (_create_default_results_ok _ _ H)
    as (expenses & income & ds & _ & _ & Hds & ->).
  eexists _, _, _, ds. split; [reflexivity|]. split; [exact Hds|].
  split; [|split].
  - unfold output_schema, budget_analysis, Schema.is_object,
      Schema.BudgetAnalysis, Schema.required, Schema.optional.
    cbn [dict_get String.eqb Ascii.eqb Bool.eqb Schema.is_num
         Schema.is_list_of andb].
    rewrite spending_categories_schema. reflexivity.
  - reflexivity.
  - unfold output_schema, debt_reduction, Schema.is_object,
      Schema.DebtReduction, Schema.required, Schema.optional.
    cbn [dict_get String.eqb Ascii.eqb Bool.eqb Schema.is_num
         Schema.is_list_of andb].
    rewrite debts_schema.
    destruct (forallb debt_complete ds); reflexivity.
Qed.

(** X3, on an upload whose debt has no name. *)
Lemma fallback_schemas_upload :
  exists results,
    _create_default_results upload = Ok results /\
    exists budget savings plan ds,
      results = [("budget_analysis", VJson budget);
                 ("savings_strategy", VJson savings);
                 ("debt_reduction", VJson plan)] /\
      get_or (debts upload) [] = Some ds /\
      output_schema Budget budget = true /\
      output_schema Savings savings = true /\
      output_schema DebtStage plan = forallb debt_complete ds.
Proof.
  eexists. split; [reflexivity|].
  apply (fallback_schemas upload). reflexivity.
Defined.

Lemma sum_nonneg (l : list Q) :
  Forall (fun a => 0 <= a)%Q l -> (0 <= sum l)%Q.
Proof.
  induction 1 as [|a l Ha _ IH]; [rewrite sum_nil; apply Qle_refl|].
  rewrite sum_cons.
  apply (Qle_trans _ (0 + 0)); [discriminate|now apply Qplus_le_compat].
Qed.

Lemma elem_le_sum (x : Q) (l : list Q) :
  Forall (fun a => 0 <= a)%Q l -> x ∈ l -> (x <= sum l)%Q.
Proof.
  induction 1 as [|a l Ha Hl IH]; intros Hx.
  - now apply elem_of_nil in Hx.
  - rewrite sum_cons. apply elem_of_cons in Hx as [->|Hx].
    + rewrite <- (Qplus_0_r a) at 1.
      apply Qplus_le_compat; [apply Qle_refl|now apply sum_nonneg].
    + rewrite <- (Qplus_0_l x).
      apply Qplus_le_compat; [exact Ha|now apply IH].
Qed.

(** X4: when no amount of the expense source is negative and the total is
    positive, every percentage of the fallback budget lies between 0 and
    100. *)
Theorem fallback_percentages_bounded (fd : FinancialInput)
    (results : dict value) (budget : json) (total : Q) :
  _create_default_results fd = Ok results ->
  dict_get "budget_analysis" results = Some (VJson budget) ->
  num_at ["total_expenses"] budget = Some total ->
  Forall (fun a => 0 <= a)%Q (column "amount" budget) ->
  (0 < total)%Q ->
  Forall (fun p => 0 <= p /\ p <= 100)%Q (column "percentage" budget).
Proof.
  intros H Hb Ht Hnonneg Hpos.
  destruct (_create_default_results_ok _ _ H)
    as (expenses & income & ds & _ & _ & _ & ->).
  injection Hb as <-. injection Ht as <-.
  rewrite column_amount in Hnonneg. rewrite column_percentage.
  rewrite (proj2 (Qlt_bool_iff _ _) Hpos).
  apply Forall_forall. intros p Hp.
  apply list_elem_of_In, in_map_iff in Hp as (a & <- & Ha).
  apply list_elem_of_In in Ha.
  assert (0 <= a)%Q as Ha0 by (rewrite Forall_forall in Hnonneg; auto).
  pose proof (elem_le_sum a _ Hnonneg Ha) as Hle.
  split.
  - apply Qmult_le_0_compat; [|discriminate].
    apply Qle_shift_div_l; [exact Hpos|]. now rewrite Qmult_0_l.
  - apply (Qle_trans _ (1 * 100)); [|discriminate].
    apply Qmult_le_compat_r; [|discriminate].
    apply Qle_shift_div_r; [exact Hpos|]. now rewrite Qmult_1_l.
Qed.

(** X4, on the scenario of the specification. *)
Lemma fallback_percentages_bounded_scenario :
  exists results budget total,
    _create_default_results scenario = Ok results /\
    dict_get "budget_analysis" results = Some (VJson budget) /\
    num_at ["total_expenses"] budget = Some total /\
    Forall (fun a => 0 <= a)%Q (column "amount" budget) /\
    (0 < total)%Q /\
    Forall (fun p => 0 <= p /\ p <= 100)%Q (column "percentage" budget).
Proof.
  eexists _, _, _.
  split; [reflexivity|]. split; [reflexivity|]. split; [reflexivity|].
  assert (Forall (fun a => 0 <= a)%Q [1200; 300]%Q) as Hn
    by (repeat constructor; discriminate).
  split; [exact Hn|]. split; [reflexivity|].
  apply (fallback_percentages_bounded scenario _ _ _ eq_refl eq_refl eq_refl Hn).
  reflexivity.
Defined.

End FallbackSchema.

(** * Further properties of the transaction preprocessor *)

Module FrameSums.
Import Frame FrameFacts.

Lemma sum_map_ext {A} (f g : A -> Q) (l : list A) :
  (forall x, f x == g x)%Q -> (sum (map f l) == sum (map g l))%Q.
Proof.
  intros H. induction l as [|x l IH]; simpl; [reflexivity|].
  now rewrite !sum_cons, IH, H.
Qed.

Lemma sum_map_zero {A} (l : list A) : (sum (map (fun _ => 0%Q) l) == 0)%Q.
Proof.
  induction l as [|x l IH]; simpl; [reflexivity|].
  rewrite sum_cons, IH. ring.
Qed.

Lemma sum_map_plus {A} (f g : A -> Q) (l : list A) :
  (sum (map (fun x => f x + g x) l) == sum (map f l) + sum (map g l))%Q.
Proof.
  induction l as [|x l IH]; simpl.
  - rewrite !sum_nil. ring.
  - rewrite !sum_cons, IH. ring.
Qed.

(** An amount filed under one key of a list without repetition is counted
    once. *)
Lemma sum_map_indicator (c0 : string) (a : Q) (keys : list string) :
  NoDup keys ->
  (sum (map (fun c => if String.eqb c c0 then a else 0) keys)
   == if bool_decide (c0 ∈ keys) then a else 0)%Q.
Proof.
  induction 1 as [|c keys Hc _ IH]; simpl; [reflexivity|].
  rewrite sum_cons, IH.
  destruct (String.eqb_spec c c0) as [->|Hne].
  - rewrite (bool_decide_eq_false_2 _ Hc).
    rewrite bool_decide_eq_true_2 by left. ring.
  - rewrite (bool_decide_ext (c0 ∈ c :: keys) (c0 ∈ keys)).
    + ring.
    + rewrite elem_of_cons. split; [intros [->|?]; [done|assumption]|tauto].
Qed.

Lemma amount_sum_cons (t : transaction) (df : list transaction) :
  (amount_sum (t :: df) == default 0 (Amount t) + amount_sum df)%Q.
Proof. unfold amount_sum. simpl. apply sum_cons. Qed.

Lemma group_sum_cons (c : string) (t : transaction) (df : list transaction) :
  (amount_sum (filter (fun t => in_group c t = true) (t :: df))
   == (if in_group c t then default 0 (Amount t) else 0)
      + amount_sum (filter (fun t => in_group c t = true) df))%Q.
Proof.
  rewrite filter_cons. destruct (in_group c t) eqn:E.
  - rewrite decide_True by reflexivity. apply amount_sum_cons.
  - rewrite decide_False by discriminate. ring.
Qed.

(** Summing the groups over keys that cover every category counts each
    categorized row once. *)
Lemma group_sums_total (keys : list string) (df : list transaction) :
  NoDup keys ->
  (forall c, c ∈ omap Category df -> c ∈ keys) ->
  (sum (map (fun c => amount_sum (filter (fun t => in_group c t = true) df)) keys)
   == amount_sum (categorized df))%Q.
Proof.
  intros Hnd. induction df as [|t df IH]; intros Hcover.
  - simpl. apply sum_map_zero.
  - rewrite (sum_map_ext _ _ _ (fun c => group_sum_cons c t df)).
    rewrite sum_map_plus.
    unfold categorized in *. rewrite filter_cons.
    destruct (Category t) as [c0|] eqn:Ec.
    + rewrite decide_True by eauto. rewrite amount_sum_cons.
      rewrite IH.
      * rewrite (sum_map_ext _ (fun c => if String.eqb c c0
                                         then default 0 (Amount t) else 0)%Q).
        -- rewrite (sum_map_indicator _ _ _ Hnd).
           rewrite bool_decide_eq_true_2; [reflexivity|].
           apply Hcover. simpl. rewrite Ec. left.
        -- intros c. unfold in_group. rewrite Ec. reflexivity.
      * intros c Hc. apply Hcover. simpl. rewrite Ec. now right.
    + rewrite decide_False by (intros [? ?]; discriminate).
      rewrite IH.
      * rewrite (sum_map_ext _ (fun _ => 0%Q)).
        -- rewrite sum_map_zero. ring.
        -- intros c. unfold in_group. rewrite Ec. reflexivity.
      * intros c Hc. apply Hcover. simpl. now rewrite Ec.
Qed.

(** The category sums of a frame add up to the amounts of its categorized
    rows. *)
Lemma groupby_sum_total (df : list transaction) :
  (sum (dict_values (groupby_sum df)) == amount_sum (categorized df))%Q.
Proof.
  unfold groupby_sum, dict_values. rewrite map_map. simpl.
  apply group_sums_total.
  - apply group_keys_sorted.
  - intros c. apply elem_of_group_keys.
Qed.

End FrameSums.

Section PreprocessorMore.
Import Frame FrameFacts FrameSums.

Variable to_datetime : string -> option string.

(** X5: the category sums written by the preprocessor are keyed in
    ascending order without repetition and add up to the amounts of the
    rows that have a category; they add up to total_spending when every
    row has one. *)
Theorem preprocess_transactions_partition (st : state)
    (txs : list transaction) :
  st !! "transactions" = Some (VTransactions txs) ->
  txs <> [] -> dates_parse to_datetime txs ->
  has_column Category txs = true -> has_column Amount txs = true ->
  exists st' cs total,
    _preprocess_transactions to_datetime st = Ok st' /\
    st' !! "category_spending" = Some (VAmounts cs) /\
    st' !! "total_spending" = Some (VJson (JNum total)) /\
    StronglySorted string_lt (dict_keys cs) /\ NoDup (dict_keys cs) /\
    (sum (dict_values cs) == amount_sum (categorized txs))%Q /\
    (Forall (fun t => is_Some (Category t)) txs ->
     (sum (dict_values cs) == total)%Q).
Proof.
  intros Hst Hne Hdates Hc Ha.
  rewrite (_preprocess_transactions_eq to_datetime st txs Hst Hne Hdates),
    Hc, Ha.
  cbn [andb]. eexists _, (groupby_sum txs), (amount_sum txs).
  split; [reflexivity|].
  split; [rewrite lookup_insert_ne by done; apply lookup_insert_eq|].
  split; [apply lookup_insert_eq|].
  assert (dict_keys (groupby_sum txs) = group_keys txs) as ->.
  { unfold dict_keys, groupby_sum. rewrite map_map. apply map_id. }
  split; [apply group_keys_sorted|]. split; [apply group_keys_sorted|].
  split; [apply groupby_sum_total|].
  intros Hall. rewrite groupby_sum_total. unfold categorized.
  assert (filter (fun t => is_Some (Category t)) txs = txs) as ->;
    [|reflexivity].
  clear -Hall. induction Hall as [|t txs Ht _ IH]; [reflexivity|].
  rewrite filter_cons, decide_True by exact Ht. now rewrite IH.
Qed.

Lemma normalize_dates_parsed (df df' : list transaction) :
  normalize_dates to_datetime df = Ok df' -> dates_parse to_datetime df.
Proof.
  revert df'. induction df as [|t df IH]; intros df' H; [constructor|].
  simpl in H. unfold normalize_row in H.
  destruct (Date t) as [d|] eqn:Ed.
  - destruct (to_datetime d) as [d'|] eqn:Ep; [|discriminate].
    simpl in H. destruct (normalize_dates to_datetime df) as [df''|];
      [|discriminate].
    constructor; [|eapply IH; reflexivity].
    intros d0 Hd0. rewrite Hd0 in Ed. injection Ed as ->. eauto.
  - simpl in H. destruct (normalize_dates to_datetime df) as [df''|];
      [|discriminate].
    constructor; [|eapply IH; reflexivity].
    intros d0 Hd0. rewrite Hd0 in Ed. discriminate.
Qed.

Lemma normalize_dates_error (df : list transaction) (e : exn) :
  normalize_dates to_datetime df = Raise e -> e = ValueError.
Proof.
  induction df as [|t df IH]; simpl; [discriminate|].
  unfold normalize_row.
  destruct (Date t) as [d|]; [destruct (to_datetime d)|]; simpl;
    try (intros [= <-]; reflexivity);
    destruct (normalize_dates to_datetime df); simpl;
    try discriminate; intros [= <-]; now apply IH.
Qed.

Lemma has_column_dates (df : list transaction) :
  has_column Date df = false ->
  Forall (fun t => Date t = None) df.
Proof.
  induction df as [|t df IH]; simpl; [constructor|].
  intros H. apply orb_false_iff in H as [Ht Hdf].
  constructor; [|now apply IH].
  destruct (Date t); [|reflexivity].
  rewrite bool_decide_eq_true_2 in Ht by eauto. discriminate.
Qed.

Lemma _preprocess_transactions_error (st : state) (txs : list transaction)
    (e : exn) :
  st !! "transactions" = Some (VTransactions txs) ->
  _preprocess_transactions to_datetime st = Raise e ->
  e = ValueError /\ ~ dates_parse to_datetime txs.
Proof.
  intros Hst. unfold _preprocess_transactions. rewrite Hst.
  destruct (negb (nonempty txs)); [discriminate|].
  destruct (has_column Date txs) eqn:Ecol.
  - destruct (normalize_dates to_datetime txs) as [df|e'] eqn:En;
      cbn [rbind].
    + destruct (has_column Category df && has_column Amount df);
        discriminate.
    + intros [= <-]. split; [eapply normalize_dates_error, En|].
      intros Hp. destruct (normalize_dates_returns _ _ Hp) as [df Hdf].
      rewrite Hdf in En. discriminate.
  - cbn [rbind].
    destruct (has_column Category txs && has_column Amount txs);
      discriminate.
Qed.

Lemma _preprocess_transactions_parsed (st st' : state)
    (txs : list transaction) :
  st !! "transactions" = Some (VTransactions txs) ->
  _preprocess_transactions to_datetime st = Ok st' ->
  dates_parse to_datetime txs.
Proof.
  intros Hst E. unfold _preprocess_transactions in E. rewrite Hst in E.
  destruct txs as [|t0 txs0]; [constructor|]. cbn [nonempty negb] in E.
  destruct (has_column Date (t0 :: txs0)) eqn:Ecol.
  - destruct (normalize_dates to_datetime (t0 :: txs0)) as [df|] eqn:En;
      [|discriminate].
    eapply normalize_dates_parsed, En.
  - apply has_column_dates in Ecol.
    eapply Forall_impl; [exact Ecol|].
    intros t Ht d Hd. rewrite Ht in Hd. discriminate.
Qed.

Lemma _preprocess_transactions_raises (st : state) (txs : list transaction)
    (t : transaction) (d : string) :
  st !! "transactions" = Some (VTransactions txs) ->
  t ∈ txs -> Date t = Some d -> to_datetime d = None ->
  _preprocess_transactions to_datetime st = Raise ValueError.
Proof.
  intros Hst Ht Hd Hrefused.
  destruct (_preprocess_transactions to_datetime st) as [st'|e] eqn:E.
  - pose proof (_preprocess_transactions_parsed _ _ _ Hst E) as Hp.
    unfold dates_parse in Hp. rewrite Forall_forall in Hp.
    destruct (Hp t Ht d Hd) as [d' Hd']. rewrite Hd' in Hrefused.
    discriminate.
  - f_equal. eapply _preprocess_transactions_error; eassumption.
Qed.

(** X6: on a non-empty sequence the preprocessor raises exactly when the
    parser refuses the Date of some row, and then with ValueError; it
    raises nothing else. *)
Theorem preprocess_transactions_refused (st : state)
    (txs : list transaction) :
  st !! "transactions" = Some (VTransactions txs) ->
  (_preprocess_transactions to_datetime st = Raise ValueError <->
   exists t d, t ∈ txs /\ Date t = Some d /\ to_datetime d = None) /\
  (forall e, _preprocess_transactions to_datetime st = Raise e ->
     e = ValueError).
Proof.
  intros Hst.
  split; [|intros e He; eapply _preprocess_transactions_error; eassumption].
  split.
  - intros H.
    destruct (_preprocess_transactions_error _ _ _ Hst H) as [_ Hnot].
    apply not_Forall_Exists in Hnot; [|].
    + apply Exists_exists in Hnot as (t & Ht & Hbad). unfold compose in Hbad.
      destruct (Date t) as [d|] eqn:Ed.
      * exists t, d. split; [exact Ht|]. split; [exact Ed|].
        destruct (to_datetime d) eqn:Ep; [|reflexivity].
        exfalso. apply Hbad. intros d0 [= <-]. rewrite Ep. eauto.
      * exfalso. apply Hbad. intros d0 Hd0. discriminate.
    + intros t. destruct (Date t) as [d|].
      * destruct (to_datetime d) eqn:Ep.
        -- left. intros d0 [= <-]. rewrite Ep. eauto.
        -- right. intros Hp. destruct (Hp d eq_refl) as [? Hx].
           rewrite Hx in Ep. discriminate.
      * left. intros d0 Hd0. discriminate.
  - intros (t & d & Ht & Hd & Hrefused).
    eapply _preprocess_transactions_raises; eassumption.
Qed.

End PreprocessorMore.

(** X5, on two purchases of food and a row without category. *)
Lemma preprocess_transactions_partition_sample :
  let txs := [groceries; unfiled; groceries] in
  exists st' cs total,
    _preprocess_transactions iso_date (state_of txs) = Ok st' /\
    st' !! "category_spending" = Some (VAmounts cs) /\
    st' !! "total_spending" = Some (VJson (JNum total)) /\
    StronglySorted string_lt (dict_keys cs) /\ NoDup (dict_keys cs) /\
    (sum (dict_values cs) == Frame.amount_sum (categorized txs))%Q /\
    (Forall (fun t => is_Some (Category t)) txs ->
     (sum (dict_values cs) == total)%Q).
Proof.
  intros txs.
  apply (preprocess_transactions_partition iso_date (state_of txs) txs);
    try done.
  repeat constructor; intros d [= <-]; vm_compute; eauto.
Defined.

(** X6, on a date that the parser refuses. *)
Lemma preprocess_transactions_refused_sample :
  let bad := {| Date := Some "yesterday"; Category := Some "Food";
                Amount := Some 3%Q |} in
  _preprocess_transactions iso_date (state_of [groceries; bad])
  = Raise ValueError.
Proof.
  intros bad.
  apply (preprocess_transactions_refused iso_date
           (state_of [groceries; bad]) [groceries; bad]); [reflexivity|].
  exists bad, "yesterday". split; [right; left|]. split; reflexivity.
Defined.

(** * The two aggregations of the transactions *)

Section Aggregations.
Import Frame FrameFacts Fallback FallbackFacts.

Lemma filter_group_category (c : string) (txs : list transaction) :
  Forall (fun t => is_Some (Category t) \/ c <> "Uncategorized") txs ->
  filter (fun t => in_group c t = true) txs =
  filter (fun t => category_of t = c) txs.
Proof.
  induction 1 as [|t txs Ht _ IH]; [reflexivity|].
  rewrite !filter_cons, IH.
  assert (in_group c t = true <-> category_of t = c) as Hiff.
  { unfold in_group, category_of. destruct (Category t) as [c'|]; simpl.
    - rewrite String.eqb_eq. split; congruence.
    - destruct Ht as [[? ?]|Hne]; [discriminate|].
      split; [discriminate|]. intros E. now destruct Hne. }
  destruct (decide (in_group c t = true)) as [Hg|Hg],
    (decide (category_of t = c)) as [Hc|Hc]; try reflexivity.
  - now apply Hiff in Hg.
  - now apply Hiff in Hc.
Qed.

Lemma elem_of_categories_cons (c : string) (t : transaction)
    (txs : list transaction) :
  c ∈ omap Category (t :: txs) <->
  Category t = Some c \/ c ∈ omap Category txs.
Proof.
  change (omap Category (t :: txs)) with
    (match Category t with Some c' => c' :: omap Category txs
     | None => omap Category txs end).
  destruct (Category t) as [c'|].
  - rewrite elem_of_cons. split; intros [H|H]; auto; left; congruence.
  - split; [tauto|]. intros [H|H]; [discriminate|exact H].
Qed.

Lemma in_group_true (c : string) (t : transaction) :
  in_group c t = true <-> Category t = Some c.
Proof.
  unfold in_group. destruct (Category t) as [c'|].
  - rewrite String.eqb_eq. split; congruence.
  - split; discriminate.
Qed.

Lemma filter_group_nil (c : string) (txs : list transaction) :
  filter (fun t => in_group c t = true) txs = [] <->
  c ∉ omap Category txs.
Proof.
  induction txs as [|t txs IH].
  - split; [intros _ H; now apply elem_of_nil in H|reflexivity].
  - rewrite filter_cons, elem_of_categories_cons.
    destruct (decide (in_group c t = true)) as [Hg|Hg].
    + apply in_group_true in Hg. split; [discriminate|]. tauto.
    + rewrite in_group_true in Hg. rewrite IH. tauto.
Qed.

(** X7: the preprocessor and the fallback synthesizer file the same sum
    under a category, unless the category is "Uncategorized" and some row
    has no category: such rows belong to no group of the preprocessor and
    to "Uncategorized" in the synthesizer. *)
Theorem category_sums_agree (c : string) (txs : list transaction) :
  c <> "Uncategorized" \/ Forall (fun t => is_Some (Category t)) txs ->
  dict_get c (groupby_sum txs) = dict_get c (aggregate txs).
Proof.
  intros H. rewrite groupby_sum_get, aggregate_get. unfold amounts_in.
  rewrite <- filter_group_category.
  - destruct (filter (fun t => in_group c t = true) txs) as [|t l] eqn:E.
    + apply filter_group_nil in E.
      now rewrite bool_decide_eq_false_2.
    + rewrite bool_decide_eq_true_2; [reflexivity|].
      destruct (decide (c ∈ omap Category txs)) as [Hin|Hout];
        [exact Hin|].
      apply filter_group_nil in Hout. rewrite Hout in E. discriminate.
  - destruct H as [Hne|Hall].
    + apply Forall_forall. intros t _. now right.
    + eapply Forall_impl; [exact Hall|]. intros t Ht. now left.
Qed.

(** X7, on food bought twice. *)
Lemma category_sums_agree_food :
  "Food" <> "Uncategorized" /\
  dict_get "Food" (groupby_sum [groceries; unfiled; groceries]) =
  dict_get "Food" (aggregate [groceries; unfiled; groceries]).
Proof.
  split; [discriminate|].
  apply (category_sums_agree "Food" [groceries; unfiled; groceries]).
  left. discriminate.
Defined.

(** Where the two differ: a row without category. *)
Lemma category_sums_differ :
  dict_get "Uncategorized" (groupby_sum [unfiled]) = None /\
  dict_get "Uncategorized" (aggregate [unfiled]) = Some (0 + 4)%Q.
Proof. split; reflexivity. Qed.

End Aggregations.

(** * Further properties of the facade *)

Section PreparedMore.
Import Frame FrameFacts Fallback FallbackFacts.

Variable to_datetime : string -> option string.

Lemma initial_state_transactions (fd : FinancialInput) :
  initial_state fd !! "transactions" =
  Some (entry_value VTransactions (get_or (transactions fd) [])).
Proof.
  unfold initial_state. rewrite !lookup_insert_ne by done.
  apply lookup_insert_eq.
Qed.

Lemma initial_state_manual_expenses (fd : FinancialInput) :
  initial_state fd !! "manual_expenses" =
  Some (entry_value VAmounts (get_or (manual_expenses fd) [])).
Proof.
  unfold initial_state. rewrite lookup_insert_ne by done.
  apply lookup_insert_eq.
Qed.

(** X8: with non-empty manual expenses, the state handed to the runner
    holds the mapping under manual_category_spending and its sum under
    total_manual_spending, and that sum is the total expenses of the
    fallback budget, whose categories and amounts are those of the
    mapping, in order. *)
Theorem manual_totals_consistent (fd : FinancialInput) (d : dict Q)
    (st : state) (results : dict value) :
  manual_expenses fd = Given d -> d <> [] ->
  prepare to_datetime fd = Ok st ->
  _create_default_results fd = Ok results ->
  exists budget total,
    dict_get "budget_analysis" results = Some (VJson budget) /\
    num_at ["total_expenses"] budget = Some total /\
    st !! "total_manual_spending" = Some (VJson (JNum total)) /\
    st !! "manual_category_spending" = Some (VAmounts d) /\
    category_names budget = dict_keys d /\
    column "amount" budget = dict_values d.
Proof.
  intros Hm Hd Hst Hres.
  destruct (_create_default_results_ok _ _ Hres)
    as (expenses & income & ds & Hex & _ & _ & ->).
  destruct (resolve_expenses_order fd) as (Hman & _).
  rewrite (Hman d Hm Hd) in Hex. injection Hex as <-.
  exists (budget_analysis income d), (sum (dict_values d)).
  rewrite category_names_budget, column_amount.
  split; [reflexivity|]. split; [reflexivity|].
  unfold prepare in Hst.
  destruct (if from_option truthy false (initial_state fd !! "transactions")
            then _ else _) as [st1|] eqn:E; [|discriminate].
  cbn [rbind] in Hst. injection Hst as <-.
  assert (st1 !! "manual_expenses" = Some (VAmounts d)) as H1.
  { transitivity (initial_state fd !! "manual_expenses").
    - destruct (from_option truthy false (initial_state fd !! "transactions")).
      + now apply (_preprocess_transactions_other to_datetime _ _ _ E).
      + now injection E as <-.
    - rewrite initial_state_manual_expenses, Hm. reflexivity. }
  rewrite H1. cbn [from_option truthy].
  destruct d as [|kv d]; [done|]. cbn [nonempty].
  unfold _preprocess_manual_expenses. rewrite H1. cbn [nonempty negb].
  split; [|split; [|split]]; try reflexivity.
  - rewrite lookup_insert_ne by done. apply lookup_insert_eq.
  - apply lookup_insert_eq.
Qed.

(** X9: when the expenses come from a non-empty transactions sequence with
    Category and Amount columns, the total_spending handed to the runner
    equals the total expenses of the fallback budget. *)
Theorem transaction_totals_consistent (fd : FinancialInput)
    (txs : list transaction) (st : state) (results : dict value) :
  from_option nonempty false (get (manual_expenses fd)) = false ->
  transactions fd = Given txs -> txs <> [] ->
  has_column Category txs = true -> has_column Amount txs = true ->
  prepare to_datetime fd = Ok st ->
  _create_default_results fd = Ok results ->
  exists budget total spending,
    dict_get "budget_analysis" results = Some (VJson budget) /\
    num_at ["total_expenses"] budget = Some total /\
    st !! "total_spending" = Some (VJson (JNum spending)) /\
    (total == spending)%Q.
Proof.
  intros Hm Ht Hne Hc Ha Hst Hres.
  destruct (_create_default_results_ok _ _ Hres)
    as (expenses & income & ds & Hex & _ & _ & ->).
  destruct (resolve_expenses_order fd) as (_ & Horder & _).
  rewrite (Horder txs Hm Ht Hne) in Hex. injection Hex as <-.
  exists (budget_analysis income (aggregate txs)),
    (sum (dict_values (aggregate txs))), (amount_sum txs).
  split; [reflexivity|]. split; [reflexivity|].
  split; [|apply aggregate_total].
  unfold prepare in Hst.
  assert (initial_state fd !! "transactions" = Some (VTransactions txs)) as H0
    by (rewrite initial_state_transactions, Ht; reflexivity).
  rewrite H0 in Hst. cbn [from_option truthy] in Hst.
  destruct txs as [|t txs]; [done|]. cbn [nonempty] in Hst.
  destruct (_preprocess_transactions to_datetime (initial_state fd))
    as [st1|] eqn:E; [|discriminate].
  cbn [rbind] in Hst. injection Hst as <-.
  pose proof (_preprocess_transactions_parsed to_datetime _ _ _ H0 E)
    as Hdates.
  rewrite (_preprocess_transactions_eq to_datetime _ _ H0 Hne Hdates),
    Hc, Ha in E.
  cbn [andb] in E. injection E as <-.
  assert (forall (s : state),
            s !! "manual_expenses" = initial_state fd !! "manual_expenses" ->
            from_option truthy false (s !! "manual_expenses") = false) as Hfalse.
  { intros s ->. rewrite initial_state_manual_expenses.
    destruct (manual_expenses fd) as [| |[|]]; try reflexivity. discriminate. }
  rewrite Hfalse by (now rewrite !lookup_insert_ne by done).
  apply lookup_insert_eq.
Qed.

End PreparedMore.

(** X8, on the scenario of the specification. *)
Lemma manual_totals_consistent_scenario :
  exists st results budget total,
    prepare iso_date scenario = Ok st /\
    Fallback._create_default_results scenario = Ok results /\
    dict_get "budget_analysis" results = Some (VJson budget) /\
    num_at ["total_expenses"] budget = Some total /\
    st !! "total_manual_spending" = Some (VJson (JNum total)) /\
    st !! "manual_category_spending"
      = Some (VAmounts [("Housing", 1200%Q); ("Food", 300%Q)]) /\
    category_names budget = ["Housing"; "Food"] /\
    column "amount" budget = [1200%Q; 300%Q].
Proof.
  destruct (manual_totals_consistent iso_date scenario
              [("Housing", 1200%Q); ("Food", 300%Q)] _ _
              eq_refl ltac:(discriminate) eq_refl eq_refl)
    as (budget & total & H).
  eexists _, _, budget, total.
  split; [reflexivity|]. split; [reflexivity|]. exact H.
Defined.

(** X9, on an upload of three rows. *)
Lemma transaction_totals_consistent_upload :
  exists st results budget total spending,
    prepare iso_date upload = Ok st /\
    Fallback._create_default_results upload = Ok results /\
    dict_get "budget_analysis" results = Some (VJson budget) /\
    num_at ["total_expenses"] budget = Some total /\
    st !! "total_spending" = Some (VJson (JNum spending)) /\
    (total == spending)%Q.
Proof.
  assert (prepare iso_date upload = Ok
            (<["total_spending" :=
                 VJson (JNum (Frame.amount_sum [groceries; unfiled; groceries]))]>
             (<["category_spending" :=
                  VAmounts (Frame.groupby_sum [groceries; unfiled; groceries])]>
                (initial_state upload)))) as Hst by reflexivity.
  destruct (transaction_totals_consistent iso_date upload
              [groceries; unfiled; groceries] _ _
              eq_refl eq_refl ltac:(discriminate) eq_refl eq_refl Hst eq_refl)
    as (budget & total & spending & H).
  eexists _, _, budget, total, spending.
  split; [exact Hst|]. split; [reflexivity|]. exact H.
Defined.

Section FacadeMore.
Import Fallback FallbackFacts.

Variable to_datetime : string -> option string.
Variable json_loads : string -> result json.
Variable runner : FinancialInput -> state -> result unit * state.

Local Abbreviation analyze := (analyze_finances to_datetime json_loads runner).

(** X10: an exception of the runner reaches the caller of
    [analyze_finances] as it is, no fallback value is returned in its
    place, and the sessions of the service are afterwards what they were
    before the run. *)
Theorem analyze_finances_runner_error (now : datetime) (fd : FinancialInput)
    (s : service) (st st' : state) (default_results : dict value) (e : exn) :
  sessions s !! make_session_id now = None ->
  prepare to_datetime fd = Ok st ->
  _create_default_results fd = Ok default_results ->
  runner fd st = (Raise e, st') ->
  fst (analyze now fd s) = Raise e /\
  sessions (snd (analyze now fd s)) = sessions s.
Proof.
  intros Hfresh Hst Hd Hrun.
  destruct (analyze_finances_fresh to_datetime json_loads runner now fd s
              Hfresh) as (-> & -> & _).
  split; [|reflexivity].
  unfold facade_outcome. rewrite Hst, Hd. cbn [rbind]. now rewrite Hrun.
Qed.

Lemma prepare_without_transactions (fd : FinancialInput) :
  entry_truthy (transactions fd) = false ->
  exists st, prepare to_datetime fd = Ok st.
Proof.
  intros Ht. unfold prepare. rewrite initial_state_transactions.
  assert (from_option truthy false
            (Some (entry_value VTransactions (get_or (transactions fd) [])))
          = false) as ->.
  { destruct (transactions fd) as [| |[|]]; try reflexivity. discriminate. }
  cbn [rbind]. eauto.
Qed.

(** X11: with the manual expenses bound to [None] and no transaction,
    [analyze_finances] raises AttributeError on a free session id whatever
    the runner would do: the fallback values are computed before the
    runner is started. *)
Theorem analyze_finances_without_source (now : datetime)
    (fd : FinancialInput) (s : service) :
  sessions s !! make_session_id now = None ->
  manual_expenses fd = Null ->
  entry_truthy (transactions fd) = false ->
  fst (analyze now fd s) = Raise AttributeError /\
  sessions (snd (analyze now fd s)) = sessions s.
Proof.
  intros Hfresh Hm Ht.
  destruct (analyze_finances_fresh to_datetime json_loads runner now fd s
              Hfresh) as (-> & -> & _).
  split; [|reflexivity].
  destruct (prepare_without_transactions fd Ht) as [st Hst].
  unfold facade_outcome. rewrite Hst. cbn [rbind].
  now rewrite (fallback_null_manual_raises fd Hm Ht).
Qed.

(** X12: when the parser refuses the Date of one transaction,
    [analyze_finances] raises ValueError on a free session id whatever
    the other fields of the input and whatever the runner would do. *)
Theorem analyze_finances_refused_date (now : datetime) (fd : FinancialInput)
    (s : service) (txs : list transaction) (t : transaction) (d : string) :
  sessions s !! make_session_id now = None ->
  transactions fd = Given txs ->
  t ∈ txs -> Date t = Some d -> to_datetime d = None ->
  fst (analyze now fd s) = Raise ValueError /\
  sessions (snd (analyze now fd s)) = sessions s.
Proof.
  intros Hfresh Ht Hin Hd Hrefused.
  destruct (analyze_finances_fresh to_datetime json_loads runner now fd s
              Hfresh) as (-> & -> & _).
  split; [|reflexivity].
  unfold facade_outcome, prepare.
  assert (initial_state fd !! "transactions" = Some (VTransactions txs)) as H0
    by (rewrite initial_state_transactions, Ht; reflexivity).
  rewrite H0. cbn [from_option truthy].
  destruct txs as [|t0 txs]; [now apply elem_of_nil in Hin|].
  cbn [nonempty].
  now rewrite (_preprocess_transactions_raises to_datetime _ _ t d H0 Hin Hd
                 Hrefused).
Qed.

(** X13: under an output key the result holds the fallback value whenever
    the final state has no value there, a falsy value, or a text on which
    the decoder raises JSONDecodeError; and there is a result when the
    decoder raises nothing but JSONDecodeError on the texts left under
    the output keys. *)
Theorem analyze_finances_falls_back (now : datetime) (fd : FinancialInput)
    (s : service) (st updated : state) (default_results : dict value)
    (stg : stage) :
  sessions s !! make_session_id now = None ->
  prepare to_datetime fd = Ok st ->
  _create_default_results fd = Ok default_results ->
  runner fd st = (Ok (), updated) ->
  updated !! output_key stg = None \/
  (exists v, updated !! output_key stg = Some v /\ truthy v = false) \/
  (exists text, updated !! output_key stg = Some (VJson (JStr text)) /\
                json_loads text = Raise JSONDecodeError) ->
  (forall results,
     fst (analyze now fd s) = Ok results ->
     is_Some (dict_get (output_key stg) results) /\
     dict_get (output_key stg) results
     = dict_get (output_key stg) default_results) /\
  ((forall stg' text' e,
      updated !! output_key stg' = Some (VJson (JStr text')) ->
      json_loads text' = Raise e -> e = JSONDecodeError) ->
   exists results, fst (analyze now fd s) = Ok results).
Proof.
  intros Hfresh Hst Hd Hrun Hkey.
  destruct (analyze_finances_fresh to_datetime json_loads runner now fd s
              Hfresh) as (-> & _).
  unfold facade_outcome. rewrite Hst, Hd. cbn [rbind]. rewrite Hrun.
  cbn [rbind].
  destruct (_create_default_results_ok _ _ Hd)
    as (expenses & income & ds & _ & _ & _ & ->).
  rewrite collect_results_three. split.
  - assert (forall fallback,
              merged_value json_loads updated (output_key stg) fallback
              = Ok fallback) as Hm.
    { intros fallback. unfold merged_value.
      destruct Hkey as [->|[(v & -> & ->)|(text & -> & Hnone)]];
        try reflexivity.
      simpl. rewrite Hnone. now destruct (negb _). }
    intros results.
    destruct stg; cbn [output_key] in Hm;
      destruct (merged_value json_loads updated "budget_analysis" _)
        as [mb|] eqn:Eb; try discriminate;
      destruct (merged_value json_loads updated "savings_strategy" _)
        as [ms|] eqn:Es; try discriminate;
      destruct (merged_value json_loads updated "debt_reduction" _)
        as [md|] eqn:Ed; try discriminate;
      cbn [rbind]; intros [= <-];
      rewrite Hm in *;
      cbn [output_key dict_get String.eqb Ascii.eqb Bool.eqb];
      (split; [eauto|congruence]).
  - intros Hall.
    destruct (merged_value_returns json_loads updated "budget_analysis"
                (VJson (budget_analysis income expenses))) as [mb ->].
    { intros t e. apply (Hall Budget). }
    destruct (merged_value_returns json_loads updated "savings_strategy"
                (VJson (savings_strategy income (sum (dict_values expenses)))))
      as [ms ->].
    { intros t e. apply (Hall Savings). }
    destruct (merged_value_returns json_loads updated "debt_reduction"
                (VJson (debt_reduction ds))) as [md ->].
    { intros t e. apply (Hall DebtStage). }
    cbn [rbind]. eauto.
Qed.

(** X14: when the session service already holds a session under the id of
    the run, [analyze_finances] raises DuplicateSessionError without a get
    on the session, and its cleanup deletes the session that was there. *)
Theorem analyze_finances_taken_id (now : datetime) (fd : FinancialInput)
    (s : service) (other : state) :
  let sid := make_session_id now in
  sessions s !! sid = Some other ->
  fst (analyze now fd s) = Raise DuplicateSessionError /\
  sessions (snd (analyze now fd s)) !! sid = None /\
  (forall sid', sid' <> sid ->
     sessions (snd (analyze now fd s)) !! sid' = sessions s !! sid') /\
  calls (snd (analyze now fd s)) =
  (calls s ++ [CreateSession sid (initial_state fd); DeleteSession sid])%list.
Proof.
  intros sid Hother.
  destruct (analyze_finances_duplicate to_datetime json_loads runner
              now fd s) as (-> & -> & ->); [eauto|].
  split; [reflexivity|]. split; [apply lookup_delete_eq|].
  split; [|reflexivity].
  intros sid' Hne. now apply lookup_delete_ne.
Qed.

End FacadeMore.

(** X10, on a runner that raises. *)
Lemma analyze_finances_runner_error_sample :
  fst (analyze_finances iso_date loads_42 crashes noon scenario no_sessions)
  = Raise (RuntimeError "model unavailable") /\
  sessions (snd (analyze_finances iso_date loads_42 crashes noon scenario
                   no_sessions)) = sessions no_sessions.
Proof.
  eapply (analyze_finances_runner_error iso_date loads_42 crashes
            noon scenario no_sessions); reflexivity.
Defined.

(** X11, on an upload without rows. *)
Lemma analyze_finances_without_source_sample :
  fst (analyze_finances iso_date loads_42 (Coordinator.run budget_only)
         noon empty_upload no_sessions) = Raise AttributeError /\
  sessions (snd (analyze_finances iso_date loads_42
                   (Coordinator.run budget_only) noon empty_upload
                   no_sessions)) = sessions no_sessions.
Proof.
  apply (analyze_finances_without_source iso_date loads_42
           (Coordinator.run budget_only) noon empty_upload no_sessions);
    reflexivity.
Defined.

(** X12, on an upload with a date that the parser refuses. *)
Lemma analyze_finances_refused_date_sample :
  fst (analyze_finances iso_date loads_42 (Coordinator.run budget_only)
         noon misdated no_sessions) = Raise ValueError /\
  sessions (snd (analyze_finances iso_date loads_42
                   (Coordinator.run budget_only) noon misdated no_sessions))
  = sessions no_sessions.
Proof.
  apply (analyze_finances_refused_date iso_date loads_42
           (Coordinator.run budget_only) noon misdated no_sessions
           [groceries; misdated_row] misdated_row "yesterday");
    try reflexivity.
  right; left.
Defined.

(** X13, on a runner that leaves a text that does not decode. *)
Lemma analyze_finances_falls_back_sample :
  exists default_results results,
    Fallback._create_default_results scenario = Ok default_results /\
    fst (analyze_finances iso_date loads_42 writes_broken noon scenario
           no_sessions) = Ok results /\
    is_Some (dict_get "budget_analysis" results) /\
    dict_get "budget_analysis" results
    = dict_get "budget_analysis" default_results.
Proof.
  eexists _.
  edestruct (analyze_finances_falls_back iso_date loads_42 writes_broken
               noon scenario no_sessions _ _ _ Budget
               eq_refl eq_refl eq_refl eq_refl) as (Hvalue & Hreturns).
  { right. right. exists "{". split; reflexivity. }
  destruct Hreturns as [results Hr].
  { intros stg' text' e Hk He. destruct stg'; try discriminate.
    injection Hk as <-. revert He. vm_compute. congruence. }
  exists results. split; [reflexivity|]. split; [exact Hr|].
  exact (Hvalue results Hr).
Defined.

(** X14, on a service where the id of the run is taken. *)
Lemma analyze_finances_taken_id_sample :
  let sid := make_session_id noon in
  let run := analyze_finances iso_date loads_42 (Coordinator.run budget_only)
               noon overdrawn busy in
  sessions busy !! sid = Some (initial_state scenario) /\
  fst run = Raise DuplicateSessionError /\
  sessions (snd run) !! sid = None /\
  (forall sid', sid' <> sid ->
     sessions (snd run) !! sid' = sessions busy !! sid') /\
  calls (snd run) =
  (calls busy ++ [CreateSession sid (initial_state overdrawn);
                  DeleteSession sid])%list.
Proof.
  intros sid run.
  assert (sessions busy !! sid = Some (initial_state scenario)) as H
    by apply lookup_singleton_eq.
  split; [exact H|].
  apply (analyze_finances_taken_id iso_date loads_42
           (Coordinator.run budget_only) noon overdrawn busy _ H).
Defined.

(** * The learning path *)

Section LearningPath.

Lemma learning_path_cases (fd : FinancialInput) (goals : list Goals.goal) :
  exists c b i : bool,
    c = (entry_truthy (debts fd)
         && Qlt_bool 0 (Fallback.debt_total (default [] (get (debts fd))))) /\
    b = (entry_truthy (manual_expenses fd) || entry_truthy (transactions fd)) /\
    i = (nonempty goals
         && existsb (fun g => Qlt_bool 1000 (Goals.target g)) goals) /\
    suggest_learning_path fd goals =
    if c || b || i
    then ((if c then ["Understanding Credit Scores"] else []) ++
          (if b then ["Budgeting Basics"] else []) ++
          (if i then ["Investing 101"] else []))%list
    else ["Budgeting Basics"; "Understanding Credit Scores"; "Investing 101"].
Proof.
  eexists _, _, _. split; [reflexivity|]. split; [reflexivity|].
  split; [reflexivity|]. unfold suggest_learning_path.
  destruct (entry_truthy (debts fd) && _), (_ || _), (nonempty goals && _);
    reflexivity.
Qed.

(** X15: the learning path is never empty, names no lesson twice, and
    every title in it, its first one included, is the title of a lesson,
    so that looking the first title up among the lessons cannot fail. *)
Theorem suggest_learning_path_sound (fd : FinancialInput)
    (goals : list Goals.goal) :
  let path := suggest_learning_path fd goals in
  NoDup path /\
  (forall t, t ∈ path -> t ∈ map Lessons.title Lessons.lessons) /\
  exists first, head path = Some first /\
                first ∈ map Lessons.title Lessons.lessons.
Proof.
  destruct (learning_path_cases fd goals) as (c & b & i & _ & _ & _ & H).
  cbn zeta. rewrite H. clear H.
  assert (forall l : list string,
            NoDup l ->
            (forall t, t ∈ l -> t ∈ map Lessons.title Lessons.lessons) ->
            l <> [] ->
            NoDup l /\
            (forall t, t ∈ l -> t ∈ map Lessons.title Lessons.lessons) /\
            exists first, head l = Some first /\
                          first ∈ map Lessons.title Lessons.lessons) as Hl.
  { intros [|t l] Hnd Hin Hne; [done|].
    split; [exact Hnd|]. split; [exact Hin|].
    exists t. split; [reflexivity|]. apply Hin. left. }
  destruct c, b, i; apply Hl; try discriminate;
    try (apply (bool_decide_unpack _); vm_compute; exact I);
    intros t Ht; cbn in Ht |- *;
    repeat (apply elem_of_cons in Ht as [->|Ht]);
    try (now apply elem_of_nil in Ht);
    apply (bool_decide_unpack _); vm_compute; exact I.
Qed.

(** X16: a lesson is on the path exactly when its trigger holds, debts
    with a positive total for credit scores, expenses for budgeting, a
    goal above 1000 for investing, in that order; when no trigger holds
    the path is the list of all lessons. *)
Theorem suggest_learning_path_triggers (fd : FinancialInput)
    (goals : list Goals.goal) :
  let owes := entry_truthy (debts fd)
              && Qlt_bool 0 (Fallback.debt_total
                               (default [] (get (debts fd)))) in
  let spends := entry_truthy (manual_expenses fd)
                || entry_truthy (transactions fd) in
  let aims := nonempty goals
              && existsb (fun g => Qlt_bool 1000 (Goals.target g)) goals in
  let path := suggest_learning_path fd goals in
  (owes || spends || aims = true ->
   ("Understanding Credit Scores" ∈ path <-> owes = true) /\
   ("Budgeting Basics" ∈ path <-> spends = true) /\
   ("Investing 101" ∈ path <-> aims = true) /\
   path `sublist_of`
     ["Understanding Credit Scores"; "Budgeting Basics"; "Investing 101"]) /\
  (owes || spends || aims = false ->
   path = map Lessons.title Lessons.lessons).
Proof.
  destruct (learning_path_cases fd goals) as (c & b & i & <- & <- & <- & H).
  cbn zeta. rewrite H. clear H.
  destruct c, b, i; (split; [intros Hany|intros Hnone]);
    try discriminate; try reflexivity;
    (split; [|split; [|split]]);
    try (cbn; solve [repeat first [apply sublist_nil | apply sublist_skip
                                  | apply sublist_cons]]);
    (split; [intros Hin|intros Htrue]);
    try reflexivity; try discriminate;
    try (apply (bool_decide_unpack _); vm_compute; exact I);
    repeat (apply elem_of_cons in Hin as [Hin|Hin]; [discriminate|]);
    now apply elem_of_nil in Hin.
Qed.

End LearningPath.

(** X16, on the scenario of the specification. *)
Lemma suggest_learning_path_triggers_scenario :
  "Understanding Credit Scores" ∈ suggest_learning_path scenario [] /\
  "Budgeting Basics" ∈ suggest_learning_path scenario [] /\
  ~ "Investing 101" ∈ suggest_learning_path scenario [].
Proof.
  destruct (suggest_learning_path_triggers scenario []) as [H _].
  destruct (H eq_refl) as (Hc & Hb & Hi & _).
  split; [now apply Hc|]. split; [now apply Hb|].
  intros Hin. apply Hi in Hin. discriminate.
Defined.

(** * The input built by [main] *)

Section MainInput.
Import Fallback FallbackFacts.

(** X17: whichever option of the expense radio is chosen, [main] passes an
    input on to [analyze_finances]: its test for an upload without a file
    never holds.  On that input the fallback synthesizer raises
    AttributeError exactly for the upload option without a file or
    without rows; with the manual form it returns a budget that lists the
    nine categories of the form, in order. *)
Theorem main_financial_data_fallback (income : Q) (dependants : Z)
    (expense_option : string) (uploaded : option (list transaction))
    (entered : string -> Q) (ds : list debt) :
  expense_option ∈ expense_options ->
  exists fd,
    main_financial_data income dependants expense_option uploaded
      entered ds = Some fd /\
    (_create_default_results fd = Raise AttributeError <->
     expense_option = "📤 Upload CSV Transactions" /\
     (uploaded = None \/ uploaded = Some [])) /\
    (expense_option = "✍️ Enter Manually" ->
     exists results budget,
       _create_default_results fd = Ok results /\
       dict_get "budget_analysis" results = Some (VJson budget) /\
       category_names budget = expense_categories /\
       column "amount" budget = map entered expense_categories).
Proof.
  unfold expense_options. rewrite !elem_of_cons, elem_of_nil.
  intros [->|[->|[]]]; eexists; (split; [reflexivity|]).
  - split; [|discriminate].
    destruct uploaded as [[|t rows]|]; cbn; split;
      try discriminate; try tauto; try (intros [_ [[=]|[=]]]).
  - split; [split; [discriminate|intros [[=] _]]|].
    intros _. eexists _, _. split; [reflexivity|]. split; [reflexivity|].
    rewrite category_names_budget, column_amount. split; reflexivity.
Qed.

End MainInput.

(** X17, on an upload without a file and on the manual form. *)
Lemma main_financial_data_fallback_sample :
  (exists fd,
     main_financial_data 3000 0 "📤 Upload CSV Transactions" None
       (fun _ => 0%Q) [] = Some fd /\
     Fallback._create_default_results fd = Raise AttributeError) /\
  (exists fd results budget,
     main_financial_data 3000 0 "✍️ Enter Manually" None
       (fun _ => 100%Q) [] = Some fd /\
     Fallback._create_default_results fd = Ok results /\
     dict_get "budget_analysis" results = Some (VJson budget) /\
     category_names budget = expense_categories /\
     column "amount" budget = map (fun _ => 100%Q) expense_categories).
Proof.
  split.
  - destruct (main_financial_data_fallback 3000 0
                "📤 Upload CSV Transactions" None (fun _ => 0%Q) [])
      as (fd & Hfd & Hraise & _).
    { unfold expense_options. rewrite !elem_of_cons. tauto. }
    exists fd. split; [exact Hfd|]. apply Hraise. tauto.
  - destruct (main_financial_data_fallback 3000 0
                "✍️ Enter Manually" None (fun _ => 100%Q) [])
      as (fd & Hfd & _ & Hmanual).
    { unfold expense_options. rewrite !elem_of_cons. tauto. }
    destruct (Hmanual eq_refl) as (results & budget & H).
    exists fd, results, budget. split; [exact Hfd|exact H].
Defined.

(** * Smart goals *)

Section SmartGoals.

Lemma valid_date_iff (d : date) :
  valid_date d = true <->
  (1 <= date_year d < 100 * 100 /\ 1 <= date_month d <= 12 /\
   1 <= date_day d <= days_in_month (date_year d) (date_month d))%nat.
Proof.
  unfold valid_date.
  rewrite !andb_true_iff, !Nat.leb_le, Nat.ltb_lt. tauto.
Qed.

Lemma not_leap_after (y k : nat) :
  is_leap y = true -> k = 1%nat \/ k = 2%nat -> is_leap (y + k) = false.
Proof.
  unfold is_leap. intros H Hk.
  apply andb_true_iff in H as [H _]. apply Nat.eqb_eq in H.
  rewrite Nat.Div0.add_mod, H. destruct Hk as [-> | ->]; reflexivity.
Qed.

Lemma days_in_month_year (y y' m : nat) :
  m <> 2%nat -> days_in_month y m = days_in_month y' m.
Proof.
  intros Hm. do 3 (destruct m as [|m]; [reflexivity || done|]).
  reflexivity.
Qed.

Lemma days_in_february (y : nat) : (28 <= days_in_month y 2)%nat.
Proof. unfold days_in_month. destruct (is_leap y); lia. Qed.

(** On 29 February the same day of a later year does not exist. *)
Lemma replace_leap_day (today : date) (k : nat) :
  valid_date today = true ->
  date_month today = 2%nat -> date_day today = 29%nat ->
  k = 1%nat \/ k = 2%nat ->
  replace (date_year today + k) (date_month today) (date_day today)
  = Raise ValueError.
Proof.
  intros Hv Hm Hd Hk. apply valid_date_iff in Hv as (_ & _ & _ & Hday).
  rewrite Hm, Hd in *. unfold replace.
  assert (is_leap (date_year today) = true) as Hleap.
  { unfold days_in_month in Hday.
    destruct (is_leap (date_year today)); [reflexivity|lia]. }
  assert (valid_date {| date_year := date_year today + k; date_month := 2;
                        date_day := 29 |} = false) as ->; [|reflexivity].
  apply not_true_iff_false. intros Hv'.
  apply valid_date_iff in Hv' as (_ & _ & _ & Hday'). cbn in Hday'.
  rewrite (not_leap_after _ _ Hleap Hk) in Hday'. lia.
Qed.

(** On any other day it does, while the year stays in range. *)
Lemma replace_other_day (today : date) (k : nat) :
  valid_date today = true ->
  ~ (date_month today = 2%nat /\ date_day today = 29%nat) ->
  (date_year today + k < 100 * 100)%nat ->
  replace (date_year today + k) (date_month today) (date_day today)
  = Ok {| date_year := date_year today + k;
          date_month := date_month today; date_day := date_day today |}.
Proof.
  intros Hv Hleap Hy. apply valid_date_iff in Hv as (Hyear & Hmonth & Hday).
  unfold replace.
  assert (valid_date {| date_year := date_year today + k;
                        date_month := date_month today;
                        date_day := date_day today |} = true) as ->;
    [|reflexivity].
  apply valid_date_iff. cbn. split; [lia|]. split; [lia|].
  split; [lia|].
  destruct (decide (date_month today = 2%nat)) as [Hm|Hm].
  - rewrite Hm in *. pose proof (days_in_february (date_year today + k)).
    assert (date_day today <= 29)%nat
      by (unfold days_in_month in Hday;
          destruct (is_leap (date_year today)); lia).
    assert (date_day today <> 29%nat) by tauto. lia.
  - now rewrite (days_in_month_year _ (date_year today) _ Hm).
Qed.

Lemma replace_year_end (today : date) :
  valid_date today = true ->
  replace (date_year today) 12 31
  = Ok {| date_year := date_year today; date_month := 12; date_day := 31 |}.
Proof.
  intros Hv. apply valid_date_iff in Hv as (Hyear & _).
  unfold replace.
  assert (valid_date {| date_year := date_year today; date_month := 12;
                        date_day := 31 |} = true) as ->; [|reflexivity].
  apply valid_date_iff. cbn. lia.
Qed.

(** What [suggest_smart_goals] returns when it returns. *)
Lemma suggest_smart_goals_ok (today : date) (ud : FinancialInput)
    (goals : list Goals.goal) :
  suggest_smart_goals today ud = Ok goals ->
  exists income d1 d2 d3,
    get_or (monthly_income ud) 0%Q = Some income /\
    goals =
    ((if Qlt_bool 0 (known_expenses ud)
      then [emergency_fund (known_expenses ud) d1] else []) ++
     (if wants_vacation ud income
      then [vacation (known_expenses ud) d2] else []) ++
     (if owes ud
      then [debt_payoff
              (Fallback.debt_total (default [] (get (debts ud)))) d3]
      else []))%list.
Proof.
  unfold suggest_smart_goals, wants_vacation, owes, emergency_fund, vacation,
    debt_payoff.
  set (r1 := replace (date_year today + 1) (date_month today) (date_day today)).
  set (r2 := replace (date_year today) 12 31).
  set (r3 := replace (date_year today + 2) (date_month today) (date_day today)).
  destruct (get_or (monthly_income ud) 0%Q) as [income|].
  - intros H. exists income,
      (match r1 with Ok day => isoformat day | Raise _ => "" end),
      (match r2 with Ok day => isoformat day | Raise _ => "" end),
      (match r3 with Ok day => isoformat day | Raise _ => "" end).
    split; [reflexivity|]. revert H.
    destruct (Qlt_bool 0 (known_expenses ud)), r1,
      (Qlt_bool (known_expenses ud) income && Qlt_bool 0 income), r2,
      (entry_truthy (debts ud)),
      (Qlt_bool 0 (Fallback.debt_total (default [] (get (debts ud))))), r3;
      cbn; intros H; try discriminate; injection H as <-; reflexivity.
  - destruct (Qlt_bool 0 (known_expenses ud)), r1; cbn; discriminate.
Qed.

End SmartGoals.

Section SmartGoalClaims.

(** X18: on 29 February [suggest_smart_goals] raises ValueError as soon as
    an Emergency Fund goal is due, for positive expenses, or a Debt Payoff
    goal, for a positive total debt: their deadlines are the same day one
    and two years later, which does not exist. *)
Theorem suggest_smart_goals_leap_day (today : date) (ud : FinancialInput)
    (income : Q) :
  valid_date today = true ->
  date_month today = 2%nat -> date_day today = 29%nat ->
  get_or (monthly_income ud) 0%Q = Some income ->
  Qlt_bool 0 (known_expenses ud) = true \/ owes ud = true ->
  suggest_smart_goals today ud = Raise ValueError.
Proof.
  intros Hv Hm Hd Hi Hdue. unfold suggest_smart_goals.
  rewrite (replace_leap_day today 1 Hv Hm Hd (or_introl eq_refl)).
  rewrite (replace_leap_day today 2 Hv Hm Hd (or_intror eq_refl)).
  rewrite (replace_year_end today Hv), Hi.
  destruct (Qlt_bool 0 (known_expenses ud)) eqn:E1; [reflexivity|].
  destruct Hdue as [Hdue|Hdue]; [discriminate|].
  unfold owes in Hdue. apply andb_true_iff in Hdue as [-> ->].
  cbn [rbind]. now destruct (Qlt_bool (known_expenses ud) income && _).
Qed.

(** X19: on any other day, while the deadlines stay within the years that
    a date can hold, [suggest_smart_goals] returns: an Emergency Fund goal
    for positive expenses, a Vacation goal for a positive income above the
    expenses, a Debt Payoff goal whose target is the total debt when it is
    positive, in that order, each with nothing saved yet. *)
Theorem suggest_smart_goals_returns (today : date) (ud : FinancialInput)
    (income : Q) :
  valid_date today = true ->
  ~ (date_month today = 2%nat /\ date_day today = 29%nat) ->
  (date_year today + 2 < 100 * 100)%nat ->
  get_or (monthly_income ud) 0%Q = Some income ->
  exists goals,
    suggest_smart_goals today ud = Ok goals /\
    map Goals.name goals =
      ((if Qlt_bool 0 (known_expenses ud) then ["Emergency Fund"] else []) ++
       (if wants_vacation ud income then ["Vacation"] else []) ++
       (if owes ud then ["Debt Payoff"] else []))%list /\
    NoDup (map Goals.name goals) /\
    Forall (fun g => Goals.current g = 0%Q) goals /\
    (forall g, g ∈ goals -> Goals.name g = "Debt Payoff" ->
       Goals.target g
       = Fallback.debt_total (default [] (get (debts ud)))).
Proof.
  intros Hv Hleap Hy Hi.
  assert (exists goals, suggest_smart_goals today ud = Ok goals)
    as [goals Hg].
  { unfold suggest_smart_goals.
    rewrite (replace_other_day today 1 Hv Hleap) by lia.
    rewrite (replace_other_day today 2 Hv Hleap) by lia.
    rewrite (replace_year_end today Hv), Hi.
    destruct (Qlt_bool 0 (known_expenses ud)),
      (Qlt_bool (known_expenses ud) income && Qlt_bool 0 income),
      (entry_truthy (debts ud)),
      (Qlt_bool 0 (Fallback.debt_total (default [] (get (debts ud)))));
      cbn; eauto. }
  exists goals. split; [exact Hg|].
  destruct (suggest_smart_goals_ok today ud goals Hg)
    as (income' & d1 & d2 & d3 & Hi' & ->).
  rewrite Hi in Hi'. injection Hi' as <-.
  destruct (Qlt_bool 0 (known_expenses ud)), (wants_vacation ud income),
    (owes ud); cbn;
    (split; [reflexivity|]);
    (split; [apply (bool_decide_unpack _); vm_compute; exact I|]);
    (split; [repeat constructor|]);
    intros g Hin Hname;
    repeat (apply elem_of_cons in Hin as [->|Hin];
            [first [reflexivity | discriminate]|]);
    now apply elem_of_nil in Hin.
Qed.

Lemma round_half_even_near (x : Q) :
  (- (1 # 2) <= inject_Z (round_half_even x) - x <= 1 # 2)%Q.
Proof.
  unfold round_half_even.
  pose proof (Qfloor_le x) as Hlo. pose proof (Qlt_floor x) as Hhi.
  rewrite inject_Z_plus in Hhi. change (inject_Z 1) with 1%Q in Hhi.
  destruct (Qcompare_spec (x - inject_Z (Qfloor x)) (1 # 2)) as [E|E|E];
    [destruct (Z.even (Qfloor x))|..];
    rewrite ?inject_Z_plus; change (inject_Z 1) with 1%Q; lra.
Qed.

Lemma round_hundreds_near (x : Q) :
  (-50 <= round_hundreds x - x <= 50)%Q.
Proof.
  unfold round_hundreds.
  pose proof (round_half_even_near (x / 100)) as H.
  set (r := inject_Z (round_half_even (x / 100))) in *.
  assert (x == x / 100 * 100)%Q as E by (field; discriminate).
  set (y := (x / 100)%Q) in *. lra.
Qed.

(** X20: the target of the suggested Emergency Fund is a whole number of
    hundreds within 50 of three times the expenses; for expenses below a
    third of 50 it is 0. *)
Theorem emergency_fund_target (today : date) (ud : FinancialInput)
    (goals : list Goals.goal) :
  suggest_smart_goals today ud = Ok goals ->
  Qlt_bool 0 (known_expenses ud) = true ->
  exists g rest,
    goals = g :: rest /\ Goals.name g = "Emergency Fund" /\
    (exists k : Z, Goals.target g = inject_Z k * 100)%Q /\
    (-50 <= Goals.target g - known_expenses ud * 3 <= 50)%Q /\
    (known_expenses ud * 3 < 50 -> Goals.target g == 0)%Q.
Proof.
  intros Hg Hpos.
  destruct (suggest_smart_goals_ok today ud goals Hg)
    as (income & d1 & d2 & d3 & _ & ->).
  rewrite Hpos. eexists _, _. split; [reflexivity|].
  split; [reflexivity|]. cbn [emergency_fund Goals.target].
  split; [eexists; reflexivity|].
  pose proof (round_hundreds_near (known_expenses ud * 3)) as Hnear.
  split; [exact Hnear|]. intros Hsmall.
  apply Qlt_bool_iff in Hpos.
  unfold round_hundreds in *.
  set (k := round_half_even (known_expenses ud * 3 / 100)) in *.
  assert (-1 < k < 1)%Z as Hk.
  { split; rewrite Zlt_Qlt; change (inject_Z (-1)) with (-1)%Q;
      change (inject_Z 1) with 1%Q; lra. }
  assert (k = 0%Z) as -> by lia. reflexivity.
Qed.

End SmartGoalClaims.

(** X18, on 29 February 2024 with the scenario of the specification. *)
Lemma suggest_smart_goals_leap_day_sample :
  valid_date leap_day = true /\
  suggest_smart_goals leap_day scenario = Raise ValueError.
Proof.
  split; [reflexivity|].
  apply (suggest_smart_goals_leap_day leap_day scenario 3000);
    try reflexivity.
  left. reflexivity.
Defined.

(** X19, on 1 June 2025 with the scenario of the specification. *)
Lemma suggest_smart_goals_returns_sample :
  exists goals,
    suggest_smart_goals june_first scenario = Ok goals /\
    map Goals.name goals = ["Emergency Fund"; "Vacation"; "Debt Payoff"] /\
    NoDup (map Goals.name goals) /\
    Forall (fun g => Goals.current g = 0%Q) goals /\
    (forall g, g ∈ goals -> Goals.name g = "Debt Payoff" ->
       Goals.target g
       = Fallback.debt_total (default [] (get (debts scenario)))).
Proof.
  apply (suggest_smart_goals_returns june_first scenario 3000);
    first [reflexivity | cbn; lia | intros [H _]; discriminate].
Defined.

(** X20, on expenses of 12 a month: the suggested target is 0. *)
Lemma emergency_fund_target_frugal :
  exists goals g rest,
    suggest_smart_goals june_first frugal = Ok goals /\
    goals = g :: rest /\ Goals.name g = "Emergency Fund" /\
    (exists k : Z, Goals.target g = inject_Z k * 100)%Q /\
    (-50 <= Goals.target g - known_expenses frugal * 3 <= 50)%Q /\
    (known_expenses frugal * 3 < 50 -> Goals.target g == 0)%Q.
Proof.
  eexists.
  edestruct (emergency_fund_target june_first frugal) as (g & rest & H);
    [reflexivity|reflexivity|].
  exists g, rest. split; [reflexivity|exact H].
Defined.

(** * The what-if simulation *)

Section Simulation.

Variables sim_income sim_expenses sim_debt sim_debt_payment sim_savings : Q.

Local Abbreviation after :=
  (run_simulation sim_income sim_expenses sim_debt sim_debt_payment
     sim_savings).

(** What one month adds to the savings. *)
Local Abbreviation monthly :=
  (sim_savings +
   max0 (sim_income - sim_expenses - sim_debt_payment - sim_savings))%Q.

Lemma max0_nonneg (x : Q) : (0 <= max0 x)%Q.
Proof.
  unfold max0. destruct (Qlt_bool 0 x) eqn:E; [|apply Qle_refl].
  apply Qlt_bool_iff in E. now apply Qlt_le_weak.
Qed.

Lemma max0_cases (x : Q) :
  ((0 < x)%Q /\ max0 x = x) \/ ((x <= 0)%Q /\ max0 x = 0%Q).
Proof.
  unfold max0. destruct (Qlt_bool 0 x) eqn:E.
  - left. split; [now apply Qlt_bool_iff|reflexivity].
  - right. split; [|reflexivity]. apply Qnot_lt_le. intros H.
    apply Qlt_bool_iff in H. congruence.
Qed.

Lemma max0_eq (x y : Q) : (x == y)%Q -> (max0 x == max0 y)%Q.
Proof.
  intros E. destruct (max0_cases x) as [[Hx ->]|[Hx ->]],
    (max0_cases y) as [[Hy ->]|[Hy ->]]; lra.
Qed.

Lemma max0_twice (x p : Q) :
  (0 <= p)%Q -> (max0 (max0 x - p) == max0 (x - p))%Q.
Proof.
  intros Hp. destruct (max0_cases x) as [[Hx ->]|[Hx Ex]].
  - reflexivity.
  - rewrite Ex.
    destruct (max0_cases (0 - p)) as [[H ->]|[H ->]],
      (max0_cases (x - p)) as [[H' ->]|[H' ->]]; lra.
Qed.

Lemma max0_le (x y : Q) : (x <= y)%Q -> (max0 x <= max0 y)%Q.
Proof.
  intros E. destruct (max0_cases x) as [[Hx ->]|[Hx ->]],
    (max0_cases y) as [[Hy ->]|[Hy ->]]; lra.
Qed.

Lemma after_S (n : nat) :
  after (S n) =
  simulation_step sim_income sim_expenses sim_debt_payment sim_savings
    (after n).
Proof. reflexivity. Qed.

Lemma proj_lengths (n : nat) :
  length (proj_debt (after n)) = n /\ length (proj_savings (after n)) = n.
Proof.
  induction n as [|n [IHd IHs]]; [split; reflexivity|].
  rewrite after_S. cbn [simulation_step proj_debt proj_savings].
  rewrite !length_app, IHd, IHs. cbn. lia.
Qed.

(** The entry of month [k + 1] is the value of the variable after
    [k + 1] turns of the loop. *)
Lemma proj_lookup (n k : nat) :
  (k < n)%nat ->
  proj_debt (after n) !! k = Some (debt_left (after (S k))) /\
  proj_savings (after n) !! k = Some (savings (after (S k))).
Proof.
  induction n as [|n IH]; [lia|]. intros Hk.
  destruct (proj_lengths n) as [Hd Hs].
  rewrite (after_S n). cbn [simulation_step proj_debt proj_savings].
  destruct (decide (k = n)) as [->|Hne].
  - split.
    + rewrite lookup_app_r by lia. rewrite Hd, Nat.sub_diag. reflexivity.
    + rewrite lookup_app_r by lia. rewrite Hs, Nat.sub_diag. reflexivity.
  - destruct IH as [IHd IHs]; [lia|].
    split; rewrite lookup_app_l by lia; assumption.
Qed.

Lemma debt_left_after (k : nat) :
  (0 <= sim_debt_payment)%Q ->
  (debt_left (after (S k))
   == max0 (sim_debt - inject_Z (Z.of_nat (S k)) * sim_debt_payment))%Q.
Proof.
  intros Hp. induction k as [|k IH].
  - cbn. apply max0_eq. ring.
  - rewrite (after_S (S k)). cbn [simulation_step debt_left].
    eapply Qeq_trans.
    { apply max0_eq. unfold Qminus.
      apply Qplus_comp; [exact IH|reflexivity]. }
    eapply Qeq_trans; [apply (max0_twice _ _ Hp)|].
    apply max0_eq.
    rewrite (Nat2Z.inj_succ (S k)). unfold Z.succ.
    rewrite inject_Z_plus. change (inject_Z 1) with 1%Q. ring.
Qed.

Lemma savings_after (n : nat) :
  (savings (after n) == inject_Z (Z.of_nat n) * monthly)%Q.
Proof.
  induction n as [|n IH].
  - cbn. ring.
  - rewrite after_S. cbn [simulation_step savings]. rewrite IH.
    rewrite Nat2Z.inj_succ. unfold Z.succ.
    rewrite inject_Z_plus. change (inject_Z 1) with 1%Q. ring.
Qed.

(** X21: with a debt payment that is not negative, the projected debt has
    one entry per month, the entry of month k is max(0, debt - k *
    payment), it is never negative and never above the entry of the month
    before. *)
Theorem projected_debt (sim_months : nat) :
  (0 <= sim_debt_payment)%Q ->
  length (proj_debt (after sim_months)) = sim_months /\
  (forall k, (k < sim_months)%nat ->
     exists v,
       proj_debt (after sim_months) !! k = Some v /\
       (v == max0 (sim_debt - inject_Z (Z.of_nat (S k)) * sim_debt_payment))%Q /\
       (0 <= v)%Q) /\
  (forall k v w,
     proj_debt (after sim_months) !! k = Some v ->
     proj_debt (after sim_months) !! S k = Some w -> (w <= v)%Q).
Proof.
  intros Hp. split; [apply proj_lengths|]. split.
  - intros k Hk. destruct (proj_lookup sim_months k Hk) as [Hd _].
    eexists. split; [exact Hd|]. split; [now apply debt_left_after|].
    rewrite (after_S k). apply max0_nonneg.
  - intros k v w Hv Hw.
    assert (S k < sim_months)%nat as Hk.
    { apply lookup_lt_Some in Hw. now rewrite (proj1 (proj_lengths _)) in Hw. }
    destruct (proj_lookup sim_months k) as [Hd _]; [lia|].
    destruct (proj_lookup sim_months (S k) Hk) as [Hd' _].
    rewrite Hd in Hv. rewrite Hd' in Hw.
    injection Hv as <-. injection Hw as <-.
    rewrite (debt_left_after (S k) Hp), (debt_left_after k Hp).
    apply max0_le. rewrite (Nat2Z.inj_succ (S k)). unfold Z.succ.
    rewrite inject_Z_plus. change (inject_Z 1) with 1%Q. lra.
Qed.

(** X22: the projected savings of month k are k times the planned saving
    plus what the income leaves after expenses, debt payment and saving,
    if it leaves anything; a shortfall is not deducted, so with a planned
    saving that is not negative they are never below k times that
    saving. *)
Theorem projected_savings (sim_months k : nat) :
  (k < sim_months)%nat ->
  exists v,
    proj_savings
      (run_simulation sim_income sim_expenses sim_debt sim_debt_payment
         sim_savings sim_months) !! k = Some v /\
    (v == inject_Z (Z.of_nat (S k)) *
          (sim_savings +
           max0 (sim_income - sim_expenses - sim_debt_payment
                 - sim_savings)))%Q /\
    ((0 <= sim_savings)%Q ->
     (inject_Z (Z.of_nat (S k)) * sim_savings <= v)%Q).
Proof.
  intros Hk. destruct (proj_lookup sim_months k Hk) as [_ Hs].
  eexists. split; [exact Hs|]. split; [apply savings_after|].
  intros Hsv. rewrite savings_after.
  pose proof (max0_nonneg (sim_income - sim_expenses - sim_debt_payment
                           - sim_savings)) as Hm.
  assert (0 <= inject_Z (Z.of_nat (S k)))%Q as Hn.
  { change 0%Q with (inject_Z 0). rewrite <- Zle_Qle. lia. }
  set (n := inject_Z (Z.of_nat (S k))) in *.
  set (m := max0 _) in *.
  assert (0 <= n * m)%Q by now apply Qmult_le_0_compat.
  assert (n * (sim_savings + m) == n * sim_savings + n * m)%Q as -> by ring.
  lra.
Qed.

End Simulation.

(** X21, on a debt of 500 paid by 200 a month. *)
Lemma projected_debt_sample :
  let p := run_simulation 3000 2000 500 200 500 4 in
  length (proj_debt p) = 4%nat /\
  (forall k, (k < 4)%nat ->
     exists v,
       proj_debt p !! k = Some v /\
       (v == max0 (500 - inject_Z (Z.of_nat (S k)) * 200))%Q /\
       (0 <= v)%Q) /\
  (forall k v w,
     proj_debt p !! k = Some v -> proj_debt p !! S k = Some w -> (w <= v)%Q).
Proof.
  apply (projected_debt 3000 2000 500 200 500 4). discriminate.
Defined.

(** X22, on an income below the expenses: the shortfall is not deducted. *)
Lemma projected_savings_sample :
  exists v,
    proj_savings (run_simulation 1000 2000 500 200 500 4) !! 3%nat = Some v /\
    (v == inject_Z (Z.of_nat 4) * (500 + max0 (1000 - 2000 - 200 - 500)))%Q /\
    ((0 <= 500)%Q -> (inject_Z (Z.of_nat 4) * 500 <= v)%Q).
Proof.
  apply (projected_savings 1000 2000 500 200 500 4 3). lia.
Defined.

(** * The goals tracker *)

Section GoalsTracker.
Import Goals.

Lemma add_savings_absent (n : string) (amt : Q) (goals : list goal) :
  n ∉ map name goals -> add_savings n amt goals = goals.
Proof.
  induction goals as [|g goals IH]; [reflexivity|].
  cbn [map add_savings]. rewrite not_elem_of_cons. intros [Hne Hnot].
  apply not_eq_sym, String.eqb_neq in Hne. rewrite Hne. now rewrite IH.
Qed.

(** X23: the Add Savings button changes the first goal of the clicked
    name and no other: the names, targets and deadlines stay as they
    were, the amount saved in total grows by the amount added when a goal
    has that name, and nothing changes when none has it. *)
Theorem add_savings_first (n : string) (amt : Q) (goals : list goal) :
  map name (add_savings n amt goals) = map name goals /\
  map target (add_savings n amt goals) = map target goals /\
  map deadline (add_savings n amt goals) = map deadline goals /\
  (n ∈ map name goals ->
   (total_saved (add_savings n amt goals) == total_saved goals + amt)%Q /\
   exists before g rest,
     goals = (before ++ g :: rest)%list /\ (n ∉ map name before) /\
     name g = n /\
     add_savings n amt goals =
     (before ++ ({| name := name g; target := target g;
                    current := current g + amt; deadline := deadline g |}
                 :: rest))%list) /\
  (n ∉ map name goals -> add_savings n amt goals = goals).
Proof.
  split; [|split; [|split; [|split]]].
  - induction goals as [|g goals IH]; [reflexivity|]. cbn [add_savings].
    destruct (String.eqb (name g) n); cbn [map]; [reflexivity|].
    now rewrite IH.
  - induction goals as [|g goals IH]; [reflexivity|]. cbn [add_savings].
    destruct (String.eqb (name g) n); cbn [map]; [reflexivity|].
    now rewrite IH.
  - induction goals as [|g goals IH]; [reflexivity|]. cbn [add_savings].
    destruct (String.eqb (name g) n); cbn [map]; [reflexivity|].
    now rewrite IH.
  - induction goals as [|g goals IH]; cbn [map add_savings].
    + intros H. now apply elem_of_nil in H.
    + intros Hin. destruct (String.eqb_spec (name g) n) as [Hg|Hg].
      * split.
        -- unfold total_saved. cbn [map current]. rewrite !sum_cons. ring.
        -- exists [], g, goals. split; [reflexivity|].
           split; [apply not_elem_of_nil|]. split; [exact Hg|reflexivity].
      * apply elem_of_cons in Hin as [Hin|Hin]; [now destruct Hg|].
        destruct (IH Hin) as (Hsum & before & g' & rest & -> & Hb & Hn & Heq).
        split.
        -- unfold total_saved in *. cbn [map]. rewrite !sum_cons, Hsum. ring.
        -- exists (g :: before), g', rest. split; [reflexivity|].
           split; [|split; [exact Hn|]].
           ++ cbn [map]. rewrite not_elem_of_cons. split; [congruence|exact Hb].
           ++ cbn [app]. now rewrite Heq.
  - apply add_savings_absent.
Qed.

(** X24: the Delete button removes every goal of the clicked name, not
    only the clicked one, and keeps the other goals in their order; a
    later Add Savings under that name changes nothing. *)
Theorem delete_goal_all (n : string) (goals : list goal) :
  (n ∉ map name (delete_goal n goals)) /\
  (forall g, g ∈ delete_goal n goals <-> g ∈ goals /\ name g <> n) /\
  (delete_goal n goals) `sublist_of` goals /\
  (forall amt,
     add_savings n amt (delete_goal n goals) = delete_goal n goals).
Proof.
  assert (n ∉ map name (delete_goal n goals)) as Hnot.
  { intros Hin. apply list_elem_of_fmap in Hin as (g & Hn & Hg).
    apply list_elem_of_filter in Hg as [Hne _]. now rewrite <- Hn in Hne. }
  split; [exact Hnot|]. split; [|split].
  - intros g. unfold delete_goal. rewrite list_elem_of_filter. tauto.
  - apply sublist_filter.
  - intros amt. now apply add_savings_absent.
Qed.

End GoalsTracker.

(** X23, on two goals named "Car": only the first one grows. *)
Lemma add_savings_first_cars :
  "Car" ∈ map Goals.name [trip; car; car_again] /\
  (Goals.total_saved (Goals.add_savings "Car" 50 [trip; car; car_again])
   == Goals.total_saved [trip; car; car_again] + 50)%Q /\
  exists before g rest,
    [trip; car; car_again] = (before ++ g :: rest)%list /\
    ("Car" ∉ map Goals.name before) /\ Goals.name g = "Car" /\
    Goals.add_savings "Car" 50 [trip; car; car_again] =
    (before ++ ({| Goals.name := Goals.name g; Goals.target := Goals.target g;
                   Goals.current := Goals.current g + 50;
                   Goals.deadline := Goals.deadline g |} :: rest))%list.
Proof.
  assert ("Car" ∈ map Goals.name [trip; car; car_again]) as Hin
    by (right; left).
  split; [exact Hin|].
  destruct (add_savings_first "Car" 50 [trip; car; car_again])
    as (_ & _ & _ & H & _).
  exact (H Hin).
Defined.

(** X24, on two goals named "Car": both go. *)
Lemma delete_goal_all_cars :
  Goals.delete_goal "Car" [trip; car; car_again] = [trip] /\
  "Car" ∉ map Goals.name (Goals.delete_goal "Car" [trip; car; car_again]).
Proof.
  split; [reflexivity|].
  apply (delete_goal_all "Car" [trip; car; car_again]).
Defined.
